(** * Attendance calculator: the projection engine of
      [AttendanceCalculator.tsx], [AttendanceChart.tsx] and
      [AttendanceInsights.tsx], over a model of JavaScript numbers.

    A JavaScript [number] is an IEEE 754 binary64 value.  Every arithmetic
    operator returns the exact rational result rounded to the nearest
    representable value, ties to even.  The model below keeps that rounding:
    the formulas of the calculator are written with the rounded operators,
    and the properties are stated on what these operators return. *)

From Stdlib Require Import ZArith QArith Qround Qabs Qpower Qreduction.
From Stdlib Require Import Lia Lra Psatz Bool List String.
From Stdlib Require SpecFloat.
Import ListNotations.

Local Open Scope Z_scope.
Local Open Scope Q_scope.

(** ** Rounding to binary64 *)

Module Binary64.

(** [pow2 c] is 2^c for any integer exponent. *)
Definition pow2 (c : Z) : Q := 2 ^ c.

(** [ilog2 x] is the integer part of the base-2 logarithm of a positive
    rational: the exponent of its leading bit. *)
Definition ilog2 (x : Q) : Z :=
  let l := (Z.log2 (Qnum x) - Z.log2 (Zpos (Qden x)))%Z in
  if Qle_bool (pow2 l) x then l else (l - 1)%Z.

(** Exponent of the unit in the last place: 53 significant bits, and never
    below the subnormal exponent -1074. *)
Definition ulp_exp (x : Q) : Z := Z.max (ilog2 x - 52) (-1074).

(** Nearest integer, ties to the even one. *)
Definition rhe (q : Q) : Z :=
  let f := Qfloor q in
  match Qcompare (q - inject_Z f) (1 # 2) with
  | Lt => f
  | Gt => (f + 1)%Z
  | Eq => if Z.even f then f else (f + 1)%Z
  end.

Definition round_pos (x : Q) : Q :=
  let c := ulp_exp x in inject_Z (rhe (x / pow2 c)) * pow2 c.

(** Round to nearest even with an unbounded exponent range above. *)
Definition RN (x : Q) : Q :=
  match Qcompare x 0 with
  | Eq => 0
  | Gt => round_pos x
  | Lt => - round_pos (- x)
  end.

End Binary64.

(** ** JavaScript numbers *)

Module JS.

Import Binary64.

(** A number is NaN, an infinity, a zero or a finite non-zero rational.
    [Fin 0] is the positive zero and [NZero] the negative zero; they compare
    equal and differ as divisors and under [Math.max]. *)
Inductive number : Type :=
| NaN
| Inf (negative : bool)
| NZero
| Fin (q : Q).

Definition Qneg (q : Q) : bool :=
  match Qcompare q 0 with Lt => true | _ => false end.

(** The zero of a given sign. *)
Definition zero (negative : bool) : number :=
  if negative then NZero else Fin 0.

(** Sign bit of a number (NaN has none that the operators observe). *)
Definition signbit (x : number) : bool :=
  match x with
  | NaN => false
  | Inf s => s
  | NZero => true
  | Fin q => Qneg q
  end.

(** Correctly rounded result of an operation whose exact value is [x]:
    magnitudes that round to 2^1024 or more overflow to an infinity, and a
    negative value that rounds to zero underflows to the negative zero. *)
Definition rnd (x : Q) : number :=
  let y := Qred (RN x) in
  if Qle_bool (pow2 1024) (Qabs y) then Inf (Qneg y)
  else if Qeq_bool y 0 && Qneg x then NZero
  else Fin y.

(** An integer literal, or the integer read by [parseInt]. *)
Definition of_Z (z : Z) : number := rnd (inject_Z z).

Definition add (x y : number) : number :=
  match x, y with
  | NaN, _ | _, NaN => NaN
  | Inf s, Inf s' => if Bool.eqb s s' then Inf s else NaN
  | Inf s, _ => Inf s
  | _, Inf s => Inf s
  | NZero, NZero => NZero
  | NZero, Fin b => Fin b
  | Fin a, NZero => Fin a
  | Fin a, Fin b => rnd (a + b)
  end.

Definition sub (x y : number) : number :=
  match x, y with
  | NaN, _ | _, NaN => NaN
  | Inf s, Inf s' => if Bool.eqb s s' then NaN else Inf s
  | Inf s, _ => Inf s
  | _, Inf s => Inf (negb s)
  | NZero, NZero => Fin 0
  | NZero, Fin b => if Qeq_bool b 0 then NZero else rnd (- b)
  | Fin a, NZero => Fin a
  | Fin a, Fin b => rnd (a - b)
  end.

Definition mul (x y : number) : number :=
  match x, y with
  | NaN, _ | _, NaN => NaN
  | Inf s, Inf s' => Inf (xorb s s')
  | Inf _, NZero | NZero, Inf _ => NaN
  | Inf s, Fin q | Fin q, Inf s =>
      if Qeq_bool q 0 then NaN else Inf (xorb s (Qneg q))
  | NZero, NZero => Fin 0
  | NZero, Fin q | Fin q, NZero => zero (negb (Qneg q))
  | Fin a, Fin b =>
      if Qeq_bool (a * b) 0 then zero (xorb (Qneg a) (Qneg b)) else rnd (a * b)
  end.

(** The value of a zero or finite number. *)
Definition value (x : number) : Q :=
  match x with
  | Fin q => q
  | _ => 0
  end.

Definition div (x y : number) : number :=
  match x, y with
  | NaN, _ | _, NaN => NaN
  | Inf _, Inf _ => NaN
  | Inf s, _ => Inf (xorb s (signbit y))
  | _, Inf s => zero (xorb (signbit x) s)
  | _, _ =>
      let a := value x in
      let b := value y in
      let s := xorb (signbit x) (signbit y) in
      if Qeq_bool b 0
      then (if Qeq_bool a 0 then NaN else Inf s)
      else if Qeq_bool a 0 then zero s
      else rnd (a / b)
  end.

(** Comparisons: every comparison with NaN is false; the two zeros are
    equal. *)
Definition le (x y : number) : bool :=
  match x, y with
  | NaN, _ | _, NaN => false
  | Inf true, _ => true
  | _, Inf false => true
  | Inf false, _ => false
  | _, Inf true => false
  | _, _ => Qle_bool (value x) (value y)
  end.

Definition lt (x y : number) : bool :=
  match x, y with
  | NaN, _ | _, NaN => false
  | _, _ => negb (le y x)
  end.

Definition ge (x y : number) : bool := le y x.
Definition gt (x y : number) : bool := lt y x.

(** [Math.max]: NaN if an argument is NaN; of the two zeros the positive
    one is the larger. *)
Definition max (x y : number) : number :=
  match x, y with
  | NaN, _ | _, NaN => NaN
  | _, _ =>
      if lt x y then y
      else if lt y x then x
      else match x with NZero => y | _ => x end
  end.

(** [Math.abs]. *)
Definition abs (x : number) : number :=
  match x with
  | NaN => NaN
  | Inf _ => Inf false
  | NZero => Fin 0
  | Fin q => Fin (Qred (Qabs q))
  end.

(** [Math.ceil]: a value in (-1, 0) goes to the negative zero. *)
Definition ceil (x : number) : number :=
  match x with
  | Fin q =>
      if Qneg q && (Qceiling q =? 0)%Z then NZero
      else Fin (inject_Z (Qceiling q))
  | _ => x
  end.

(** [Math.floor]. *)
Definition floor (x : number) : number :=
  match x with
  | Fin q => Fin (inject_Z (Qfloor q))
  | _ => x
  end.

(** Truthiness of a number, as the operands of [||] and [!] see it. *)
Definition truthy (x : number) : bool :=
  match x with
  | NaN => false
  | Inf _ => true
  | NZero => false
  | Fin q => negb (Qeq_bool q 0)
  end.

End JS.

Import JS.

(** Integers that a [number] holds exactly: [Number.MAX_SAFE_INTEGER] is
    2^53 - 1.  The three fields of the form are read with [parseInt], so the
    data of the calculator are integers; the properties below range over the
    integers a [number] holds exactly. *)
Definition MAX_SAFE_INTEGER : Z := 2 ^ 53 - 1.

Definition safe_integer (z : Z) : Prop :=
  (- MAX_SAFE_INTEGER <= z <= MAX_SAFE_INTEGER)%Z.

(** ** AttendanceCalculator.tsx *)

(** [interface AttendanceData] *)
Record AttendanceData : Type := {
  totalClasses : number;
  attendedClasses : number;
  targetPercentage : number
}.

Inductive Status : Type := safe | warning | danger.

(** The three message templates of [calculateAttendance], with the values
    they interpolate.  [MsgSafe above bunk] stands for
    "Great! You're ${above.toFixed(1)}% above target. Safe to bunk ${bunk}
    classes."; [MsgWarning attend target] for "Close to minimum! Attend
    ${attend} more classes to reach ${target}%."; [MsgDanger attend] for
    "Critical! You need to attend ${attend} more classes to avoid
    condonation.". *)
Inductive Message : Type :=
| MsgSafe (above bunk : number)
| MsgWarning (attend target : number)
| MsgDanger (attend : number).

(** [interface AttendanceResult] *)
Record AttendanceResult : Type := {
  currentPercentage : number;
  status : Status;
  classesToAttend : number;
  classesToBunk : number;
  message : Message
}.

(** The two guards at the head of [calculateAttendance]. *)
Inductive InvalidInput : Type :=
| TotalNotPositive      (* "Total classes must be greater than 0" *)
| AttendedExceedsTotal. (* "Attended classes cannot exceed total classes" *)

Inductive Outcome : Type :=
| Failed (e : InvalidInput)
| Computed (r : AttendanceResult).

(** The body of [calculateAttendance] from the destructuring of [data] down
    to the record handed to [setResult]. *)
Definition compute (data : AttendanceData) : Outcome :=
  let totalClasses := totalClasses data in
  let attendedClasses := attendedClasses data in
  let targetPercentage := targetPercentage data in
  if le totalClasses (of_Z 0) then Failed TotalNotPositive
  else if gt attendedClasses totalClasses then Failed AttendedExceedsTotal
  else
    let currentPercentage := mul (div attendedClasses totalClasses) (of_Z 100) in
    let classesToAttend :=
      max (of_Z 0)
          (ceil (div (sub (mul targetPercentage totalClasses)
                          (mul (of_Z 100) attendedClasses))
                     (sub (of_Z 100) targetPercentage))) in
    let maxMissableClasses :=
      floor (div (sub attendedClasses
                      (mul (div targetPercentage (of_Z 100)) totalClasses))
                 (div targetPercentage (of_Z 100))) in
    let classesToBunk := max (of_Z 0) maxMissableClasses in
    if ge currentPercentage targetPercentage then
      Computed {| currentPercentage := currentPercentage;
                  status := safe;
                  classesToAttend := classesToAttend;
                  classesToBunk := classesToBunk;
                  message := MsgSafe (sub currentPercentage targetPercentage)
                                     classesToBunk |}
    else if ge currentPercentage (sub targetPercentage (of_Z 5)) then
      Computed {| currentPercentage := currentPercentage;
                  status := warning;
                  classesToAttend := classesToAttend;
                  classesToBunk := classesToBunk;
                  message := MsgWarning classesToAttend targetPercentage |}
    else
      Computed {| currentPercentage := currentPercentage;
                  status := danger;
                  classesToAttend := classesToAttend;
                  classesToBunk := classesToBunk;
                  message := MsgDanger classesToAttend |}.

(** Toasts raised by the component. *)
Inductive Toast : Type :=
| InvalidInputToast (e : InvalidInput)
| CalculationComplete (currentPercentage : number)
| CalculatorReset.

(** State of the component: the [useState] cells and the toasts shown. *)
Record State : Type := {
  data : AttendanceData;
  result : option AttendanceResult;
  isExportDialogOpen : bool;
  toasts : list Toast
}.

Definition initialData : AttendanceData :=
  {| totalClasses := of_Z 0; attendedClasses := of_Z 0;
     targetPercentage := of_Z 75 |}.

Definition initialState : State :=
  {| data := initialData; result := None;
     isExportDialogOpen := false; toasts := [] |}.

(** [calculateAttendance]: a guard that fails raises a toast and returns
    before [setResult]; otherwise the result is stored and a toast raised. *)
Definition calculateAttendance (st : State) : State :=
  match compute (data st) with
  | Failed e =>
      {| data := data st; result := result st;
         isExportDialogOpen := isExportDialogOpen st;
         toasts := toasts st ++ [InvalidInputToast e] |}
  | Computed r =>
      {| data := data st; result := Some r;
         isExportDialogOpen := isExportDialogOpen st;
         toasts := toasts st ++ [CalculationComplete (currentPercentage r)] |}
  end.

Definition resetCalculator (st : State) : State :=
  {| data := initialData; result := None;
     isExportDialogOpen := isExportDialogOpen st;
     toasts := toasts st ++ [CalculatorReset] |}.

Inductive Field : Type := FTotalClasses | FAttendedClasses | FTargetPercentage.

(** [updateData(field, value)]: [parsed] is what [parseInt(value)] returns,
    an integer or [None] for NaN; [parseInt(value) || 0] replaces NaN and
    zero by 0. *)
Definition updateData (field : Field) (parsed : option Z) (st : State) : State :=
  let numValue :=
    match parsed with
    | Some z => if truthy (of_Z z) then of_Z z else of_Z 0
    | None => of_Z 0
    end in
  let prev := data st in
  let next :=
    match field with
    | FTotalClasses =>
        {| totalClasses := numValue; attendedClasses := attendedClasses prev;
           targetPercentage := targetPercentage prev |}
    | FAttendedClasses =>
        {| totalClasses := totalClasses prev; attendedClasses := numValue;
           targetPercentage := targetPercentage prev |}
    | FTargetPercentage =>
        {| totalClasses := totalClasses prev; attendedClasses := attendedClasses prev;
           targetPercentage := numValue |}
    end in
  {| data := next; result := result st;
     isExportDialogOpen := isExportDialogOpen st; toasts := toasts st |}.

(** The data held after the three fields were typed as integers. *)
Definition mkData (total attended target : Z) : AttendanceData :=
  {| totalClasses := of_Z total; attendedClasses := of_Z attended;
     targetPercentage := of_Z target |}.

(** ** AttendanceChart.tsx *)

Module AttendanceChart.

Record Scenario : Type := { label : string; classes : number }.

(** An element of [futureAttendanceScenarios]: the scenario it spreads
    ([...scenario]: label and classes) with its percentage and status. *)
Record Projection : Type := {
  scenario : Scenario;
  percentage : number;
  status : Status           (* 'safe' or 'danger' *)
}.

Definition scenarios : list Scenario :=
  [ {| label := "If you attend next 5 classes"; classes := of_Z 5 |};
    {| label := "If you attend next 10 classes"; classes := of_Z 10 |};
    {| label := "If you miss next 3 classes"; classes := of_Z (-3) |};
    {| label := "If you miss next 5 classes"; classes := of_Z (-5) |} ].

(** The arrow function mapped over the scenarios. *)
Definition project (data : AttendanceData) (scenario : Scenario) : Projection :=
  let newAttended := add (attendedClasses data) (max (of_Z 0) (classes scenario)) in
  let newTotal := add (totalClasses data) (abs (classes scenario)) in
  let newPercentage := mul (div newAttended newTotal) (of_Z 100) in
  {| scenario := scenario;
     percentage := newPercentage;
     status := if ge newPercentage (targetPercentage data) then safe else danger |}.

(** [list.map(scenario => ...)] for any list of scenarios. *)
Definition projectScenarios (data : AttendanceData) (l : list Scenario) : list Projection :=
  map (project data) l.

Definition futureAttendanceScenarios (data : AttendanceData) : list Projection :=
  projectScenarios data scenarios.

End AttendanceChart.

(** ** AttendanceInsights.tsx *)

Module AttendanceInsights.

Inductive InsightType : Type := info | success.

(** An element of [targetInsights]: the target of its title
    "Reach ${target}% Attendance", the classes needed that its description
    prints, and its type. *)
Record TargetInsight : Type := {
  target : number;
  classesNeeded : number;
  insightType : InsightType
}.

(** [Math.max(0, Math.ceil((target * totalClasses - 100 * attendedClasses) /
    (100 - target)))] *)
Definition classesNeededFor (data : AttendanceData) (target : number) : number :=
  max (of_Z 0)
      (ceil (div (sub (mul target (totalClasses data))
                      (mul (of_Z 100) (attendedClasses data)))
                 (sub (of_Z 100) target))).

Definition customTargets (data : AttendanceData) : list number :=
  filter (fun target => gt target (targetPercentage data))
         [of_Z 80; of_Z 85; of_Z 90; of_Z 95].

Definition targetInsights (data : AttendanceData) : list TargetInsight :=
  map (fun target =>
         let classesNeeded := classesNeededFor data target in
         {| target := target;
            classesNeeded := classesNeeded;
            insightType := if gt classesNeeded (of_Z 0) then info else success |})
      (firstn 2 (customTargets data)).

End AttendanceInsights.

(** ** [Math.min] and decimal literals *)

Module Math.

(** [Math.min]: NaN if an argument is NaN; of the two zeros the negative
    one is the smaller. *)
Definition min (x y : number) : number :=
  match x, y with
  | NaN, _ | _, NaN => NaN
  | _, _ =>
      if lt x y then x
      else if lt y x then y
      else match x with NZero => x | _ => y end
  end.

End Math.

(** A decimal literal such as [0.9] denotes the number nearest to its
    value. *)
Definition literal (q : Q) : number := rnd q.

(** ** AttendanceCalculator.tsx: what the component renders *)

(** The [disabled] attribute of the Calculate button:
    [!data.totalClasses || !data.attendedClasses]. *)
Definition calculateDisabled (data : AttendanceData) : bool :=
  negb (truthy (totalClasses data)) || negb (truthy (attendedClasses data)).

(** A click on the Calculate button: a disabled button fires no handler. *)
Definition clickCalculate (st : State) : State :=
  if calculateDisabled (data st) then st else calculateAttendance st.

(** The Share button is rendered only beside a result; its handler is
    [setIsExportDialogOpen(true)]. *)
Definition clickShare (st : State) : State :=
  match result st with
  | None => st
  | Some _ =>
      {| data := data st; result := result st;
         isExportDialogOpen := true; toasts := toasts st |}
  end.

(** The two rows under the message:
    [result.status !== 'safe' && result.classesToAttend > 0] and
    [result.status === 'safe' && result.classesToBunk > 0]. *)
Definition showClassesToAttend (result : AttendanceResult) : bool :=
  match status result with
  | safe => false
  | _ => gt (classesToAttend result) (of_Z 0)
  end.

Definition showSafeToBunk (result : AttendanceResult) : bool :=
  match status result with
  | safe => gt (classesToBunk result) (of_Z 0)
  | _ => false
  end.

(** ** AttendanceChart.tsx: the breakdown and the bars *)

Module AttendanceChartView.

Definition missedClasses (data : AttendanceData) : number :=
  sub (totalClasses data) (attendedClasses data).

Definition attendedPercent (data : AttendanceData) : number :=
  mul (div (attendedClasses data) (totalClasses data)) (of_Z 100).

Definition missedPercent (data : AttendanceData) : number :=
  mul (div (missedClasses data) (totalClasses data)) (of_Z 100).

(** ['Above target'] when true, ['Below target'] otherwise. *)
Definition aboveTarget (data : AttendanceData) (result : AttendanceResult) : bool :=
  ge (currentPercentage result) (targetPercentage data).

(** Width of the progress bar and position of the marker:
    [Math.min(currentPercentage, 100)]. *)
Definition barWidth (result : AttendanceResult) : number :=
  Math.min (currentPercentage result) (of_Z 100).

(** Value of the [Progress] of a scenario:
    [Math.min(scenario.percentage, 100)]. *)
Definition scenarioBar (p : AttendanceChart.Projection) : number :=
  Math.min (AttendanceChart.percentage p) (of_Z 100).

End AttendanceChartView.

(** ** AttendanceInsights.tsx: the insights and the quick actions *)

Module AttendanceInsightsView.

Import AttendanceInsights.

Inductive Icon : Type := Zap | Target | Calendar | Lightbulb.

(** Title and description of an insight, with the values the description
    interpolates. *)
Inductive Text : Type :=
| ExcellentAttendance (above : number)
| CloseToMinimum
| CriticalSituation
| StrategicPlan (weeksNeeded : number) (plural : bool)
| FlexibilityBuffer (classesToBunk : number)
| ReachTarget (target classesNeeded : number)
| ConsistentPerformer
| ImprovementOpportunity.

Record Insight : Type := {
  icon : Icon;
  text : Text;
  type : string
}.

(** The basic status insight. *)
Definition statusInsight (data : AttendanceData) (result : AttendanceResult) : Insight :=
  match status result with
  | safe =>
      {| icon := Zap;
         text := ExcellentAttendance
                   (sub (currentPercentage result) (targetPercentage data));
         type := "success" |}
  | warning => {| icon := Target; text := CloseToMinimum; type := "warning" |}
  | danger => {| icon := Target; text := CriticalSituation; type := "danger" |}
  end.

(** [Math.ceil(classesToAttend / 5)] *)
Definition weeksNeeded (classesToAttend : number) : number :=
  ceil (div classesToAttend (of_Z 5)).

Definition strategicInsight (result : AttendanceResult) : list Insight :=
  if gt (classesToAttend result) (of_Z 0) then
    let weeksNeeded := weeksNeeded (classesToAttend result) in
    [ {| icon := Calendar;
         text := StrategicPlan weeksNeeded (gt weeksNeeded (of_Z 1));
         type := "info" |} ]
  else [].

Definition bufferInsight (result : AttendanceResult) : list Insight :=
  match status result with
  | safe =>
      if gt (classesToBunk result) (of_Z 0) then
        [ {| icon := Lightbulb;
             text := FlexibilityBuffer (classesToBunk result);
             type := "success" |} ]
      else []
  | _ => []
  end.

(** A custom target insight as an element of [insights]. *)
Definition ofTarget (ins : TargetInsight) : Insight :=
  {| icon := Target;
     text := ReachTarget (target ins) (classesNeeded ins);
     type := match insightType ins with
             | info => "info"
             | success => "success"
             end |}.

Definition efficiencyInsight (data : AttendanceData) : list Insight :=
  let attendanceRate := div (attendedClasses data) (totalClasses data) in
  if gt attendanceRate (literal (9 # 10)) then
    [ {| icon := Zap; text := ConsistentPerformer; type := "success" |} ]
  else if lt attendanceRate (literal (6 # 10)) then
    [ {| icon := Lightbulb; text := ImprovementOpportunity; type := "info" |} ]
  else [].

(** The array [insights] after all the pushes. *)
Definition insights (data : AttendanceData) (result : AttendanceResult) : list Insight :=
  [statusInsight data result]
  ++ strategicInsight result
  ++ bufferInsight result
  ++ map ofTarget (targetInsights data)
  ++ efficiencyInsight data.

Definition getInsightStyle (type : string) : string :=
  if String.eqb type "success" then "bg-success-light border-success/20"
  else if String.eqb type "warning" then "bg-warning-light border-warning/20"
  else if String.eqb type "danger" then "bg-destructive-light border-destructive/20"
  else "bg-muted border-border".

Definition getInsightIconColor (type : string) : string :=
  if String.eqb type "success" then "text-success"
  else if String.eqb type "warning" then "text-warning"
  else if String.eqb type "danger" then "text-destructive"
  else "text-primary".

(** The badges under Quick Actions. *)
Inductive QuickAction : Type :=
| AttendNext (classes : number)
| MaintainConsistency
| SetDailyReminders
| TrackWeeklyProgress.

Definition quickActions (result : AttendanceResult) : list QuickAction :=
  (match status result with
   | safe => []
   | _ => [AttendNext (Math.min (classesToAttend result) (of_Z 5))]
   end)
  ++ (if gt (currentPercentage result) (of_Z 80) then [MaintainConsistency] else [])
  ++ (if lt (currentPercentage result) (of_Z 70) then [SetDailyReminders] else [])
  ++ [TrackWeeklyProgress].

End AttendanceInsightsView.

(** ** The events of the form *)

(** What the user, or the export dialog, can do to the component:
    [onChange] of one of the three inputs, a click on Calculate, Reset or
    Share, and [onOpenChange] of the dialog, which is
    [setIsExportDialogOpen]. *)
Inductive Event : Type :=
| Typed (field : Field) (parsed : option Z)
| ClickCalculate
| ClickReset
| ClickShare
| OpenChange (open : bool).

Definition handle (st : State) (e : Event) : State :=
  match e with
  | Typed field parsed => updateData field parsed st
  | ClickCalculate => clickCalculate st
  | ClickReset => resetCalculator st
  | ClickShare => clickShare st
  | OpenChange open =>
      {| data := data st; result := result st;
         isExportDialogOpen := open; toasts := toasts st |}
  end.

(** The state after a sequence of events on the freshly mounted
    component. *)
Definition run (events : list Event) : State :=
  fold_left handle events initialState.

(** ** The formulas on rationals

    What the operators of [compute] return on integer inputs when no
    operation overflows: each exact result rounded once. *)

Module Formula.

Import Binary64.

(** A rounded result, in lowest terms. *)
Definition R (x : Q) : Q := Qred (RN x).

Definition percentQ (t a : Z) : Q :=
  R (R (inject_Z a / inject_Z t) * inject_Z 100).

Definition attendNumQ (t a T : Z) : Q :=
  R (R (inject_Z T * inject_Z t) - R (inject_Z 100 * inject_Z a)).

Definition attendZ (t a T : Z) : Z :=
  Z.max 0 (Qceiling (R (attendNumQ t a T / inject_Z (100 - T)))).

Definition fracQ (T : Z) : Q := R (inject_Z T / inject_Z 100).

Definition bunkNumQ (t a T : Z) : Q :=
  R (inject_Z a - R (fracQ T * inject_Z t)).

Definition bunkZ (t a T : Z) : Z :=
  Z.max 0 (Qfloor (R (bunkNumQ t a T / fracQ T))).

Definition statusQ (T : Z) (cp : Q) : Status :=
  if Qle_bool (inject_Z T) cp then safe
  else if Qle_bool (inject_Z (T - 5)) cp then warning
  else danger.

(** The record [compute] builds on valid integer inputs. *)
Definition resultQ (t a T : Z) : AttendanceResult :=
  let cp := percentQ t a in
  let attend := JS.Fin (inject_Z (attendZ t a T)) in
  let bunk := JS.Fin (inject_Z (bunkZ t a T)) in
  {| currentPercentage := JS.Fin cp;
     status := statusQ T cp;
     classesToAttend := attend;
     classesToBunk := bunk;
     message :=
       match statusQ T cp with
       | safe => MsgSafe (JS.Fin (R (cp - inject_Z T))) bunk
       | warning => MsgWarning attend (JS.Fin (inject_Z T))
       | danger => MsgDanger attend
       end |}.

End Formula.

(** ** The target inequalities of the specification, on exact rationals *)

(** After attending [k] more classes the exact ratio reaches the target:
    (attended + k) / (total + k) * 100 >= target. *)
Definition reachesTarget (t a T k : Z) : Prop :=
  inject_Z T <= inject_Z (a + k) / inject_Z (t + k) * 100.

(** After missing [m] more classes the exact ratio still holds the target:
    attended / (total + m) * 100 >= target. *)
Definition holdsTarget (t a T m : Z) : Prop :=
  inject_Z T <= inject_Z a / inject_Z (t + m) * 100.

(** A bound on the total under which the products [target * total] and
    [100 * attended] of valid inputs stay below 2^53, hence exact, and under
    which the two roundings of the percentage cannot cross the target. *)
Definition MAX_EXACT_TOTAL : Z := 2 ^ 46.

(** The same totals with another target. *)
Definition withTarget (data : AttendanceData) (target : number) : AttendanceData :=
  {| totalClasses := totalClasses data;
     attendedClasses := attendedClasses data;
     targetPercentage := target |}.

(** Unit roundoff of binary64: the relative error of one rounding. *)
Definition unit_roundoff : Q := 1 # 9007199254740992.

(** ** Quantities the properties of the components are stated with *)

(** The field of the data that [updateData] writes. *)
Definition readField (field : Field) (data : AttendanceData) : number :=
  match field with
  | FTotalClasses => totalClasses data
  | FAttendedClasses => attendedClasses data
  | FTargetPercentage => targetPercentage data
  end.

(** What [parseInt(value) || 0] stores: the integer, or 0 when the text does
    not parse. *)
Definition stored (parsed : option Z) : number :=
  match parsed with
  | Some z => of_Z z
  | None => of_Z 0
  end.

(** The types the component gives its insights. *)
Definition insight_types : list string := ["success"; "warning"; "danger"; "info"]%string.

(** The closed form of the specification for the classes needed to reach a
    target: max(0, ceil((target * total - 100 * attended) / (100 - target))),
    on exact rationals. *)
Definition classesNeededClosedForm (t a target : Z) : Z :=
  Z.max 0 (Qceiling (inject_Z (target * t - 100 * a) / inject_Z (100 - target))).

(** The candidate targets, as integers. *)
Definition candidates (T : Z) : list Z :=
  if (T <? 80)%Z then [80; 85]%Z
  else if (T <? 85)%Z then [85; 90]%Z
  else if (T <? 90)%Z then [90; 95]%Z
  else if (T <? 95)%Z then [95]%Z
  else [].

(** What holds of a state whatever was typed and clicked. *)
Definition reachable_inv (st : State) : Prop :=
  (exists t a T, data st = mkData t a T) /\
  (forall r, result st = Some r ->
     exists t a T, compute (mkData t a T) = Computed r /\ t <> 0%Z /\ a <> 0%Z).

(** A bound on the total under which the roundings of classesToBunk move
    the quotient by less than 1 / target. *)
Definition MAX_BUNK_TOTAL : Z := 2 ^ 40.

(** The closed form of the largest number of classes that can be missed:
    floor((100 * attended - target * total) / target), at least 0. *)
Definition largestMissable (t a T : Z) : Z :=
  Z.max 0 ((100 * a - T * t) / T).

(** ** Reference semantics

    The Standard Library's own specification of IEEE 754 arithmetic
    ([SpecFloat], instantiated at binary64), used to cross-check the
    operators of [JS] on the inputs the development evaluates. *)

Module Reference.

Import SpecFloat.

Definition prec : Z := 53.
Definition emax : Z := 1024.

Definition of_int (z : Z) : spec_float := binary_normalize prec emax z 0 false.

Definition to_number (f : spec_float) : number :=
  match f with
  | S754_zero s => zero s
  | S754_infinity s => Inf s
  | S754_nan => NaN
  | S754_finite s m e =>
      Fin (Qred (inject_Z (if s then Z.neg m else Z.pos m) * Binary64.pow2 e))
  end.

Definition fdiv := SFdiv prec emax.
Definition fmul := SFmul prec emax.
Definition fsub := SFsub prec emax.
Definition fadd := SFadd prec emax.

Definition same (x y : number) : bool :=
  match x, y with
  | NaN, NaN => true
  | Inf s, Inf s' => Bool.eqb s s'
  | NZero, NZero => true
  | Fin a, Fin b => Qeq_bool a b
  | _, _ => false
  end.

(** The four operators of [JS] and of the reference agree on a pair of
    integers and on compositions of them, signs of zero included. *)
Definition agree (p : Z * Z) : bool :=
  let '(n, d) := p in
  let x := of_int n in
  let y := of_int d in
  let X := of_Z n in
  let Y := of_Z d in
  same (to_number x) X && same (to_number y) Y
  && same (to_number (fdiv x y)) (div X Y)
  && same (to_number (fmul x y)) (mul X Y)
  && same (to_number (fadd x y)) (add X Y)
  && same (to_number (fsub x y)) (sub X Y)
  && same (to_number (fmul (fdiv x y) (of_int 100))) (mul (div X Y) (of_Z 100))
  && same (to_number (fsub x (fmul (fdiv y (of_int 100)) x)))
          (sub X (mul (div Y (of_Z 100)) X))
  && same (to_number (fmul (fdiv x y) (fdiv y x))) (mul (div X Y) (div Y X))
  && same (to_number (fdiv (fdiv x y) (fdiv y x))) (div (div X Y) (div Y X))
  && same (to_number (fsub (fmul x (of_int 0)) (fmul y (of_int 0))))
          (sub (mul X (of_Z 0)) (mul Y (of_Z 0)))
  && same (to_number (fadd (fmul x (of_int 0)) (fmul y (of_int 0))))
          (add (mul X (of_Z 0)) (mul Y (of_Z 0)))
  && same (to_number (fdiv (of_int 1) (fmul x (of_int 0))))
          (div (of_Z 1) (mul X (of_Z 0)))
  && same (to_number (fdiv (fdiv x y) (fmul y y))) (div (div X Y) (mul Y Y)).

Definition samples : list (Z * Z) :=
  [ (1, 3); (2, 3); (57, 100); (5, 100); (80, 100); (8, 9); (14, 20);
    (40, 50); (100, 7); (-7, 3); (7, -3); (0, 5); (5, 0); (0, 0);
    (1, 10); (3, 10); (29, 50); (87, 150); (9, 8); (1, 1);
    (99, 100000000000001); (7199999999999999, 9000000000000000);
    (53218264860336, 79430246060203); (9007199254740991, 3);
    (9007199254740993, 5); (9007199254740992, 9007199254740994);
    (1152921504606846977, 3); (1, 1180591620717411303424);
    (3, 4503599627370497); (4503599627370497, 4503599627370499);
    (12345678901234567890123456789, 987654321);
    (2 ^ 1023, 3); (2 ^ 1023, 2 ^ 1023 + 2 ^ 970); (3, 2 ^ 1023);
    (2 ^ 1024, 1); (-(2 ^ 1024), 7); (2 ^ 600, 2 ^ 600 + 1);
    (-1, 2 ^ 400); (-3, 2 ^ 1023); (-1, -(2 ^ 537)) ]%Z.

End Reference.

(** * Properties *)

Import Binary64 Formula AttendanceInsights.

(** ** Powers of two and the leading exponent *)

Lemma pow2_pos c : 0 < pow2 c.
Proof. unfold pow2. apply Qpower_0_lt. reflexivity. Qed.

Lemma pow2_add a b : pow2 (a + b) == pow2 a * pow2 b.
Proof. unfold pow2. apply Qpower_plus. discriminate. Qed.

Lemma pow2_le a b : (a <= b)%Z -> pow2 a <= pow2 b.
Proof. intros H. unfold pow2. apply Qpower_le_compat_l; [exact H | discriminate]. Qed.

Lemma pow2_lt a b : (a < b)%Z -> pow2 a < pow2 b.
Proof. intros H. unfold pow2. apply Qpower_lt_compat_l; [exact H | reflexivity]. Qed.

Lemma pow2_Z c : (0 <= c)%Z -> pow2 c == inject_Z (2 ^ c).
Proof. intros H. unfold pow2. rewrite Zpower_Qpower by exact H. reflexivity. Qed.

Lemma pow2_sub a b : pow2 (a - b) == pow2 a / pow2 b.
Proof.
  assert (Hb := pow2_pos b).
  assert (E : pow2 a == pow2 (a - b) * pow2 b).
  { rewrite <- pow2_add. replace (a - b + b)%Z with a by ring. reflexivity. }
  rewrite E. field. lra.
Qed.

Lemma Zdiv_le_Qmake (A B n : Z) (d : positive) :
  (0 < B)%Z -> (A * Zpos d <= n * B)%Z -> inject_Z A / inject_Z B <= n # d.
Proof.
  intros HB H. destruct B as [|p|p]; try lia.
  unfold Qle, Qdiv, Qmult, Qinv, inject_Z. simpl. lia.
Qed.

Lemma Qmake_lt_Zdiv (A B n : Z) (d : positive) :
  (0 < B)%Z -> (n * B < A * Zpos d)%Z -> n # d < inject_Z A / inject_Z B.
Proof.
  intros HB H. destruct B as [|p|p]; try lia.
  unfold Qlt, Qdiv, Qmult, Qinv, inject_Z. simpl. lia.
Qed.

Lemma pow2_split a c : pow2 a == pow2 (a - c) * pow2 c.
Proof. rewrite <- pow2_add. replace (a - c + c)%Z with a by ring. reflexivity. Qed.

Lemma ilog2_spec x : 0 < x -> pow2 (ilog2 x) <= x /\ x < pow2 (ilog2 x + 1).
Proof.
  intros Hx. destruct x as [n d]. unfold ilog2. cbn [Qnum Qden].
  assert (Hn : (0 < n)%Z). { unfold Qlt in Hx. simpl in Hx. lia. }
  set (ln := Z.log2 n). set (ld := Z.log2 (Zpos d)).
  destruct (Z.log2_spec n Hn) as [Hn1 Hn2]. fold ln in Hn1, Hn2.
  destruct (Z.log2_spec (Zpos d) eq_refl) as [Hd1 Hd2]. fold ld in Hd1, Hd2.
  assert (Hln : (0 <= ln)%Z) by apply Z.log2_nonneg.
  assert (Hld : (0 <= ld)%Z) by apply Z.log2_nonneg.
  assert (P1 : (0 < 2 ^ ld)%Z) by (apply Z.pow_pos_nonneg; lia).
  assert (P2 : (0 < 2 ^ ln)%Z) by (apply Z.pow_pos_nonneg; lia).
  rewrite Z.pow_succ_r in Hn2, Hd2 by lia.
  assert (Hlo : pow2 (ln - ld - 1) <= n # d).
  { replace (ln - ld - 1)%Z with (ln - (ld + 1))%Z by ring.
    rewrite pow2_sub, !pow2_Z by lia.
    replace (ld + 1)%Z with (Z.succ ld) by lia.
    apply Zdiv_le_Qmake; rewrite Z.pow_succ_r by lia; nia. }
  assert (Hhi : n # d < pow2 (ln - ld + 1)).
  { replace (ln - ld + 1)%Z with (ln + 1 - ld)%Z by ring.
    rewrite pow2_sub, !pow2_Z by lia.
    replace (ln + 1)%Z with (Z.succ ln) by lia.
    apply Qmake_lt_Zdiv; rewrite ?Z.pow_succ_r by lia; nia. }
  destruct (Qle_bool (pow2 (ln - ld)) (n # d)) eqn:E.
  - apply Qle_bool_iff in E. split; [exact E | exact Hhi].
  - assert (~ pow2 (ln - ld) <= n # d).
    { intros C. apply Qle_bool_iff in C. congruence. }
    split; [exact Hlo|].
    replace (ln - ld - 1 + 1)%Z with (ln - ld)%Z by ring. lra.
Qed.

Lemma ilog2_unique x e : pow2 e <= x -> x < pow2 (e + 1) -> ilog2 x = e.
Proof.
  intros H1 H2.
  assert (Hx : 0 < x). { assert (P := pow2_pos e). lra. }
  destruct (ilog2_spec x Hx) as [H3 H4].
  destruct (Z.lt_trichotomy (ilog2 x) e) as [L | [L | L]]; [ | exact L | ].
  - assert (pow2 (ilog2 x + 1) <= pow2 e) by (apply pow2_le; lia). lra.
  - assert (pow2 (e + 1) <= pow2 (ilog2 x)) by (apply pow2_le; lia). lra.
Qed.

Lemma ilog2_mono x y : 0 < x -> x <= y -> (ilog2 x <= ilog2 y)%Z.
Proof.
  intros Hx Hxy.
  destruct (ilog2_spec x Hx) as [H1 H2].
  destruct (ilog2_spec y ltac:(lra)) as [H3 H4].
  destruct (Z.le_gt_cases (ilog2 x) (ilog2 y)) as [L | L]; [exact L|].
  assert (pow2 (ilog2 y + 1) <= pow2 (ilog2 x)) by (apply pow2_le; lia). lra.
Qed.

Lemma Qfloor_bounds q : inject_Z (Qfloor q) <= q /\ q < inject_Z (Qfloor q) + 1.
Proof.
  split; [apply Qfloor_le|].
  assert (H := Qlt_floor q). rewrite inject_Z_plus in H. exact H.
Qed.

Lemma rhe_cases q : rhe q = Qfloor q \/ rhe q = (Qfloor q + 1)%Z.
Proof.
  unfold rhe. destruct (Qcompare _ _); [destruct (Z.even _)| |]; auto.
Qed.

Lemma rhe_error q :
  q - (1 # 2) <= inject_Z (rhe q) /\ inject_Z (rhe q) <= q + (1 # 2).
Proof.
  destruct (Qfloor_bounds q) as [H1 H2]. unfold rhe.
  destruct (Qcompare_spec (q - inject_Z (Qfloor q)) (1 # 2)) as [E | E | E].
  - destruct (Z.even (Qfloor q)); rewrite ?inject_Z_plus;
      change (inject_Z 1) with 1; split; lra.
  - split; lra.
  - rewrite inject_Z_plus. change (inject_Z 1) with 1. split; lra.
Qed.

Lemma rhe_mono q q' : q <= q' -> (rhe q <= rhe q')%Z.
Proof.
  intros H. assert (F := Qfloor_resp_le _ _ H).
  destruct (Z.eq_dec (Qfloor q) (Qfloor q')) as [E | NE].
  - unfold rhe. rewrite <- E.
    destruct (Qcompare_spec (q - inject_Z (Qfloor q)) (1 # 2));
      destruct (Qcompare_spec (q' - inject_Z (Qfloor q)) (1 # 2));
      try destruct (Z.even (Qfloor q)); try lia; exfalso; lra.
  - destruct (rhe_cases q) as [-> | ->]; destruct (rhe_cases q') as [-> | ->]; lia.
Qed.

Lemma rhe_proper q q' : q == q' -> rhe q = rhe q'.
Proof.
  intros E. apply Z.le_antisymm; apply rhe_mono; rewrite E; apply Qle_refl.
Qed.

Lemma rhe_Z n : rhe (inject_Z n) = n.
Proof.
  unfold rhe. rewrite Qfloor_Z.
  destruct (Qcompare_spec (inject_Z n - inject_Z n) (1 # 2)); try lra. reflexivity.
Qed.

Lemma rhe_ge_Z n q : inject_Z n <= q -> (n <= rhe q)%Z.
Proof. intros H. rewrite <- (rhe_Z n). apply rhe_mono, H. Qed.

Lemma rhe_le_Z n q : q <= inject_Z n -> (rhe q <= n)%Z.
Proof. intros H. rewrite <- (rhe_Z n). apply rhe_mono, H. Qed.

Lemma ulp_exp_mono x y : 0 < x -> x <= y -> (ulp_exp x <= ulp_exp y)%Z.
Proof. intros Hx H. unfold ulp_exp. assert (L := ilog2_mono x y Hx H). lia. Qed.

(** The scaled value [x / 2^c] and its bounds. *)
Lemma scaled_lt x c k : 0 < x -> x < pow2 (c + k) -> x / pow2 c < pow2 k.
Proof.
  intros Hx H. assert (P := pow2_pos c).
  apply Qlt_shift_div_r; [exact P|]. rewrite <- pow2_add.
  replace (k + c)%Z with (c + k)%Z by ring. exact H.
Qed.

Lemma scaled_ge x c k : pow2 (c + k) <= x -> pow2 k <= x / pow2 c.
Proof.
  intros H. assert (P := pow2_pos c).
  apply Qle_shift_div_l; [exact P|]. rewrite <- pow2_add.
  replace (k + c)%Z with (c + k)%Z by ring. exact H.
Qed.

Lemma round_pos_nonneg x : 0 < x -> 0 <= round_pos x.
Proof.
  intros Hx. unfold round_pos. assert (P := pow2_pos (ulp_exp x)).
  assert (0 <= rhe (x / pow2 (ulp_exp x)))%Z.
  { apply rhe_ge_Z. apply Qle_shift_div_l; [exact P|].
    change (inject_Z 0) with 0. lra. }
  apply Qmult_le_0_compat; [|lra]. rewrite Zle_Qle in H. exact H.
Qed.

Lemma round_pos_mono x y : 0 < x -> x <= y -> round_pos x <= round_pos y.
Proof.
  intros Hx Hxy. assert (Hy : 0 < y) by lra.
  assert (C := ulp_exp_mono x y Hx Hxy).
  unfold round_pos.
  set (c := ulp_exp x) in *. set (c' := ulp_exp y) in *.
  assert (P := pow2_pos c). assert (P' := pow2_pos c').
  destruct (Z.eq_dec c c') as [E | NE].
  - rewrite <- E. apply Qmult_le_compat_r; [|lra].
    rewrite <- Zle_Qle. apply rhe_mono.
    apply Qmult_le_compat_r; [exact Hxy|]. apply Qlt_le_weak, Qinv_lt_0_compat, P.
  - assert (Hc : (c < c')%Z) by lia.
    destruct (ilog2_spec x Hx) as [_ X2]. destruct (ilog2_spec y Hy) as [Y1 _].
    assert (E' : c' = (ilog2 y - 52)%Z) by (unfold c', c, ulp_exp in *; lia).
    assert (Le : (ilog2 x + 1 <= ilog2 y)%Z) by (unfold c', c, ulp_exp in *; lia).
    (* both sides are compared with 2^(ilog2 y) *)
    apply Qle_trans with (pow2 (ilog2 y)).
    + assert (K : (0 <= ilog2 y - c)%Z) by lia.
      assert (S1 : x / pow2 c < pow2 (ilog2 y - c)).
      { apply scaled_lt; [exact Hx|].
        replace (c + (ilog2 y - c))%Z with (ilog2 y) by ring.
        assert (pow2 (ilog2 x + 1) <= pow2 (ilog2 y)) by (apply pow2_le; lia). lra. }
      rewrite (pow2_Z _ K) in S1.
      assert (M : (rhe (x / pow2 c) <= 2 ^ (ilog2 y - c))%Z)
        by (apply rhe_le_Z; lra).
      rewrite Zle_Qle in M. rewrite <- pow2_Z in M by exact K.
      rewrite (pow2_split (ilog2 y) c).
      apply Qmult_le_compat_r; [exact M | lra].
    + assert (S2 : pow2 52 <= y / pow2 c').
      { apply scaled_ge. rewrite E'.
        replace (ilog2 y - 52 + 52)%Z with (ilog2 y) by ring. exact Y1. }
      rewrite (pow2_Z 52) in S2 by lia.
      assert (M : (2 ^ 52 <= rhe (y / pow2 c'))%Z) by (apply rhe_ge_Z; exact S2).
      rewrite Zle_Qle in M. rewrite <- pow2_Z in M by lia.
      rewrite (pow2_split (ilog2 y) c').
      replace (ilog2 y - c')%Z with 52%Z by lia.
      apply Qmult_le_compat_r; [exact M | lra].
Qed.

Lemma round_pos_proper x y : 0 < x -> x == y -> round_pos x == round_pos y.
Proof.
  intros Hx E. apply Qle_antisym; apply round_pos_mono; rewrite ?E; lra.
Qed.

(** Error of rounding in the normal range: half a unit in the last place. *)
Lemma round_pos_error x :
  pow2 (-1022) <= x ->
  x * (1 - pow2 (-53)) <= round_pos x /\ round_pos x <= x * (1 + pow2 (-53)).
Proof.
  intros Hx. assert (P0 := pow2_pos (-1022)). assert (Hx0 : 0 < x) by lra.
  destruct (ilog2_spec x Hx0) as [X1 X2].
  assert (He : (-1022 <= ilog2 x)%Z).
  { destruct (Z.le_gt_cases (-1022) (ilog2 x)) as [L | L]; [exact L|].
    assert (pow2 (ilog2 x + 1) <= pow2 (-1022)) by (apply pow2_le; lia). lra. }
  unfold round_pos.
  assert (Ec : ulp_exp x = (ilog2 x - 52)%Z) by (unfold ulp_exp; lia).
  rewrite Ec. set (c := (ilog2 x - 52)%Z).
  assert (P := pow2_pos c).
  destruct (rhe_error (x / pow2 c)) as [R1 R2].
  set (m := inject_Z (rhe (x / pow2 c))) in *.
  assert (Eu : pow2 c == pow2 (ilog2 x) * pow2 (-52)).
  { rewrite <- pow2_add. reflexivity. }
  assert (E53 : pow2 (-53) * 2 == pow2 (-52)) by reflexivity.
  assert (Ex : x / pow2 c * pow2 c == x) by (field; lra).
  assert (P52 := pow2_pos (-52)).
  assert (U : pow2 c <= x * pow2 (-52)).
  { rewrite Eu. apply Qmult_le_compat_r; lra. }
  assert (A1 : (x / pow2 c - (1 # 2)) * pow2 c <= m * pow2 c)
    by (apply Qmult_le_compat_r; lra).
  assert (A2 : m * pow2 c <= (x / pow2 c + (1 # 2)) * pow2 c)
    by (apply Qmult_le_compat_r; lra).
  split; nra.
Qed.

Lemma RN_pos x : 0 < x -> RN x = round_pos x.
Proof. intros H. unfold RN. destruct (Qcompare_spec x 0); [lra | lra | reflexivity]. Qed.

Lemma RN_neg x : x < 0 -> RN x = - round_pos (- x).
Proof. intros H. unfold RN. destruct (Qcompare_spec x 0); [lra | reflexivity | lra]. Qed.

Lemma RN_zero x : x == 0 -> RN x = 0.
Proof. intros H. unfold RN. destruct (Qcompare_spec x 0); [reflexivity | lra | lra]. Qed.

Lemma RN_nonneg x : 0 <= x -> 0 <= RN x.
Proof.
  intros H. destruct (Qcompare_spec x 0) as [E | E | E].
  - rewrite (RN_zero x E). lra.
  - lra.
  - rewrite (RN_pos x E). apply round_pos_nonneg, E.
Qed.

Lemma RN_nonpos x : x <= 0 -> RN x <= 0.
Proof.
  intros H. destruct (Qcompare_spec x 0) as [E | E | E].
  - rewrite (RN_zero x E). lra.
  - rewrite (RN_neg x E). assert (0 <= round_pos (- x)) by (apply round_pos_nonneg; lra). lra.
  - lra.
Qed.

Lemma RN_mono x y : x <= y -> RN x <= RN y.
Proof.
  intros H. destruct (Qcompare_spec x 0) as [Ex | Ex | Ex].
  - rewrite (RN_zero x Ex). apply RN_nonneg. lra.
  - destruct (Qcompare_spec y 0) as [Ey | Ey | Ey].
    + rewrite (RN_zero y Ey). apply RN_nonpos. lra.
    + rewrite (RN_neg x Ex), (RN_neg y Ey).
      assert (round_pos (- y) <= round_pos (- x)) by (apply round_pos_mono; lra). lra.
    + apply Qle_trans with 0; [apply RN_nonpos | apply RN_nonneg]; lra.
  - rewrite (RN_pos x Ex), (RN_pos y ltac:(lra)). apply round_pos_mono; assumption.
Qed.

Lemma RN_proper x y : x == y -> RN x == RN y.
Proof. intros E. apply Qle_antisym; apply RN_mono; rewrite E; apply Qle_refl. Qed.

Lemma RN_opp x : RN (- x) == - RN x.
Proof.
  destruct (Qcompare_spec x 0) as [E | E | E].
  - rewrite (RN_zero x E), (RN_zero (- x)) by lra. reflexivity.
  - rewrite (RN_neg x E), (RN_pos (- x)) by lra. ring.
  - rewrite (RN_pos x E), (RN_neg (- x)) by lra.
    rewrite (round_pos_proper (- - x) x) by lra. reflexivity.
Qed.

Lemma RN_error x :
  pow2 (-1022) <= x ->
  x * (1 - pow2 (-53)) <= RN x /\ RN x <= x * (1 + pow2 (-53)).
Proof.
  intros H. assert (P := pow2_pos (-1022)).
  rewrite (RN_pos x) by lra. apply round_pos_error, H.
Qed.

(** A positive value whose scaled significand is an integer is representable. *)
Lemma round_pos_exact x m :
  0 < x -> x / pow2 (ulp_exp x) == inject_Z m -> round_pos x == x.
Proof.
  intros Hx E. unfold round_pos. rewrite (rhe_proper _ _ E), rhe_Z, <- E.
  assert (P := pow2_pos (ulp_exp x)). field. lra.
Qed.

Lemma ilog2_lt x k : 0 < x -> x < pow2 k -> (ilog2 x < k)%Z.
Proof.
  intros Hx H. destruct (ilog2_spec x Hx) as [H1 _].
  destruct (Z.lt_ge_cases (ilog2 x) k) as [L | L]; [exact L|].
  assert (pow2 k <= pow2 (ilog2 x)) by (apply pow2_le; lia). lra.
Qed.

Lemma ilog2_ge x k : pow2 k <= x -> (k <= ilog2 x)%Z.
Proof.
  intros H. assert (P := pow2_pos k). destruct (ilog2_spec x ltac:(lra)) as [_ H2].
  destruct (Z.le_gt_cases k (ilog2 x)) as [L | L]; [exact L|].
  assert (pow2 (ilog2 x + 1) <= pow2 k) by (apply pow2_le; lia). lra.
Qed.

Lemma round_pos_Z n : (0 < n < 2 ^ 53)%Z -> round_pos (inject_Z n) == inject_Z n.
Proof.
  intros [H1 H2].
  assert (Hx : 0 < inject_Z n). { change 0 with (inject_Z 0). rewrite <- Zlt_Qlt. exact H1. }
  assert (L : (ilog2 (inject_Z n) < 53)%Z).
  { apply ilog2_lt; [exact Hx|]. rewrite pow2_Z by lia. rewrite <- Zlt_Qlt. exact H2. }
  assert (G : (0 <= ilog2 (inject_Z n))%Z).
  { apply ilog2_ge. change (pow2 0) with (inject_Z 1). rewrite <- Zle_Qle. lia. }
  set (c := ulp_exp (inject_Z n)).
  assert (Hc : (-52 <= c <= 0)%Z) by (unfold c, ulp_exp; lia).
  apply (round_pos_exact _ (n * 2 ^ (- c))). 1: exact Hx. fold c.
  rewrite inject_Z_mult, <- pow2_Z by lia.
  assert (P := pow2_pos c).
  assert (E : pow2 (- c) * pow2 c == 1).
  { rewrite <- pow2_add. replace (- c + c)%Z with 0%Z by ring. reflexivity. }
  apply Qmult_inj_r with (pow2 c); [lra|].
  rewrite <- Qmult_assoc, E. field. lra.
Qed.

Lemma RN_Z n : (Z.abs n < 2 ^ 53)%Z -> RN (inject_Z n) == inject_Z n.
Proof.
  intros H. destruct (Z.lt_trichotomy n 0) as [L | [L | L]].
  - assert (E : inject_Z n == - inject_Z (- n)) by (rewrite inject_Z_opp; ring).
    rewrite (RN_proper _ _ E), RN_opp, (RN_pos (inject_Z (- n))).
    + rewrite round_pos_Z by lia. rewrite inject_Z_opp. ring.
    + change 0 with (inject_Z 0). rewrite <- Zlt_Qlt. lia.
  - subst n. reflexivity.
  - rewrite RN_pos.
    + apply round_pos_Z. lia.
    + change 0 with (inject_Z 0). rewrite <- Zlt_Qlt. lia.
Qed.

(** ** Finite results and exact integer arithmetic *)

Lemma RN_pow2 k : (-1022 <= k)%Z -> RN (pow2 k) == pow2 k.
Proof.
  intros Hk. assert (P := pow2_pos k). rewrite RN_pos by exact P.
  assert (E : ilog2 (pow2 k) = k).
  { apply ilog2_unique; [apply Qle_refl | apply pow2_lt; lia]. }
  apply (round_pos_exact _ (2 ^ 52)); [exact P|].
  unfold ulp_exp. rewrite E. replace (Z.max (k - 52) (-1074)) with (k - 52)%Z by lia.
  rewrite <- pow2_Z by lia. rewrite (pow2_split k (k - 52)).
  replace (k - (k - 52))%Z with 52%Z by ring.
  assert (P' := pow2_pos (k - 52)). field. lra.
Qed.

Lemma Qred_inject_Z z : Qred (inject_Z z) = inject_Z z.
Proof.
  unfold Qred, inject_Z.
  assert (G := Z.ggcd_gcd z 1). assert (D := Z.ggcd_correct_divisors z 1).
  destruct (Z.ggcd z 1) as [g [r1 r2]]. cbn [fst snd] in *.
  rewrite Z.gcd_1_r in G. subst g. destruct D as [D1 D2].
  assert (E1 : r1 = z) by lia. assert (E2 : r2 = 1%Z) by lia.
  rewrite E1, E2. reflexivity.
Qed.

Lemma Qneg_proper x y : x == y -> Qneg x = Qneg y.
Proof. intros E. unfold Qneg. rewrite E. reflexivity. Qed.

Lemma Qneg_lt x : Qneg x = true -> x < 0.
Proof.
  unfold Qneg. destruct (Qcompare_spec x 0); intros C; (discriminate C || assumption).
Qed.

Lemma Qneg_nonneg x : 0 <= x -> Qneg x = false.
Proof.
  intros H. unfold Qneg. destruct (Qcompare_spec x 0); try reflexivity. lra.
Qed.

Lemma rnd_proper x y : x == y -> rnd x = rnd y.
Proof.
  intros E. unfold rnd.
  rewrite (Qred_complete _ _ (RN_proper x y E)), (Qneg_proper x y E). reflexivity.
Qed.

(** A value that is zero, or of magnitude between 2^-1022 and 2^1023, rounds
    to a finite number and not to the negative zero. *)
Lemma rnd_finite x :
  - pow2 1023 <= x <= pow2 1023 -> 0 <= x \/ x <= - pow2 (-1022) ->
  rnd x = Fin (Qred (RN x)).
Proof.
  intros [H1 H2] Hz. unfold rnd.
  assert (Z0 : Qeq_bool (Qred (RN x)) 0 && Qneg x = false).
  { destruct (Qeq_bool (Qred (RN x)) 0 && Qneg x) eqn:E; [exfalso | reflexivity].
    apply andb_prop in E. destruct E as [E1 E2].
    apply Qeq_bool_iff in E1. rewrite Qred_correct in E1. apply Qneg_lt in E2.
    destruct Hz as [Hz | Hz]; [lra|].
    assert (M := RN_mono _ _ Hz). rewrite RN_opp, RN_pow2 in M by lia.
    assert (P := pow2_pos (-1022)). lra. }
  rewrite Z0.
  assert (U : RN x <= pow2 1023).
  { rewrite <- (RN_pow2 1023) by lia. apply RN_mono, H2. }
  assert (L : - pow2 1023 <= RN x).
  { rewrite <- (RN_pow2 1023) by lia. rewrite <- RN_opp. apply RN_mono, H1. }
  assert (S : pow2 1023 < pow2 1024) by (apply pow2_lt; lia).
  destruct (Qle_bool (pow2 1024) (Qabs (Qred (RN x)))) eqn:E; [|reflexivity].
  exfalso. apply Qle_bool_iff in E. rewrite Qred_correct in E.
  revert E. apply Qabs_case; intros; lra.
Qed.

Lemma inject_Z_nonneg_le z : (0 <= z)%Z -> 0 <= inject_Z z.
Proof. intros H. change 0 with (inject_Z 0). rewrite <- Zle_Qle. exact H. Qed.

Lemma pow2_53_le : pow2 53 <= pow2 1023.
Proof. apply pow2_le. lia. Qed.

Lemma inject_Z_bound z k :
  (0 <= k)%Z -> (Z.abs z <= 2 ^ k)%Z -> - pow2 k <= inject_Z z <= pow2 k.
Proof.
  intros Hk H. rewrite pow2_Z by exact Hk.
  rewrite <- inject_Z_opp, <- !Zle_Qle. lia.
Qed.

Lemma rnd_Z z : (Z.abs z < 2 ^ 53)%Z -> rnd (inject_Z z) = Fin (inject_Z z).
Proof.
  intros H. rewrite rnd_finite.
  - rewrite (Qred_complete _ _ (RN_Z z H)), Qred_inject_Z. reflexivity.
  - destruct (inject_Z_bound z 53) as [A B]; [lia | lia |].
    assert (S := pow2_53_le). lra.
  - destruct (Z_le_gt_dec 0 z) as [G | G].
    + left. apply (inject_Z_nonneg_le z G).
    + right. assert (L : pow2 (-1022) <= pow2 0) by (apply pow2_le; lia).
      change (pow2 0) with 1 in L.
      assert (N : inject_Z z <= inject_Z (-1)) by (rewrite <- Zle_Qle; lia).
      change (inject_Z (-1)) with (-1) in N. lra.
Qed.

Lemma safe_integer_abs z : safe_integer z -> (Z.abs z < 2 ^ 53)%Z.
Proof. unfold safe_integer, MAX_SAFE_INTEGER. lia. Qed.

Lemma of_Z_safe z : safe_integer z -> of_Z z = Fin (inject_Z z).
Proof. intros H. apply rnd_Z, safe_integer_abs, H. Qed.

(** Exact integer arithmetic below 2^53. *)
Lemma sub_Z a b :
  (Z.abs (a - b) < 2 ^ 53)%Z ->
  sub (Fin (inject_Z a)) (Fin (inject_Z b)) = Fin (inject_Z (a - b)).
Proof.
  intros H. cbn [sub]. rewrite <- rnd_Z by exact H.
  apply rnd_proper. unfold Z.sub. rewrite inject_Z_plus, inject_Z_opp. reflexivity.
Qed.

Lemma add_Z a b :
  (Z.abs (a + b) < 2 ^ 53)%Z ->
  add (Fin (inject_Z a)) (Fin (inject_Z b)) = Fin (inject_Z (a + b)).
Proof.
  intros H. cbn [add]. rewrite <- rnd_Z by exact H.
  apply rnd_proper. rewrite inject_Z_plus. reflexivity.
Qed.

Lemma le_Z a b : le (Fin (inject_Z a)) (Fin (inject_Z b)) = (a <=? b)%Z.
Proof.
  cbn [le value]. apply eq_true_iff_eq. rewrite Qle_bool_iff, <- Zle_Qle, Z.leb_le. tauto.
Qed.

Lemma lt_Z a b : lt (Fin (inject_Z a)) (Fin (inject_Z b)) = (a <? b)%Z.
Proof.
  cbn [lt]. rewrite le_Z. rewrite Z.ltb_antisym. reflexivity.
Qed.

Lemma max_Z a b :
  max (Fin (inject_Z a)) (Fin (inject_Z b)) = Fin (inject_Z (Z.max a b)).
Proof.
  cbn [max]. rewrite !lt_Z. destruct (Z.ltb_spec a b).
  - rewrite Z.max_r by lia. reflexivity.
  - rewrite Z.max_l by lia. destruct (b <? a)%Z; reflexivity.
Qed.

(** [Math.max(0, Math.ceil(x))] is never the negative zero. *)
Lemma max_ceil x :
  max (Fin (inject_Z 0)) (ceil (Fin x)) = Fin (inject_Z (Z.max 0 (Qceiling x))).
Proof.
  cbn [ceil]. destruct (Qneg x && (Qceiling x =? 0)%Z) eqn:E.
  - apply andb_prop in E. destruct E as [_ E]. apply Z.eqb_eq in E.
    rewrite E. reflexivity.
  - apply max_Z.
Qed.

(** ** The rounded operators on rationals *)

Lemma R_eq x : R x == RN x.
Proof. apply Qred_correct. Qed.

Lemma R_proper x y : x == y -> R x = R y.
Proof. intros E. apply Qred_complete, RN_proper, E. Qed.

Lemma R_mono x y : x <= y -> R x <= R y.
Proof. intros H. rewrite !R_eq. apply RN_mono, H. Qed.

Lemma R_Z z : (Z.abs z < 2 ^ 53)%Z -> R (inject_Z z) = inject_Z z.
Proof.
  intros H. unfold R. rewrite (Qred_complete _ _ (RN_Z z H)). apply Qred_inject_Z.
Qed.

Lemma R_nonneg x : 0 <= x -> 0 <= R x.
Proof. intros H. rewrite R_eq. apply RN_nonneg, H. Qed.

Lemma R_nonpos x : x <= 0 -> R x <= 0.
Proof. intros H. rewrite R_eq. apply RN_nonpos, H. Qed.

Lemma R_le_Z x z : (Z.abs z < 2 ^ 53)%Z -> x <= inject_Z z -> R x <= inject_Z z.
Proof. intros Hz H. rewrite <- (R_Z z Hz). apply R_mono, H. Qed.

Lemma R_pow2 k : (-1022 <= k)%Z -> R (pow2 k) == pow2 k.
Proof. intros H. rewrite R_eq. apply RN_pow2, H. Qed.

Lemma R_le_pow2 x k : (-1022 <= k)%Z -> x <= pow2 k -> R x <= pow2 k.
Proof. intros Hk H. rewrite <- (R_pow2 k Hk). apply R_mono, H. Qed.

Lemma R_ge_pow2 x k : (-1022 <= k)%Z -> pow2 k <= x -> pow2 k <= R x.
Proof. intros Hk H. rewrite <- (R_pow2 k Hk). apply R_mono, H. Qed.

Lemma R_opp x : R (- x) == - R x.
Proof. rewrite !R_eq. apply RN_opp. Qed.

Lemma R_ge_opp_pow2 x k : (-1022 <= k)%Z -> - pow2 k <= x -> - pow2 k <= R x.
Proof.
  intros Hk H. rewrite <- (R_pow2 k Hk), <- R_opp. apply R_mono. exact H.
Qed.

Lemma R_error x :
  pow2 (-1022) <= x ->
  x * (1 - pow2 (-53)) <= R x /\ R x <= x * (1 + pow2 (-53)).
Proof. intros H. rewrite R_eq. apply RN_error, H. Qed.

(** The rounded value is a multiple of the unit in the last place. *)
Lemma round_pos_granular x k :
  pow2 k <= x -> exists m, round_pos x == inject_Z m * pow2 (k - 52).
Proof.
  intros H. assert (G := ilog2_ge x k H).
  assert (C : (k - 52 <= ulp_exp x)%Z) by (unfold ulp_exp; lia).
  exists (rhe (x / pow2 (ulp_exp x)) * 2 ^ (ulp_exp x - (k - 52)))%Z.
  unfold round_pos. cbv zeta.
  rewrite (pow2_split (ulp_exp x) (k - 52)) at 2.
  rewrite (pow2_Z (ulp_exp x - (k - 52))) by lia.
  rewrite inject_Z_mult. ring.
Qed.

Lemma R_granular x k :
  pow2 k <= x -> exists m, R x == inject_Z m * pow2 (k - 52).
Proof.
  intros H. assert (P := pow2_pos k).
  destruct (round_pos_granular x k H) as [m E]. exists m.
  rewrite R_eq, RN_pos by lra. exact E.
Qed.

(** A rounded non-negative integer is an integer. *)
Lemma R_integer n : (0 <= n)%Z -> exists k, R (inject_Z n) == inject_Z k.
Proof.
  intros H. destruct (Z_lt_ge_dec n (2 ^ 52)) as [L | G].
  - exists n. rewrite R_Z by lia. reflexivity.
  - destruct (R_granular (inject_Z n) 52) as [m E].
    + rewrite pow2_Z by lia. rewrite <- Zle_Qle. lia.
    + exists m. rewrite E. change (pow2 (52 - 52)) with 1. ring.
Qed.

Lemma opp_pow2_m60 : - 1 <= - pow2 (-60).
Proof.
  assert (L : pow2 (-60) <= pow2 0) by (apply pow2_le; lia).
  change (pow2 0) with 1 in L. lra.
Qed.

(** An operation whose exact result is zero, or of magnitude between 2^-60
    and 2^60, returns the rounded result as a finite number. *)
Lemma rnd_small x :
  - pow2 60 <= x <= pow2 60 -> 0 <= x \/ x <= - pow2 (-60) -> rnd x = Fin (R x).
Proof.
  intros [H1 H2] Hz. apply rnd_finite.
  - assert (pow2 60 <= pow2 1023) by (apply pow2_le; lia). lra.
  - destruct Hz as [Hz | Hz]; [left; exact Hz | right].
    assert (pow2 (-1022) <= pow2 (-60)) by (apply pow2_le; lia). lra.
Qed.

Lemma div_Fin a b :
  0 < b -> - pow2 60 <= a / b <= pow2 60 -> 0 <= a \/ a / b <= - pow2 (-60) ->
  div (Fin a) (Fin b) = Fin (R (a / b)).
Proof.
  intros Hb H Hz. cbn [div value signbit].
  destruct (Qeq_bool b 0) eqn:E; [apply Qeq_bool_iff in E; lra|].
  destruct (Qeq_bool a 0) eqn:E0.
  - apply Qeq_bool_iff in E0.
    rewrite (Qneg_nonneg a), (Qneg_nonneg b) by lra. cbn [xorb zero].
    rewrite (R_proper (a / b) 0); [reflexivity|]. rewrite E0. field. lra.
  - apply rnd_small; [exact H|].
    destruct Hz as [Hz | Hz]; [left | right; exact Hz].
    apply Qle_shift_div_l; lra.
Qed.

Lemma mul_Fin a b :
  0 <= a -> 0 <= b -> a * b <= pow2 60 -> mul (Fin a) (Fin b) = Fin (R (a * b)).
Proof.
  intros Ha Hb H. cbn [mul]. assert (P := pow2_pos 60).
  destruct (Qeq_bool (a * b) 0) eqn:E.
  - apply Qeq_bool_iff in E. rewrite (Qneg_nonneg a Ha), (Qneg_nonneg b Hb).
    cbn [xorb zero]. rewrite (R_proper (a * b) 0 E). reflexivity.
  - apply rnd_small; [split; [nra | exact H] | left; nra].
Qed.

Lemma sub_Fin a b :
  - pow2 60 <= a - b <= pow2 60 -> b <= a \/ a - b <= - pow2 (-60) ->
  sub (Fin a) (Fin b) = Fin (R (a - b)).
Proof.
  intros H Hz. cbn [sub]. apply rnd_small; [exact H|].
  destruct Hz as [Hz | Hz]; [left; lra | right; exact Hz].
Qed.

Lemma pow2_60 : pow2 60 == 1152921504606846976.
Proof. reflexivity. Qed.

Lemma pow2_53 : pow2 53 == 9007199254740992.
Proof. reflexivity. Qed.

Lemma pow2_m7 : pow2 (-7) == 1 # 128.
Proof. reflexivity. Qed.

(** ** [compute] on valid integer inputs *)

Lemma safe_small z : (Z.abs z <= 100)%Z -> safe_integer z.
Proof. unfold safe_integer, MAX_SAFE_INTEGER. lia. Qed.

Lemma inject_Z_pos z : (0 < z)%Z -> 0 < inject_Z z.
Proof. intros H. change 0 with (inject_Z 0). rewrite <- Zlt_Qlt. exact H. Qed.

Lemma inject_Z_nonneg z : (0 <= z)%Z -> 0 <= inject_Z z.
Proof. intros H. change 0 with (inject_Z 0). rewrite <- Zle_Qle. exact H. Qed.

(** Integer literals injected into the rationals, for [lra]. *)
Ltac qlit :=
  change (inject_Z 0) with 0 in *;
  change (inject_Z 1) with 1 in *;
  change (inject_Z 5) with 5 in *;
  change (inject_Z 100) with 100 in *.

Section ValidInput.

Variables t a T : Z.
Hypothesis Ht : (0 < t <= MAX_SAFE_INTEGER)%Z.
Hypothesis Ha : (0 <= a <= t)%Z.
Hypothesis HT : (0 < T < 100)%Z.

Local Abbreviation tq := (inject_Z t).
Local Abbreviation aq := (inject_Z a).
Local Abbreviation Tq := (inject_Z T).

Lemma tq_bounds : 1 <= tq /\ tq <= 9007199254740992.
Proof.
  change 1 with (inject_Z 1).
  change 9007199254740992 with (inject_Z 9007199254740992).
  rewrite <- !Zle_Qle. unfold MAX_SAFE_INTEGER in Ht. lia.
Qed.

Lemma aq_bounds : 0 <= aq /\ aq <= tq.
Proof.
  change 0 with (inject_Z 0). rewrite <- !Zle_Qle. lia.
Qed.

Lemma Tq_bounds : 1 <= Tq /\ Tq <= 99.
Proof.
  change 1 with (inject_Z 1). change 99 with (inject_Z 99).
  rewrite <- !Zle_Qle. lia.
Qed.

Lemma ratio_bounds : 0 <= aq / tq /\ aq / tq <= 1.
Proof.
  destruct tq_bounds, aq_bounds. split.
  - apply Qle_shift_div_l; lra.
  - apply Qle_shift_div_r; lra.
Qed.

Lemma Rratio_bounds : 0 <= R (aq / tq) /\ R (aq / tq) <= 1.
Proof.
  destruct ratio_bounds. split.
  - apply R_nonneg. assumption.
  - apply (R_le_Z _ 1); [lia | qlit; assumption].
Qed.

Lemma percentQ_bounds : 0 <= percentQ t a /\ percentQ t a <= 100.
Proof.
  destruct Rratio_bounds. unfold percentQ. split.
  - apply R_nonneg. qlit. lra.
  - apply (R_le_Z _ 100); [lia|]. qlit. lra.
Qed.

Lemma fracQ_bounds : pow2 (-7) <= fracQ T /\ fracQ T <= 1.
Proof.
  destruct Tq_bounds. unfold fracQ. change (inject_Z 100) with 100. split.
  - apply R_ge_pow2; [lia|]. rewrite pow2_m7. apply Qle_shift_div_l; lra.
  - apply (R_le_Z _ 1); [lia|]. qlit. apply Qle_shift_div_r; lra.
Qed.

Lemma Rbound60 x : - pow2 60 <= x <= pow2 60 -> - pow2 60 <= R x <= pow2 60.
Proof.
  intros [H1 H2]. split; [apply R_ge_opp_pow2 | apply R_le_pow2]; (lia || assumption).
Qed.

Lemma prodT_bounds : 0 <= Tq * tq /\ Tq * tq <= pow2 60.
Proof. destruct tq_bounds, Tq_bounds. rewrite pow2_60. split; nra. Qed.

Lemma prodA_bounds : 0 <= 100 * aq /\ 100 * aq <= pow2 60.
Proof. destruct tq_bounds, aq_bounds. rewrite pow2_60. split; nra. Qed.

Lemma prodT_R_bounds : 0 <= R (Tq * tq) /\ R (Tq * tq) <= pow2 60.
Proof.
  destruct prodT_bounds. split; [apply R_nonneg | apply R_le_pow2]; (lia || assumption).
Qed.

Lemma prodA_R_bounds : 0 <= R (100 * aq) /\ R (100 * aq) <= pow2 60.
Proof.
  destruct prodA_bounds. split; [apply R_nonneg | apply R_le_pow2]; (lia || assumption).
Qed.

Lemma attendNumQ_bounds : - pow2 60 <= attendNumQ t a T <= pow2 60.
Proof.
  destruct prodT_R_bounds, prodA_R_bounds. assert (P := pow2_pos 60).
  apply Rbound60. qlit. lra.
Qed.

Lemma den_bounds : 1 <= inject_Z (100 - T) /\ inject_Z (100 - T) <= 99.
Proof.
  change 1 with (inject_Z 1). change 99 with (inject_Z 99).
  rewrite <- !Zle_Qle. lia.
Qed.

Lemma Qdiv_bound x d B : 1 <= d -> 0 <= B -> - B <= x <= B -> - B <= x / d <= B.
Proof.
  intros Hd HB [H1 H2]. split.
  - apply Qle_shift_div_l; [lra | nra].
  - apply Qle_shift_div_r; [lra | nra].
Qed.

Lemma attendQuot_bounds :
  - pow2 60 <= attendNumQ t a T / inject_Z (100 - T) <= pow2 60.
Proof.
  destruct den_bounds. assert (P := pow2_pos 60).
  apply Qdiv_bound; [assumption | lra | apply attendNumQ_bounds].
Qed.

Lemma fracProd_bounds : 0 <= R (fracQ T * tq) /\ R (fracQ T * tq) <= pow2 53.
Proof.
  destruct fracQ_bounds, tq_bounds. assert (P := pow2_pos (-7)). split.
  - apply R_nonneg. nra.
  - apply R_le_pow2; [lia|]. rewrite pow2_53. nra.
Qed.

Lemma bunkNumQ_bounds : - pow2 53 <= bunkNumQ t a T <= pow2 53.
Proof.
  destruct fracProd_bounds, tq_bounds, aq_bounds. unfold bunkNumQ.
  assert (E := pow2_53).
  split; [apply R_ge_opp_pow2 | apply R_le_pow2]; try lia; lra.
Qed.

Lemma bunkQuot_bounds : - pow2 60 <= bunkNumQ t a T / fracQ T <= pow2 60.
Proof.
  destruct fracQ_bounds as [F1 F2], bunkNumQ_bounds as [B1 B2].
  rewrite pow2_m7 in F1. rewrite pow2_53 in B1, B2. rewrite pow2_60. split.
  - apply Qle_shift_div_l; [lra | nra].
  - apply Qle_shift_div_r; [lra | nra].
Qed.

(** The numerators are zero, positive, or negative and at least one unit in
    the last place away from zero: no quotient underflows to the negative
    zero. *)
Lemma attendDiff_cases :
  R (inject_Z 100 * aq) <= R (Tq * tq) \/
  R (Tq * tq) - R (inject_Z 100 * aq) <= - pow2 (-60).
Proof.
  destruct (R_integer (T * t)) as [k1 E1]; [nia|].
  destruct (R_integer (100 * a)) as [k2 E2]; [lia|].
  rewrite inject_Z_mult in E1, E2.
  rewrite E1, E2. destruct (Z_le_gt_dec k2 k1) as [L | G].
  - left. rewrite <- Zle_Qle. exact L.
  - right. assert (N : inject_Z k1 + 1 <= inject_Z k2).
    { change 1 with (inject_Z 1). rewrite <- inject_Z_plus, <- Zle_Qle. lia. }
    assert (M := opp_pow2_m60). lra.
Qed.

Lemma attendNumQ_cases : 0 <= attendNumQ t a T \/ attendNumQ t a T <= - 1.
Proof.
  unfold attendNumQ. destruct attendDiff_cases as [C | C].
  - left. apply R_nonneg. lra.
  - right. apply (R_le_Z _ (-1)); [lia|].
    destruct (R_integer (T * t)) as [k1 E1]; [nia|].
    destruct (R_integer (100 * a)) as [k2 E2]; [lia|].
    rewrite inject_Z_mult in E1, E2.
    rewrite E1, E2 in *. assert (P := pow2_pos (-60)).
    assert (N : (k1 < k2)%Z) by (rewrite Zlt_Qlt; lra).
    assert (N' : inject_Z k1 + 1 <= inject_Z k2).
    { change 1 with (inject_Z 1). rewrite <- inject_Z_plus, <- Zle_Qle. lia. }
    change (inject_Z (-1)) with (-1). lra.
Qed.

Lemma attendQuot_cases :
  0 <= attendNumQ t a T \/
  attendNumQ t a T / inject_Z (100 - T) <= - pow2 (-60).
Proof.
  destruct attendNumQ_cases as [C | C]; [left; exact C | right].
  destruct den_bounds as [D1 D2]. assert (P := pow2_pos (-60)).
  assert (L : pow2 (-60) <= pow2 (-7)) by (apply pow2_le; lia).
  rewrite pow2_m7 in L.
  apply Qle_shift_div_r; [lra | nra].
Qed.

Lemma bunkDiff_cases :
  R (fracQ T * tq) <= aq \/ aq - R (fracQ T * tq) <= - pow2 (-59).
Proof.
  destruct fracQ_bounds as [F1 F2], tq_bounds as [T1 T2].
  assert (P := pow2_pos (-7)).
  destruct (R_granular (fracQ T * tq) (-7)) as [m E]; [nra|].
  change (-7 - 52)%Z with (-59)%Z in E. rewrite E.
  assert (A : aq == inject_Z (a * 2 ^ 59) * pow2 (-59)).
  { rewrite inject_Z_mult, <- (pow2_Z 59) by lia.
    rewrite <- Qmult_assoc, <- pow2_add. change (pow2 (59 + -59)) with 1. ring. }
  rewrite A. assert (Q := pow2_pos (-59)).
  destruct (Z_le_gt_dec m (a * 2 ^ 59)) as [L | G].
  - left. apply Qmult_le_compat_r; [rewrite <- Zle_Qle; exact L | lra].
  - right. assert (N : inject_Z (a * 2 ^ 59) + 1 <= inject_Z m).
    { change 1 with (inject_Z 1). rewrite <- inject_Z_plus, <- Zle_Qle. lia. }
    nra.
Qed.

Lemma opp_pow2_m59 : - pow2 (-59) <= - pow2 (-60).
Proof. assert (L : pow2 (-60) <= pow2 (-59)) by (apply pow2_le; lia). lra. Qed.

Lemma bunkNumQ_cases :
  0 <= bunkNumQ t a T \/ bunkNumQ t a T <= - pow2 (-59).
Proof.
  unfold bunkNumQ. destruct bunkDiff_cases as [C | C].
  - left. apply R_nonneg. lra.
  - right. rewrite <- (R_pow2 (-59)), <- R_opp by lia. apply R_mono, C.
Qed.

Lemma bunkQuot_cases :
  0 <= bunkNumQ t a T \/ bunkNumQ t a T / fracQ T <= - pow2 (-60).
Proof.
  destruct bunkNumQ_cases as [C | C]; [left; exact C | right].
  destruct fracQ_bounds as [F1 F2]. assert (P := pow2_pos (-7)).
  assert (Q := pow2_pos (-59)). assert (M := opp_pow2_m59).
  apply Qle_shift_div_r; [lra | nra].
Qed.

(** On valid integer inputs [compute] is the rounded formulas. *)
Lemma compute_valid : compute (mkData t a T) = Computed (resultQ t a T).
Proof.
  unfold compute, mkData. cbn [totalClasses attendedClasses targetPercentage].
  rewrite (of_Z_safe t), (of_Z_safe a), (of_Z_safe T)
    by (unfold safe_integer, MAX_SAFE_INTEGER in *; lia).
  rewrite (of_Z_safe 0), (of_Z_safe 100), (of_Z_safe 5) by (apply safe_small; lia).
  unfold ge, gt. rewrite le_Z, lt_Z.
  destruct (Z.leb_spec t 0); [lia|]. destruct (Z.ltb_spec t a); [lia|].
  destruct tq_bounds, aq_bounds, Tq_bounds, ratio_bounds, Rratio_bounds.
  assert (P60 := pow2_60).
  (* currentPercentage *)
  rewrite (div_Fin aq tq) by (lra || (left; lra)).
  rewrite (mul_Fin (R (aq / tq)) (inject_Z 100)) by (qlit; lra).
  fold (percentQ t a).
  (* classesToAttend *)
  rewrite (mul_Fin Tq tq) by (destruct prodT_bounds; lra).
  rewrite (mul_Fin (inject_Z 100) aq) by (destruct prodA_bounds; qlit; lra).
  rewrite (sub_Fin (R (Tq * tq)) (R (inject_Z 100 * aq))).
  2: { destruct prodT_R_bounds, prodA_R_bounds. qlit. lra. }
  2: { exact attendDiff_cases. }
  fold (attendNumQ t a T).
  rewrite (sub_Z 100 T) by lia.
  rewrite (div_Fin (attendNumQ t a T) (inject_Z (100 - T))).
  2: { destruct den_bounds. lra. }
  2: { apply attendQuot_bounds. }
  2: { exact attendQuot_cases. }
  rewrite max_ceil. fold (attendZ t a T).
  (* classesToBunk *)
  rewrite (div_Fin Tq (inject_Z 100)).
  2: { qlit. lra. }
  2: { qlit. split; [apply Qle_shift_div_l | apply Qle_shift_div_r]; lra. }
  2: { left. lra. }
  fold (fracQ T).
  rewrite (mul_Fin (fracQ T) tq)
    by (destruct fracQ_bounds; assert (Q := pow2_pos (-7)); nra).
  rewrite (sub_Fin aq (R (fracQ T * tq))).
  2: { destruct fracProd_bounds as [F1 F2]. rewrite pow2_53 in F2. lra. }
  2: { destruct bunkDiff_cases as [C | C]; [left; exact C | right].
       assert (M := opp_pow2_m59). lra. }
  fold (bunkNumQ t a T).
  rewrite (div_Fin (bunkNumQ t a T) (fracQ T)).
  2: { destruct fracQ_bounds; assert (Q := pow2_pos (-7)); lra. }
  2: { apply bunkQuot_bounds. }
  2: { exact bunkQuot_cases. }
  cbn [floor]. rewrite max_Z. fold (bunkZ t a T).
  (* status *)
  rewrite (sub_Z T 5) by lia.
  unfold resultQ, statusQ. cbn [le value].
  destruct (Qle_bool Tq (percentQ t a)) eqn:S1;
    [|destruct (Qle_bool (inject_Z (T - 5)) (percentQ t a))].
  - f_equal. f_equal. f_equal. apply Qle_bool_iff in S1.
    apply sub_Fin; [destruct percentQ_bounds; lra | left; exact S1].
  - reflexivity.
  - reflexivity.
Qed.

End ValidInput.

(** ** Exact products: the closed form of classesToAttend *)

Lemma pow2_m53 : pow2 (-53) == 1 # 9007199254740992.
Proof. reflexivity. Qed.

Lemma Qceiling_unique y c :
  inject_Z (c - 1) < y -> y <= inject_Z c -> Qceiling y = c.
Proof.
  intros H1 H2. assert (U := Qle_ceiling y). assert (L := Qceiling_lt y).
  assert (A : inject_Z (c - 1) < inject_Z (Qceiling y)) by lra.
  assert (B : inject_Z (Qceiling y - 1) < inject_Z c) by lra.
  rewrite <- Zlt_Qlt in A, B. lia.
Qed.

(** Bounds of a quotient of integers by its ceiling, as integer products. *)
Lemma Qceiling_div_bounds n d :
  (0 < d)%Z ->
  ((Qceiling (inject_Z n / inject_Z d) - 1) * d < n)%Z /\
  (n <= Qceiling (inject_Z n / inject_Z d) * d)%Z.
Proof.
  intros Hd. set (x := inject_Z n / inject_Z d).
  assert (D := inject_Z_pos d Hd).
  assert (X : x * inject_Z d == inject_Z n) by (unfold x; field; lra).
  assert (U := Qle_ceiling x). assert (L := Qceiling_lt x).
  split.
  - rewrite Zlt_Qlt, inject_Z_mult, <- X. apply Qmult_lt_compat_r; assumption.
  - rewrite Zle_Qle, inject_Z_mult, <- X. apply Qmult_le_compat_r; lra.
Qed.

(** The ceiling of a rounded quotient of a positive integer below 2^53 by
    a divisor of at most 100 is the ceiling of the exact quotient. *)
Lemma Qceiling_R_div n d :
  (0 < n < 2 ^ 53)%Z -> (1 <= d <= 100)%Z ->
  Qceiling (R (inject_Z n / inject_Z d)) = Qceiling (inject_Z n / inject_Z d).
Proof.
  intros Hn Hd. set (x := inject_Z n / inject_Z d).
  set (c := Qceiling x).
  destruct (Qceiling_div_bounds n d ltac:(lia)) as [L U]. fold x c in L, U.
  assert (D : 1 <= inject_Z d /\ inject_Z d <= 100).
  { change 1 with (inject_Z 1). change 100 with (inject_Z 100).
    rewrite <- !Zle_Qle. lia. }
  assert (N : 1 <= inject_Z n /\ inject_Z n < 9007199254740992).
  { change 1 with (inject_Z 1).
    change 9007199254740992 with (inject_Z 9007199254740992).
    rewrite <- Zle_Qle, <- Zlt_Qlt. lia. }
  assert (X : x * inject_Z d == inject_Z n) by (unfold x; field; lra).
  assert (Hc : (1 <= c <= n)%Z) by nia.
  apply Qceiling_unique.
  - (* c - 1 < R x : the rounding error is below 1/d *)
    assert (Xlo : pow2 (-1022) <= x).
    { apply Qle_trans with (pow2 (-7)); [apply pow2_le; lia|].
      rewrite pow2_m7. unfold x. apply Qle_shift_div_l; lra. }
    destruct (R_error x Xlo) as [E _]. rewrite pow2_m53 in E.
    assert (L' : inject_Z (c - 1) * inject_Z d + 1 <= inject_Z n).
    { rewrite <- inject_Z_mult.
      apply Qle_trans with (inject_Z ((c - 1) * d + 1)).
      - rewrite inject_Z_plus. apply Qle_refl.
      - rewrite <- Zle_Qle. lia. }
    assert (G : inject_Z (c - 1) * inject_Z d < R x * inject_Z d).
    { assert (E' : x * (1 - (1 # 9007199254740992)) * inject_Z d <= R x * inject_Z d)
        by (apply Qmult_le_compat_r; lra).
      nra. }
    apply Qmult_lt_r with (inject_Z d); [lra | exact G].
  - apply R_le_Z; [lia|]. apply Qle_ceiling.
Qed.

Lemma reachesTarget_iff t a T k :
  (0 < t + k)%Z ->
  reachesTarget t a T k <-> (T * t - 100 * a <= k * (100 - T))%Z.
Proof.
  intros H. unfold reachesTarget.
  assert (D := inject_Z_pos _ H).
  set (y := inject_Z (a + k) / inject_Z (t + k)).
  assert (Y : y * inject_Z (t + k) == inject_Z (a + k)) by (unfold y; field; lra).
  assert (E : inject_Z T <= y * 100 <->
              inject_Z T * inject_Z (t + k) <= inject_Z (a + k) * 100).
  { rewrite <- Y. split; intros K.
    - assert (K' := Qmult_le_compat_r _ _ (inject_Z (t + k)) K ltac:(lra)).
      lra.
    - apply Qmult_le_r with (inject_Z (t + k)); [lra|]. lra. }
  rewrite E. change 100 with (inject_Z 100).
  rewrite <- !inject_Z_mult, <- Zle_Qle. lia.
Qed.

Lemma holdsTarget_iff t a T m :
  (0 < t + m)%Z ->
  holdsTarget t a T m <-> (T * (t + m) <= 100 * a)%Z.
Proof.
  intros H. unfold holdsTarget.
  assert (D := inject_Z_pos _ H).
  set (y := inject_Z a / inject_Z (t + m)).
  assert (Y : y * inject_Z (t + m) == inject_Z a) by (unfold y; field; lra).
  assert (E : inject_Z T <= y * 100 <->
              inject_Z T * inject_Z (t + m) <= inject_Z a * 100).
  { rewrite <- Y. split; intros K.
    - assert (K' := Qmult_le_compat_r _ _ (inject_Z (t + m)) K ltac:(lra)).
      lra.
    - apply Qmult_le_r with (inject_Z (t + m)); [lra|]. lra. }
  rewrite E. change 100 with (inject_Z 100).
  rewrite <- !inject_Z_mult, <- Zle_Qle. lia.
Qed.

Section ExactInput.

Variables t a T : Z.
Hypothesis Ht : (0 < t <= MAX_EXACT_TOTAL)%Z.
Hypothesis Ha : (0 <= a <= t)%Z.
Hypothesis HT : (0 < T < 100)%Z.

Lemma exact_total_safe : (0 < t <= MAX_SAFE_INTEGER)%Z.
Proof. unfold MAX_EXACT_TOTAL, MAX_SAFE_INTEGER in *. lia. Qed.

Lemma attendNumQ_exact : attendNumQ t a T = inject_Z (T * t - 100 * a).
Proof.
  unfold MAX_EXACT_TOTAL in Ht. unfold attendNumQ.
  rewrite (R_proper (inject_Z T * inject_Z t) (inject_Z (T * t)))
    by (rewrite inject_Z_mult; reflexivity).
  rewrite (R_proper (inject_Z 100 * inject_Z a) (inject_Z (100 * a)))
    by (rewrite inject_Z_mult; reflexivity).
  rewrite !R_Z by nia.
  rewrite (R_proper (inject_Z (T * t) - inject_Z (100 * a)) (inject_Z (T * t - 100 * a))).
  - apply R_Z. nia.
  - unfold Z.sub. rewrite inject_Z_plus, inject_Z_opp. reflexivity.
Qed.

Lemma attendZ_exact :
  attendZ t a T = Z.max 0 (Qceiling (inject_Z (T * t - 100 * a) / inject_Z (100 - T))).
Proof.
  unfold attendZ. rewrite attendNumQ_exact.
  set (n := (T * t - 100 * a)%Z). set (d := (100 - T)%Z).
  assert (D := inject_Z_pos d ltac:(unfold d; lia)).
  destruct (Z.le_gt_cases n 0) as [N | N].
  - assert (X : inject_Z n / inject_Z d <= 0).
    { apply Qle_shift_div_r; [exact D|]. rewrite Qmult_0_l.
      change 0 with (inject_Z 0). rewrite <- Zle_Qle. exact N. }
    assert (C1 := Qceiling_resp_le _ _ (R_nonpos _ X)).
    assert (C2 := Qceiling_resp_le _ _ X).
    change (Qceiling 0) with 0%Z in C1, C2. lia.
  - rewrite Qceiling_R_div; [reflexivity | | unfold d; lia].
    unfold n, MAX_EXACT_TOTAL in *. nia.
Qed.

(** The closed form is the least number of classes that reaches the target. *)
Lemma attendZ_least j :
  (0 <= j)%Z -> reachesTarget t a T j <-> (attendZ t a T <= j)%Z.
Proof.
  intros Hj. rewrite reachesTarget_iff by lia. rewrite attendZ_exact.
  destruct (Qceiling_div_bounds (T * t - 100 * a) (100 - T) ltac:(lia)) as [L U].
  set (c := Qceiling _) in *. split; intros H; nia.
Qed.

End ExactInput.

(** ** Monotonicity in the target, tolerance of the percentage *)

Lemma Qdiv_mono x y d e : 0 <= x -> x <= y -> 0 < e -> e <= d -> x / d <= y / e.
Proof.
  intros Hx Hxy He Hed.
  assert (Y : y / e * e == y) by (field; lra).
  assert (P : 0 <= y / e) by (apply Qle_shift_div_l; lra).
  apply Qle_shift_div_r; [lra|]. nra.
Qed.

Lemma Qdiv_nonpos x d : x <= 0 -> 0 < d -> x / d <= 0.
Proof. intros Hx Hd. apply Qle_shift_div_r; lra. Qed.

Lemma Zmax0_ceil_nonpos x : x <= 0 -> Z.max 0 (Qceiling x) = 0%Z.
Proof.
  intros H. assert (C := Qceiling_resp_le _ _ H).
  change (Qceiling 0) with 0%Z in C. lia.
Qed.

Lemma Zmax0_floor_nonpos x : x <= 0 -> Z.max 0 (Qfloor x) = 0%Z.
Proof.
  intros H. assert (C := Qfloor_resp_le _ _ H).
  change (Qfloor 0) with 0%Z in C. lia.
Qed.

Section Monotone.

Variables t a T1 T2 : Z.
Hypothesis Ht : (0 < t <= MAX_SAFE_INTEGER)%Z.
Hypothesis Ha : (0 <= a <= t)%Z.
Hypothesis HT1 : (0 < T1)%Z.
Hypothesis HT12 : (T1 <= T2)%Z.
Hypothesis HT2 : (T2 < 100)%Z.

Lemma attendNumQ_mono : attendNumQ t a T1 <= attendNumQ t a T2.
Proof.
  unfold attendNumQ. apply R_mono.
  assert (M : R (inject_Z T1 * inject_Z t) <= R (inject_Z T2 * inject_Z t)).
  { apply R_mono. apply Qmult_le_compat_r.
    - rewrite <- Zle_Qle. exact HT12.
    - apply inject_Z_nonneg. lia. }
  lra.
Qed.

Lemma attendZ_mono : (attendZ t a T1 <= attendZ t a T2)%Z.
Proof.
  unfold attendZ. assert (M := attendNumQ_mono).
  assert (D1 := inject_Z_pos (100 - T1) ltac:(lia)).
  assert (D2 := inject_Z_pos (100 - T2) ltac:(lia)).
  assert (D : inject_Z (100 - T2) <= inject_Z (100 - T1)) by (rewrite <- Zle_Qle; lia).
  destruct (Qlt_le_dec 0 (attendNumQ t a T1)) as [P | N].
  - apply Z.max_le_compat_l, Qceiling_resp_le, R_mono.
    apply Qdiv_mono; lra.
  - rewrite (Zmax0_ceil_nonpos (R (attendNumQ t a T1 / inject_Z (100 - T1)))).
    + apply Z.le_max_l.
    + apply R_nonpos, Qdiv_nonpos; assumption.
Qed.

Lemma fracQ_mono : fracQ T1 <= fracQ T2.
Proof.
  unfold fracQ. apply R_mono. apply Qmult_le_compat_r.
  - rewrite <- Zle_Qle. exact HT12.
  - discriminate.
Qed.

Lemma bunkNumQ_anti : bunkNumQ t a T2 <= bunkNumQ t a T1.
Proof.
  unfold bunkNumQ. apply R_mono.
  assert (M : R (fracQ T1 * inject_Z t) <= R (fracQ T2 * inject_Z t)).
  { apply R_mono. apply Qmult_le_compat_r; [apply fracQ_mono|].
    apply inject_Z_nonneg. lia. }
  lra.
Qed.

Lemma bunkZ_anti : (bunkZ t a T2 <= bunkZ t a T1)%Z.
Proof.
  unfold bunkZ. assert (M := bunkNumQ_anti). assert (F := fracQ_mono).
  destruct (fracQ_bounds T1 ltac:(lia)) as [F1 _].
  destruct (fracQ_bounds T2 ltac:(lia)) as [F2 _].
  assert (P7 := pow2_pos (-7)).
  destruct (Qlt_le_dec 0 (bunkNumQ t a T2)) as [P | N].
  - apply Z.max_le_compat_l, Qfloor_resp_le, R_mono.
    apply Qdiv_mono; lra.
  - rewrite (Zmax0_floor_nonpos (R (bunkNumQ t a T2 / fracQ T2))).
    + apply Z.le_max_l.
    + apply R_nonpos, Qdiv_nonpos; lra.
Qed.

End Monotone.

(** Tolerance of the percentage: two roundings, each within 2^-53. *)
Section Tolerance.

Variables t a : Z.
Hypothesis Ht : (0 < t <= MAX_SAFE_INTEGER)%Z.
Hypothesis Ha : (0 <= a <= t)%Z.

Local Abbreviation x := (inject_Z a / inject_Z t).
Local Abbreviation u := (1 # 9007199254740992).

Lemma ratio_normal : (0 < a)%Z -> pow2 (-53) <= x.
Proof.
  intros Hpos. destruct (tq_bounds t Ht) as [T1 T2].
  assert (A : 1 <= inject_Z a).
  { change 1 with (inject_Z 1). rewrite <- Zle_Qle. lia. }
  rewrite pow2_m53. apply Qle_shift_div_l; lra.
Qed.

Lemma pow2_m53_normal : pow2 (-1022) <= pow2 (-53).
Proof. apply pow2_le. lia. Qed.

Lemma Rratio_error :
  x * (1 - u) <= R x /\ R x <= x * (1 + u).
Proof.
  destruct (Z.eq_dec a 0) as [-> | NZ].
  - assert (E : inject_Z 0 / inject_Z t == 0) by (unfold Qdiv; apply Qmult_0_l).
    rewrite (R_proper _ _ E), E. change (R 0) with 0. lra.
  - assert (N := ratio_normal ltac:(lia)). assert (S := pow2_m53_normal).
    destruct (R_error x ltac:(lra)) as [E1 E2]. rewrite pow2_m53 in E1, E2.
    split; assumption.
Qed.

Lemma percentQ_error :
  x * 100 * ((1 - u) * (1 - u)) <= percentQ t a /\
  percentQ t a <= x * 100 * ((1 + u) * (1 + u)).
Proof.
  unfold percentQ. change (inject_Z 100) with 100.
  destruct Rratio_error as [E1 E2].
  destruct (Z.eq_dec a 0) as [-> | NZ].
  - assert (E : inject_Z 0 / inject_Z t == 0) by (unfold Qdiv; apply Qmult_0_l).
    rewrite (R_proper _ _ E). change (R 0) with 0.
    change (R (0 * 100)) with 0. rewrite E. lra.
  - assert (N := ratio_normal ltac:(lia)). assert (S := pow2_m53_normal).
    assert (G : pow2 (-53) <= R x) by (apply R_ge_pow2; [lia | exact N]).
    assert (P := pow2_pos (-53)).
    destruct (R_error (R x * 100) ltac:(lra)) as [F1 F2]. rewrite pow2_m53 in F1, F2.
    assert (X0 : 0 <= inject_Z a / inject_Z t) by lra.
    split; nra.
Qed.

End Tolerance.

(** ** Status and counters *)

(** Absolute error of one rounding: half a unit in the last place. *)
Lemma round_pos_abs_error x :
  0 < x ->
  x - pow2 (ulp_exp x - 1) <= round_pos x /\
  round_pos x <= x + pow2 (ulp_exp x - 1).
Proof.
  intros Hx. unfold round_pos. set (c := ulp_exp x).
  assert (P := pow2_pos c).
  destruct (rhe_error (x / pow2 c)) as [R1 R2].
  set (m := inject_Z (rhe (x / pow2 c))) in *.
  assert (Ex : x / pow2 c * pow2 c == x) by (field; lra).
  assert (Eh : pow2 (c - 1) * 2 == pow2 c).
  { rewrite (pow2_split c (c - 1)). replace (c - (c - 1))%Z with 1%Z by ring.
    change (pow2 1) with 2. ring. }
  assert (A1 : (x / pow2 c - (1 # 2)) * pow2 c <= m * pow2 c)
    by (apply Qmult_le_compat_r; lra).
  assert (A2 : m * pow2 c <= (x / pow2 c + (1 # 2)) * pow2 c)
    by (apply Qmult_le_compat_r; lra).
  split; lra.
Qed.

Lemma R_abs_error x k :
  (-1021 <= k)%Z -> 0 < x -> x <= pow2 k ->
  x - pow2 (k - 54) <= R x /\ R x <= x + pow2 (k - 54).
Proof.
  intros Hk Hx Hxk. assert (P := pow2_pos (k - 54)).
  destruct (Qlt_le_dec x (pow2 k)) as [L | G].
  - rewrite R_eq, (RN_pos x Hx).
    destruct (round_pos_abs_error x Hx) as [E1 E2].
    assert (I := ilog2_lt x k Hx L).
    assert (C : pow2 (ulp_exp x - 1) <= pow2 (k - 54)).
    { apply pow2_le. unfold ulp_exp. lia. }
    split; lra.
  - assert (E : x == pow2 k) by (apply Qle_antisym; assumption).
    rewrite (R_proper _ _ E), R_pow2 by lia. split; lra.
Qed.

Lemma pow2_m54 : pow2 (-54) == 1 # 18014398509481984.
Proof. reflexivity. Qed.

Lemma pow2_m47 : pow2 (-47) == 1 # 140737488355328.
Proof. reflexivity. Qed.

Lemma pow2_m60 : pow2 (-60) == 1 # 1152921504606846976.
Proof. reflexivity. Qed.

Lemma pow2_m6 : pow2 (-6) == 1 # 64.
Proof. reflexivity. Qed.

Lemma pow2_7 : pow2 7 == 128.
Proof. reflexivity. Qed.

Section StatusCounters.

Variables t a T : Z.
Hypothesis Ht : (0 < t <= MAX_EXACT_TOTAL)%Z.
Hypothesis Ha : (0 <= a <= t)%Z.
Hypothesis HT : (0 < T < 100)%Z.

Local Abbreviation tq := (inject_Z t).
Local Abbreviation aq := (inject_Z a).
Local Abbreviation Tq := (inject_Z T).
Local Abbreviation u := (1 # 9007199254740992).
(* 100 * 2^-54 + 2^-47 = 57 * 2^-52: the two roundings of the percentage *)
Local Abbreviation delta := (57 # 4503599627370496).

Lemma status_bounds :
  1 <= tq /\ tq <= 70368744177664 /\ 0 <= aq /\ aq <= tq /\ 1 <= Tq /\ Tq <= 99.
Proof.
  change 1 with (inject_Z 1). change 0 with (inject_Z 0).
  change 99 with (inject_Z 99).
  change 70368744177664 with (inject_Z 70368744177664).
  rewrite <- !Zle_Qle. unfold MAX_EXACT_TOTAL in Ht. lia.
Qed.

Lemma ratio_times_total : aq / tq * tq == aq.
Proof. destruct status_bounds. field. lra. Qed.

(** The percentage is within 100 * 2^-54 + 2^-47 of the exact ratio. *)
Lemma percentQ_abs_error :
  aq / tq * 100 - delta <= percentQ t a /\ percentQ t a <= aq / tq * 100 + delta.
Proof.
  assert (Hs := exact_total_safe t Ht).
  unfold percentQ. change (inject_Z 100) with 100.
  destruct (Z.eq_dec a 0) as [-> | NZ].
  - assert (E : inject_Z 0 / tq == 0) by (unfold Qdiv; apply Qmult_0_l).
    rewrite (R_proper _ _ E). change (R 0) with 0.
    change (R (0 * 100)) with 0. rewrite E. lra.
  - assert (N := ratio_normal t a Hs ltac:(lia)).
    assert (P53 := pow2_pos (-53)).
    destruct (ratio_bounds t a Hs Ha) as [X0 X1].
    destruct (Rratio_bounds t a Hs Ha) as [Y0 Y1].
    destruct (R_abs_error (aq / tq) 0 ltac:(lia) ltac:(lra)
                ltac:(change (pow2 0) with 1; lra)) as [E1 E2].
    change (0 - 54)%Z with (-54)%Z in E1, E2. rewrite pow2_m54 in E1, E2.
    assert (G : pow2 (-53) <= R (aq / tq)) by (apply R_ge_pow2; [lia | exact N]).
    destruct (R_abs_error (R (aq / tq) * 100) 7 ltac:(lia) ltac:(lra)
                ltac:(rewrite pow2_7; lra)) as [F1 F2].
    change (7 - 54)%Z with (-47)%Z in F1, F2. rewrite pow2_m47 in F1, F2.
    split; lra.
Qed.

(** Below the target exactly, the rounded percentage is below it too. *)
Lemma percentQ_below : (100 * a < T * t)%Z -> percentQ t a < Tq.
Proof.
  intros H. destruct status_bounds as (B1 & B2 & B3 & B4 & B5 & B6).
  destruct percentQ_abs_error as [_ E].
  assert (X := ratio_times_total).
  assert (I : 100 * aq + 1 <= Tq * tq).
  { change 100 with (inject_Z 100). change 1 with (inject_Z 1).
    rewrite <- !inject_Z_mult, <- inject_Z_plus, <- Zle_Qle. lia. }
  assert (E' : percentQ t a * tq <= (aq / tq * 100 + delta) * tq)
    by (apply Qmult_le_compat_r; lra).
  assert (C : (aq / tq * 100 + delta) * tq == 100 * aq + delta * tq).
  { rewrite <- X at 2. ring. }
  apply Qmult_lt_r with tq; [lra|]. lra.
Qed.

(** A rounded percentage below the target means the exact one is not
    above it. *)
Lemma percentQ_not_above : percentQ t a < Tq -> (100 * a <= T * t)%Z.
Proof.
  intros H. destruct (Z.le_gt_cases (100 * a) (T * t)) as [L | G]; [exact L|].
  exfalso. destruct status_bounds as (B1 & B2 & B3 & B4 & B5 & B6).
  destruct percentQ_abs_error as [E _].
  assert (X := ratio_times_total).
  assert (I : Tq * tq + 1 <= 100 * aq).
  { change 100 with (inject_Z 100). change 1 with (inject_Z 1).
    rewrite <- !inject_Z_mult, <- inject_Z_plus, <- Zle_Qle. lia. }
  assert (E' : (aq / tq * 100 - delta) * tq <= percentQ t a * tq)
    by (apply Qmult_le_compat_r; lra).
  assert (K : percentQ t a * tq < Tq * tq) by (apply Qmult_lt_compat_r; lra).
  assert (C : (aq / tq * 100 - delta) * tq == 100 * aq - delta * tq).
  { rewrite <- X at 2. ring. }
  lra.
Qed.

Lemma safe_attendZ : Tq <= percentQ t a -> attendZ t a T = 0%Z.
Proof.
  intros H.
  assert (N : (T * t - 100 * a <= 0)%Z).
  { destruct (Z.le_gt_cases (T * t - 100 * a) 0) as [L | G]; [exact L|].
    assert (B := percentQ_below ltac:(lia)). lra. }
  rewrite (attendZ_exact t a T Ht Ha HT).
  apply Zmax0_ceil_nonpos, Qdiv_nonpos.
  - change 0 with (inject_Z 0). rewrite <- Zle_Qle. exact N.
  - apply inject_Z_pos. lia.
Qed.

Lemma fracQ_lower : Tq / 100 * (1 - u) <= fracQ T.
Proof.
  destruct status_bounds as (B1 & B2 & B3 & B4 & B5 & B6).
  assert (N : pow2 (-1022) <= Tq / 100).
  { apply Qle_trans with (pow2 (-7)); [apply pow2_le; lia|].
    rewrite pow2_m7. apply Qle_shift_div_l; lra. }
  destruct (R_error _ N) as [E _]. rewrite pow2_m53 in E.
  unfold fracQ. qlit. exact E.
Qed.

Lemma fracProd_lower : fracQ T * tq * (1 - u) <= R (fracQ T * tq).
Proof.
  destruct status_bounds as (B1 & B2 & B3 & B4 & B5 & B6).
  destruct (fracQ_bounds T HT) as [F1 F2]. assert (P := pow2_pos (-7)).
  assert (N : pow2 (-1022) <= fracQ T * tq).
  { apply Qle_trans with (pow2 (-7)); [apply pow2_le; lia|]. nra. }
  destruct (R_error _ N) as [E _]. rewrite pow2_m53 in E. exact E.
Qed.

(** At or below the target exactly, what is left after the rounded share
    of the total is far less than one class. *)
Lemma bunkNumQ_small :
  (100 * a <= T * t)%Z -> bunkNumQ t a T <= Tq / 100 * (1 # 64) + (1 # 1152921504606846976).
Proof.
  intros H. destruct status_bounds as (B1 & B2 & B3 & B4 & B5 & B6).
  assert (F := fracQ_lower). assert (W := fracProd_lower).
  assert (I : 100 * aq <= Tq * tq).
  { change 100 with (inject_Z 100).
    rewrite <- !inject_Z_mult, <- Zle_Qle. lia. }
  unfold bunkNumQ.
  set (p := fracQ T) in *. set (w := R (p * tq)) in *.
  assert (M : Tq * tq <= Tq * 70368744177664) by (apply Qmult_le_l; lra).
  assert (D : Tq / 100 * tq == Tq * tq / 100) by field.
  assert (D2 : Tq / 100 == Tq * (1 # 100)) by field.
  assert (G : Tq * tq / 100 * ((1 - u) * (1 - u)) <= w).
  { assert (F' : Tq / 100 * (1 - u) * tq <= p * tq)
      by (apply Qmult_le_compat_r; lra).
    assert (S1 : Tq / 100 * (1 - u) * tq * (1 - u) <= p * tq * (1 - u))
      by (apply Qmult_le_compat_r; lra).
    assert (S2 : Tq / 100 * (1 - u) * tq * (1 - u)
                 == Tq * tq / 100 * ((1 - u) * (1 - u))) by field.
    lra. }
  assert (Z : aq - w <= Tq / 100 * (1 # 64)).
  { assert (D1 : Tq * tq / 100 == Tq * tq * (1 # 100)) by field.
    set (P0 := Tq * tq) in *. lra. }
  destruct (Qlt_le_dec 0 (aq - w)) as [Pz | Nz].
  - destruct (R_abs_error (aq - w) (-6) ltac:(lia) Pz
                ltac:(rewrite pow2_m6; lra)) as [_ E].
    change (-6 - 54)%Z with (-60)%Z in E. rewrite pow2_m60 in E. lra.
  - assert (R (aq - w) <= 0) by (apply R_nonpos; exact Nz). lra.
Qed.

Lemma unsafe_bunkZ : percentQ t a < Tq -> bunkZ t a T = 0%Z.
Proof.
  intros H. assert (L := percentQ_not_above H).
  assert (S := bunkNumQ_small L).
  destruct status_bounds as (B1 & B2 & B3 & B4 & B5 & B6).
  assert (F := fracQ_lower).
  unfold bunkZ.
  destruct (Qlt_le_dec 0 (bunkNumQ t a T)) as [P | N].
  - assert (D2 : Tq / 100 == Tq * (1 # 100)) by field.
    assert (Q : bunkNumQ t a T / fracQ T <= 7 # 8).
    { apply Qle_shift_div_r; lra. }
    assert (R78 : R (7 # 8) = 7 # 8) by reflexivity.
    assert (M := R_mono _ _ Q). rewrite R78 in M.
    assert (C := Qfloor_resp_le _ _ M). change (Qfloor (7 # 8)) with 0%Z in C. lia.
  - apply Zmax0_floor_nonpos, R_nonpos, Qdiv_nonpos; [exact N|].
    destruct (fracQ_bounds T HT) as [F1 _]. assert (P := pow2_pos (-7)). lra.
Qed.

End StatusCounters.

(** ** The claims of the specification *)

(** An integer is never the negative zero. *)
Lemma of_Z_not_NZero z : of_Z z <> NZero.
Proof.
  unfold of_Z, rnd.
  destruct (Qle_bool (pow2 1024) (Qabs (Qred (RN (inject_Z z))))); [discriminate|].
  destruct (Qeq_bool (Qred (RN (inject_Z z))) 0 && Qneg (inject_Z z)) eqn:E;
    [|discriminate].
  exfalso. apply andb_prop in E. destruct E as [E1 E2].
  apply Qeq_bool_iff in E1. rewrite Qred_correct in E1. apply Qneg_lt in E2.
  assert (N : inject_Z z <= inject_Z (-1)).
  { change 0 with (inject_Z 0) in E2. rewrite <- Zlt_Qlt in E2.
    rewrite <- Zle_Qle. lia. }
  assert (M := RN_mono _ _ N). rewrite (RN_Z (-1)) in M by (cbn; lia).
  change (inject_Z (-1)) with (-1) in M. lra.
Qed.

(** [parseInt(value) || 0] keeps every integer: the only falsy one is 0. *)
Lemma or_zero_of_Z z : (if truthy (of_Z z) then of_Z z else of_Z 0) = of_Z z.
Proof.
  destruct (truthy (of_Z z)) eqn:E; [reflexivity|].
  assert (NZ := of_Z_not_NZero z).
  unfold of_Z, rnd in E, NZ |- *.
  destruct (Qle_bool (pow2 1024) (Qabs (Qred (RN (inject_Z z))))); [discriminate E|].
  destruct (Qeq_bool (Qred (RN (inject_Z z))) 0 && Qneg (inject_Z z));
    [contradiction NZ; reflexivity|].
  cbn [truthy] in E. apply negb_false_iff, Qeq_bool_iff in E.
  assert (K : Qred (RN (inject_Z z)) = 0).
  { rewrite <- (Qred_complete _ _ (Qred_correct (RN (inject_Z z)))).
    apply (Qred_complete _ 0). exact E. }
  rewrite K. reflexivity.
Qed.

(** Typing three integers into the form yields [mkData]. *)
Lemma updateData_integers (st : State) (t a T : Z) :
  data (updateData FTargetPercentage (Some T)
          (updateData FAttendedClasses (Some a)
             (updateData FTotalClasses (Some t) st)))
  = mkData t a T.
Proof.
  unfold updateData, mkData. cbn [data totalClasses attendedClasses targetPercentage].
  rewrite !or_zero_of_Z. reflexivity.
Qed.

(** The guards of [compute] on integers. *)
Lemma compute_guards (t a T : Z) :
  safe_integer t -> safe_integer a ->
  (t <= 0 /\ compute (mkData t a T) = Failed TotalNotPositive)%Z \/
  (0 < t < a /\ compute (mkData t a T) = Failed AttendedExceedsTotal)%Z \/
  (0 < t /\ a <= t /\ exists r, compute (mkData t a T) = Computed r)%Z.
Proof.
  intros St Sa. unfold compute, mkData.
  cbn [totalClasses attendedClasses targetPercentage].
  rewrite (of_Z_safe t St), (of_Z_safe a Sa), (of_Z_safe 0) by (apply safe_small; lia).
  unfold gt. rewrite le_Z, lt_Z.
  destruct (Z.leb_spec t 0); [left; split; [lia | reflexivity]|].
  destruct (Z.ltb_spec t a); [right; left; split; [lia | reflexivity]|].
  right; right. split; [lia|]. split; [lia|].
  repeat match goal with
         | |- context [if ?c then _ else _] => destruct c
         end; eexists; reflexivity.
Qed.

(** C1 (as amended): on integer inputs [compute] fails exactly when
    totalClasses <= 0 (first guard) or attendedClasses > totalClasses
    (second guard); there is no check that attendedClasses is non-negative
    nor that targetPercentage lies in (0,100).  Every input that satisfies
    the three preconditions of the specification succeeds and produces an
    AttendanceResult. *)
Theorem C1_compute_fails_iff (t a T : Z) :
  safe_integer t -> safe_integer a ->
  (compute (mkData t a T) = Failed TotalNotPositive <-> (t <= 0)%Z) /\
  (compute (mkData t a T) = Failed AttendedExceedsTotal <-> (0 < t < a)%Z) /\
  ((exists e, compute (mkData t a T) = Failed e) <-> (t <= 0 \/ a > t)%Z) /\
  ((0 < t)%Z -> (0 <= a <= t)%Z -> (0 < T < 100)%Z ->
   exists r, compute (mkData t a T) = Computed r).
Proof.
  intros St Sa.
  destruct (compute_guards t a T St Sa) as [[H E] | [[H E] | (H1 & H2 & r & E)]];
    rewrite E; repeat split; intros; try lia; try discriminate;
    try (eexists; reflexivity);
    try (left; lia); try (right; lia).
  - destruct H as [e He]. discriminate.
Qed.

Lemma C1_compute_fails_iff_witness :
  safe_integer 5 /\ safe_integer 10 /\
  (compute (mkData 5 10 75) = Failed TotalNotPositive <-> (5 <= 0)%Z) /\
  (compute (mkData 5 10 75) = Failed AttendedExceedsTotal <-> (0 < 5 < 10)%Z) /\
  ((exists e, compute (mkData 5 10 75) = Failed e) <-> (5 <= 0 \/ 10 > 5)%Z) /\
  ((0 < 5)%Z -> (0 <= 10 <= 5)%Z -> (0 < 75 < 100)%Z ->
   exists r, compute (mkData 5 10 75) = Computed r).
Proof.
  assert (S5 : safe_integer 5) by (unfold safe_integer, MAX_SAFE_INTEGER; lia).
  assert (S10 : safe_integer 10) by (unfold safe_integer, MAX_SAFE_INTEGER; lia).
  split; [exact S5|]. split; [exact S10|].
  exact (C1_compute_fails_iff 5 10 75 S5 S10).
Defined.

(** C1, refuted as stated: a target of 100 is outside (0,100) and negative
    attended classes are outside [0, totalClasses], yet [compute] does not
    fail on either input: with the target 100 it divides by zero and returns
    classesToAttend = Infinity. *)
Lemma C1_counterexample :
  (~ (0 < 100 < 100)%Z /\
   exists r, compute (mkData 50 40 100) = Computed r /\
             classesToAttend r = Inf false) /\
  (~ (0 <= -1 <= 10)%Z /\
   exists r, compute (mkData 10 (-1) 75) = Computed r /\ status r = danger).
Proof.
  split; (split; [lia|]); eexists; (split; [vm_compute; reflexivity | reflexivity]).
Qed.

(** C2 (as amended): for totalClasses up to 2^46, classesToAttend is the
    smallest non-negative integer k with
    (attended + k) / (total + k) * 100 >= target. *)
Theorem C2_classesToAttend_least (t a T : Z) :
  (0 < t <= MAX_EXACT_TOTAL)%Z -> (0 <= a <= t)%Z -> (0 < T < 100)%Z ->
  exists r k,
    compute (mkData t a T) = Computed r /\
    classesToAttend r = Fin (inject_Z k) /\
    (0 <= k)%Z /\
    reachesTarget t a T k /\
    ((0 < k)%Z -> ~ reachesTarget t a T (k - 1)) /\
    (forall j, (0 <= j)%Z -> reachesTarget t a T j -> (k <= j)%Z).
Proof.
  intros Ht Ha HT.
  assert (Hs := exact_total_safe t Ht).
  exists (resultQ t a T), (attendZ t a T).
  split; [apply compute_valid; assumption|].
  split; [reflexivity|].
  assert (K : (0 <= attendZ t a T)%Z) by (unfold attendZ; apply Z.le_max_l).
  split; [exact K|].
  split; [apply (attendZ_least t a T Ht Ha HT); lia|].
  split.
  - intros P C. apply (attendZ_least t a T Ht Ha HT) in C; lia.
  - intros j Hj C. apply (attendZ_least t a T Ht Ha HT); assumption.
Qed.

Lemma C2_classesToAttend_least_witness :
  (0 < 20 <= MAX_EXACT_TOTAL)%Z /\ (0 <= 14 <= 20)%Z /\ (0 < 75 < 100)%Z /\
  exists r k,
    compute (mkData 20 14 75) = Computed r /\
    classesToAttend r = Fin (inject_Z k) /\
    (0 <= k)%Z /\
    reachesTarget 20 14 75 k /\
    ((0 < k)%Z -> ~ reachesTarget 20 14 75 (k - 1)) /\
    (forall j, (0 <= j)%Z -> reachesTarget 20 14 75 j -> (k <= j)%Z).
Proof.
  assert (H1 : (0 < 20 <= MAX_EXACT_TOTAL)%Z) by (unfold MAX_EXACT_TOTAL; lia).
  assert (H2 : (0 <= 14 <= 20)%Z) by lia.
  assert (H3 : (0 < 75 < 100)%Z) by lia.
  split; [exact H1|]. split; [exact H2|]. split; [exact H3|].
  exact (C2_classesToAttend_least 20 14 75 H1 H2 H3).
Defined.

(** C2, refuted as stated: with 100000000000001 classes held, 99000000000000
    attended and a target of 99, the product 99 * 100000000000001 =
    9900000000000099 exceeds 2^53 and rounds to 9900000000000100, so
    classesToAttend is 100 although 99 more classes already reach the
    target. *)
Lemma C2_counterexample :
  (0 < 100000000000001)%Z /\ (0 <= 99000000000000 <= 100000000000001)%Z /\
  (0 < 99 < 100)%Z /\
  exists r,
    compute (mkData 100000000000001 99000000000000 99) = Computed r /\
    classesToAttend r = Fin (inject_Z 100) /\
    reachesTarget 100000000000001 99000000000000 99 (100 - 1).
Proof.
  split; [lia|]. split; [lia|]. split; [lia|].
  eexists. split; [vm_compute; reflexivity|]. split; [reflexivity|].
  apply reachesTarget_iff; lia.
Qed.

(** C3 (the code departs from the claim): with 9 classes held, 8 attended
    and a target of 80, [(8 - (80 / 100) * 9) / (80 / 100)] evaluates to
    0.9999999999999998, so classesToBunk is 0; yet missing 1 class keeps
    8 / 10 * 100 = 80 >= 80: the returned value plus 1 does not violate the
    inequality.  The same happens with 1 class held, 1 attended and a target
    of 5: classesToBunk is 18 and 19 classes can be missed. *)
Theorem C3_classesToBunk_not_largest :
  (exists r,
     compute (mkData 9 8 80) = Computed r /\
     status r = safe /\
     classesToBunk r = of_Z 0 /\
     holdsTarget 9 8 80 (0 + 1)) /\
  (exists r,
     compute (mkData 1 1 5) = Computed r /\
     status r = safe /\
     classesToBunk r = of_Z 18 /\
     holdsTarget 1 1 5 (18 + 1)).
Proof.
  split; eexists; (split; [vm_compute; reflexivity|]);
    (split; [reflexivity|]); (split; [vm_compute; reflexivity|]);
    apply holdsTarget_iff; lia.
Qed.

(** C5: with the totals fixed, a higher target never lowers classesToAttend
    and never raises classesToBunk. *)
Theorem C5_target_monotone (t a T1 T2 : Z) :
  (0 < t <= MAX_SAFE_INTEGER)%Z -> (0 <= a <= t)%Z ->
  (0 < T1)%Z -> (T1 < T2)%Z -> (T2 < 100)%Z ->
  exists r1 r2,
    compute (mkData t a T1) = Computed r1 /\
    compute (mkData t a T2) = Computed r2 /\
    ge (classesToAttend r2) (classesToAttend r1) = true /\
    le (classesToBunk r2) (classesToBunk r1) = true.
Proof.
  intros Ht Ha H1 H12 H2. exists (resultQ t a T1), (resultQ t a T2).
  split; [apply compute_valid; (assumption || lia)|].
  split; [apply compute_valid; (assumption || lia)|].
  cbn [resultQ classesToAttend classesToBunk]. unfold ge. rewrite !le_Z.
  split; apply Z.leb_le.
  - apply attendZ_mono; (assumption || lia).
  - apply bunkZ_anti; (assumption || lia).
Qed.

Lemma C5_target_monotone_witness :
  (0 < 50 <= MAX_SAFE_INTEGER)%Z /\ (0 <= 40 <= 50)%Z /\
  (0 < 60)%Z /\ (60 < 75)%Z /\ (75 < 100)%Z /\
  exists r1 r2,
    compute (mkData 50 40 60) = Computed r1 /\
    compute (mkData 50 40 75) = Computed r2 /\
    ge (classesToAttend r2) (classesToAttend r1) = true /\
    le (classesToBunk r2) (classesToBunk r1) = true.
Proof.
  assert (H1 : (0 < 50 <= MAX_SAFE_INTEGER)%Z) by (unfold MAX_SAFE_INTEGER; lia).
  assert (H2 : (0 <= 40 <= 50)%Z) by lia.
  assert (H3 : (0 < 60)%Z) by lia.
  assert (H4 : (60 < 75)%Z) by lia.
  assert (H5 : (75 < 100)%Z) by lia.
  repeat (split; [assumption|]).
  exact (C5_target_monotone 50 40 60 75 H1 H2 H3 H4 H5).
Defined.

Lemma abs_Z z : abs (Fin (inject_Z z)) = Fin (inject_Z (Z.abs z)).
Proof. cbn [abs]. change (Qabs (inject_Z z)) with (inject_Z (Z.abs z)). rewrite Qred_inject_Z. reflexivity. Qed.

(** The percentage of [compute] on valid integers, without the target. *)
Lemma percentage_valid (t a : Z) :
  (0 < t <= MAX_SAFE_INTEGER)%Z -> (0 <= a <= t)%Z ->
  mul (div (Fin (inject_Z a)) (Fin (inject_Z t))) (Fin (inject_Z 100))
  = Fin (percentQ t a).
Proof.
  intros Ht Ha.
  destruct (tq_bounds t Ht), (aq_bounds t a Ha), (ratio_bounds t a Ht Ha),
    (Rratio_bounds t a Ht Ha).
  assert (P60 := pow2_60).
  rewrite (div_Fin (inject_Z a) (inject_Z t)) by lra.
  rewrite (mul_Fin (R (inject_Z a / inject_Z t)) (inject_Z 100)) by (qlit; lra).
  reflexivity.
Qed.

(** A scenario of [delta] classes on valid integer data: the percentage is
    the rounded (attended + max(0, delta)) / (total + |delta|) * 100. *)
Lemma project_on_integers (t a T delta : Z) (l : string) :
  (0 < t)%Z -> (0 <= a <= t)%Z -> (t + Z.abs delta <= MAX_SAFE_INTEGER)%Z ->
  safe_integer T ->
  let p := AttendanceChart.project (mkData t a T)
             {| AttendanceChart.label := l; AttendanceChart.classes := of_Z delta |} in
  let cp := percentQ (t + Z.abs delta) (a + Z.max 0 delta) in
  let exact := inject_Z (a + Z.max 0 delta) / inject_Z (t + Z.abs delta) * 100 in
  AttendanceChart.percentage p = Fin cp /\
  0 <= cp /\ cp <= 100 /\
  exact * ((1 - unit_roundoff) * (1 - unit_roundoff)) <= cp /\
  cp <= exact * ((1 + unit_roundoff) * (1 + unit_roundoff)) /\
  (AttendanceChart.status p = safe <-> inject_Z T <= cp).
Proof.
  intros Ht Ha Hd HT p cp exact.
  assert (Ht' : (0 < t + Z.abs delta <= MAX_SAFE_INTEGER)%Z) by lia.
  assert (Ha' : (0 <= a + Z.max 0 delta <= t + Z.abs delta)%Z) by lia.
  assert (E : AttendanceChart.percentage p = Fin cp).
  { unfold p, cp, AttendanceChart.project, mkData.
    cbn [AttendanceChart.percentage AttendanceChart.classes
         totalClasses attendedClasses targetPercentage].
    unfold MAX_SAFE_INTEGER in *.
    rewrite (of_Z_safe t), (of_Z_safe a), (of_Z_safe delta), (of_Z_safe 0), (of_Z_safe 100)
      by (unfold safe_integer, MAX_SAFE_INTEGER; lia).
    rewrite max_Z, abs_Z, !add_Z by lia.
    apply percentage_valid; unfold MAX_SAFE_INTEGER; lia. }
  split; [exact E|].
  destruct (percentQ_bounds _ _ Ht' Ha') as [B1 B2]. fold cp in B1, B2.
  split; [exact B1|]. split; [exact B2|].
  destruct (percentQ_error _ _ Ht' Ha') as [T1 T2]. fold cp exact in T1, T2.
  split; [exact T1|]. split; [exact T2|].
  unfold p, AttendanceChart.project in *.
  cbn [AttendanceChart.percentage AttendanceChart.status] in *.
  rewrite E. unfold mkData. cbn [targetPercentage]. rewrite (of_Z_safe T HT).
  unfold ge. cbn [le value].
  destruct (Qle_bool (inject_Z T) cp) eqn:Q.
  - apply Qle_bool_iff in Q. split; intros; [exact Q | reflexivity].
  - split; intros C; [discriminate C|].
    apply Qle_bool_iff in C. congruence.
Qed.

(** C6: every scenario is projected with
    percentage = (attended + max(0, delta)) / (total + |delta|) * 100 and is
    marked safe exactly when that percentage >= target; the projections come
    back in the order of the scenarios, one for each.  On valid integer data
    and an integer delta the percentage is that quotient and product, each
    rounded once: it lies in [0, 100], within two unit roundoffs of the
    exact value. *)
Theorem C6_scenario_projection
  (d : AttendanceData) (l : list AttendanceChart.Scenario) :
  List.length (AttendanceChart.projectScenarios d l) = List.length l /\
  (forall i, nth_error (AttendanceChart.projectScenarios d l) i
             = option_map (AttendanceChart.project d) (nth_error l i)) /\
  (forall s,
     AttendanceChart.scenario (AttendanceChart.project d s) = s /\
     AttendanceChart.percentage (AttendanceChart.project d s)
     = mul (div (add (attendedClasses d)
                     (max (of_Z 0) (AttendanceChart.classes s)))
                (add (totalClasses d) (abs (AttendanceChart.classes s))))
           (of_Z 100) /\
     (AttendanceChart.status (AttendanceChart.project d s) = safe
      <-> ge (AttendanceChart.percentage (AttendanceChart.project d s))
             (targetPercentage d) = true)) /\
  AttendanceChart.futureAttendanceScenarios d
  = AttendanceChart.projectScenarios d AttendanceChart.scenarios /\
  map AttendanceChart.classes AttendanceChart.scenarios
  = [of_Z 5; of_Z 10; of_Z (-3); of_Z (-5)] /\
  (forall (t a T delta : Z) (lbl : string),
     (0 < t)%Z -> (0 <= a <= t)%Z -> (t + Z.abs delta <= MAX_SAFE_INTEGER)%Z ->
     safe_integer T ->
     let p := AttendanceChart.project (mkData t a T)
                {| AttendanceChart.label := lbl;
                   AttendanceChart.classes := of_Z delta |} in
     let cp := percentQ (t + Z.abs delta) (a + Z.max 0 delta) in
     let exact := inject_Z (a + Z.max 0 delta) / inject_Z (t + Z.abs delta) * 100 in
     AttendanceChart.percentage p = Fin cp /\
     0 <= cp /\ cp <= 100 /\
     exact * ((1 - unit_roundoff) * (1 - unit_roundoff)) <= cp /\
     cp <= exact * ((1 + unit_roundoff) * (1 + unit_roundoff)) /\
     (AttendanceChart.status p = safe <-> inject_Z T <= cp)).
Proof.
  split; [apply length_map|].
  split; [intros i; apply nth_error_map|].
  split.
  - intros s. split; [reflexivity|]. split; [reflexivity|].
    cbn [AttendanceChart.project AttendanceChart.status AttendanceChart.percentage].
    destruct (ge _ _); split; intros; (reflexivity || discriminate).
  - split; [reflexivity|]. split; [reflexivity|].
    intros t a T delta lbl. apply project_on_integers.
Qed.

Lemma C6_scenario_projection_witness :
  (0 < 50)%Z /\ (0 <= 40 <= 50)%Z /\ (50 + Z.abs (-3) <= MAX_SAFE_INTEGER)%Z /\
  safe_integer 75 /\
  AttendanceChart.status
    (AttendanceChart.project (mkData 50 40 75)
       {| AttendanceChart.label := "If you miss next 3 classes";
          AttendanceChart.classes := of_Z (-3) |}) = safe.
Proof.
  assert (H1 : (0 < 50)%Z) by lia.
  assert (H2 : (0 <= 40 <= 50)%Z) by lia.
  assert (H3 : (50 + Z.abs (-3) <= MAX_SAFE_INTEGER)%Z)
    by (unfold MAX_SAFE_INTEGER; simpl; lia).
  assert (H4 : safe_integer 75) by (unfold safe_integer, MAX_SAFE_INTEGER; lia).
  repeat (split; [assumption|]).
  destruct (C6_scenario_projection (mkData 50 40 75) []) as (_ & _ & _ & _ & _ & K).
  destruct (K 50%Z 40%Z 75%Z (-3)%Z "If you miss next 3 classes"%string H1 H2 H3 H4)
    as (_ & _ & _ & _ & _ & S).
  apply S. vm_compute. intros C. discriminate C.
Defined.

Lemma Computed_inj (r r' : AttendanceResult) : Computed r = Computed r' -> r = r'.
Proof.
  intros E.
  exact (f_equal (fun o => match o with Computed x => x | Failed _ => r end) E).
Qed.

(** The fields of a computed result, for any data. *)
Lemma compute_fields (d : AttendanceData) (r : AttendanceResult) :
  compute d = Computed r ->
  currentPercentage r = mul (div (attendedClasses d) (totalClasses d)) (of_Z 100) /\
  classesToAttend r = classesNeededFor d (targetPercentage d).
Proof.
  unfold compute, classesNeededFor. cbv zeta.
  destruct (le (totalClasses d) (of_Z 0)); [intros E; discriminate E|].
  destruct (gt (attendedClasses d) (totalClasses d)); [intros E; discriminate E|].
  destruct (ge _ (targetPercentage d)); [|destruct (ge _ _)];
    intros E; apply Computed_inj in E; rewrite <- E; split; reflexivity.
Qed.

(** The classes needed depend on the two counts only. *)
Lemma classesNeededFor_totals (d d' : AttendanceData) (T : number) :
  totalClasses d = totalClasses d' /\ attendedClasses d = attendedClasses d' ->
  classesNeededFor d T = classesNeededFor d' T.
Proof. intros [E1 E2]. unfold classesNeededFor. rewrite E1, E2. reflexivity. Qed.

(** On integers with exact products the classes needed for a target are the
    closed form of the specification, computed exactly. *)
Lemma classesNeededFor_exact (t a T Tc : Z) :
  (0 < t <= MAX_EXACT_TOTAL)%Z -> (0 <= a <= t)%Z -> (0 < Tc < 100)%Z ->
  classesNeededFor (mkData t a T) (of_Z Tc)
  = Fin (inject_Z (Z.max 0 (Qceiling (inject_Z (Tc * t - 100 * a)
                                       / inject_Z (100 - Tc))))).
Proof.
  intros Ht Ha HT.
  assert (E := compute_valid t a Tc (exact_total_safe t Ht) Ha HT).
  destruct (compute_fields _ _ E) as [_ F]. cbn [mkData targetPercentage] in F.
  rewrite (classesNeededFor_totals (mkData t a T) (mkData t a Tc))
    by (unfold mkData; split; reflexivity).
  rewrite <- F. cbn [resultQ classesToAttend].
  rewrite (attendZ_exact t a Tc Ht Ha HT). reflexivity.
Qed.

Lemma customTargets_Z (t a T : Z) :
  safe_integer T ->
  firstn 2 (customTargets (mkData t a T)) = map of_Z (candidates T).
Proof.
  intros HT. unfold customTargets, mkData, candidates. cbn [targetPercentage filter].
  unfold gt.
  rewrite (of_Z_safe T HT), (of_Z_safe 80), (of_Z_safe 85), (of_Z_safe 90), (of_Z_safe 95)
    by (apply safe_small; lia).
  rewrite !lt_Z.
  destruct (Z.ltb_spec T 80), (Z.ltb_spec T 85), (Z.ltb_spec T 90), (Z.ltb_spec T 95);
    try lia; reflexivity.
Qed.

(** C7: on valid inputs with a total up to 2^46 the classes needed to reach
    a candidate target Tc, target < Tc < 100, are max(0, ceil((Tc * total -
    100 * attended) / (100 - Tc))) computed exactly: the classesToAttend
    that [compute] returns for the same counts and the target Tc.  The
    custom target insights are one for each candidate offered, in order,
    each with this number. *)
Theorem C7_classes_needed (t a T Tc : Z) :
  (0 < t <= MAX_EXACT_TOTAL)%Z -> (0 <= a <= t)%Z -> (0 < T < 100)%Z ->
  (T < Tc < 100)%Z ->
  classesNeededFor (mkData t a T) (of_Z Tc)
  = Fin (inject_Z (classesNeededClosedForm t a Tc)) /\
  (exists r, compute (mkData t a Tc) = Computed r /\
             classesToAttend r = classesNeededFor (mkData t a T) (of_Z Tc)) /\
  map (fun ins => (target ins, classesNeeded ins)) (targetInsights (mkData t a T))
  = map (fun c => (of_Z c, Fin (inject_Z (classesNeededClosedForm t a c))))
        (candidates T).
Proof.
  intros Ht Ha HT HTc.
  assert (Rc : (0 < Tc < 100)%Z) by lia.
  assert (X : forall c, (0 < c < 100)%Z ->
                classesNeededFor (mkData t a T) (of_Z c)
                = Fin (inject_Z (classesNeededClosedForm t a c))).
  { intros c Hc. apply classesNeededFor_exact; assumption. }
  split; [apply X, Rc|]. split.
  - exists (resultQ t a Tc). split.
    + apply compute_valid; [apply exact_total_safe| |]; assumption.
    + rewrite (X Tc Rc). unfold resultQ. cbn [classesToAttend].
      rewrite (attendZ_exact t a Tc Ht Ha Rc). reflexivity.
  - unfold targetInsights.
    rewrite (customTargets_Z t a T) by (apply safe_small; lia).
    rewrite !map_map. cbn [target classesNeeded]. apply map_ext_in.
    intros c Hc. rewrite X; [reflexivity|].
    revert Hc. unfold candidates.
    destruct (T <? 80)%Z; [|destruct (T <? 85)%Z; [|destruct (T <? 90)%Z;
      [|destruct (T <? 95)%Z]]]; cbn [In]; lia.
Qed.

Lemma C7_classes_needed_witness :
  classesNeededFor (mkData 50 40 75) (of_Z 85)
  = Fin (inject_Z (classesNeededClosedForm 50 40 85)) /\
  (exists r, compute (mkData 50 40 85) = Computed r /\
             classesToAttend r = classesNeededFor (mkData 50 40 75) (of_Z 85)) /\
  map (fun ins => (target ins, classesNeeded ins)) (targetInsights (mkData 50 40 75))
  = map (fun c => (of_Z c, Fin (inject_Z (classesNeededClosedForm 50 40 c))))
        (candidates 75).
Proof.
  apply (C7_classes_needed 50 40 75 85); unfold MAX_EXACT_TOTAL; lia.
Defined.

(** C7 fails beyond 2^46: with 100000000000001 classes held, 95000000000000
    attended and the target 94, the product 95 * total rounds up by one, and
    the insight for 95 asks for 20 classes where the closed form, 19, already
    reaches 95 percent. *)
Lemma C7_counterexample :
  (0 < 100000000000001 <= MAX_SAFE_INTEGER)%Z /\
  (0 <= 95000000000000 <= 100000000000001)%Z /\
  map (fun ins => (target ins, classesNeeded ins))
      (targetInsights (mkData 100000000000001 95000000000000 94))
  = [(of_Z 95, of_Z 20)] /\
  classesNeededFor (mkData 100000000000001 95000000000000 94) (of_Z 95) = of_Z 20 /\
  classesNeededClosedForm 100000000000001 95000000000000 95 = 19%Z /\
  reachesTarget 100000000000001 95000000000000 95 19.
Proof.
  split; [unfold MAX_SAFE_INTEGER; lia|]. split; [lia|].
  split; [vm_compute; reflexivity|]. split; [vm_compute; reflexivity|].
  split; [vm_compute; reflexivity|].
  apply reachesTarget_iff; lia.
Qed.

(** C8: on valid inputs currentPercentage is attended / total * 100 as the
    two operators round it, within two unit roundoffs of the exact ratio,
    and lies in [0, 100]. *)
Theorem C8_current_percentage (t a T : Z) :
  (0 < t <= MAX_SAFE_INTEGER)%Z -> (0 <= a <= t)%Z -> (0 < T < 100)%Z ->
  exists r cp,
    compute (mkData t a T) = Computed r /\
    currentPercentage r = mul (div (of_Z a) (of_Z t)) (of_Z 100) /\
    currentPercentage r = Fin cp /\
    0 <= cp /\ cp <= 100 /\
    inject_Z a / inject_Z t * 100 * ((1 - unit_roundoff) * (1 - unit_roundoff)) <= cp /\
    cp <= inject_Z a / inject_Z t * 100 * ((1 + unit_roundoff) * (1 + unit_roundoff)).
Proof.
  intros Ht Ha HT. exists (resultQ t a T), (percentQ t a).
  assert (E := compute_valid t a T Ht Ha HT).
  split; [exact E|]. split.
  - exact (proj1 (compute_fields _ _ E)).
  - split; [reflexivity|].
    destruct (percentQ_bounds t a Ht Ha) as [B1 B2].
    destruct (percentQ_error t a Ht Ha) as [E1 E2].
    unfold unit_roundoff. repeat split; assumption.
Qed.

Lemma C8_current_percentage_witness :
  (0 < 3 <= MAX_SAFE_INTEGER)%Z /\ (0 <= 1 <= 3)%Z /\ (0 < 75 < 100)%Z /\
  exists r cp,
    compute (mkData 3 1 75) = Computed r /\
    currentPercentage r = mul (div (of_Z 1) (of_Z 3)) (of_Z 100) /\
    currentPercentage r = Fin cp /\
    0 <= cp /\ cp <= 100 /\
    inject_Z 1 / inject_Z 3 * 100 * ((1 - unit_roundoff) * (1 - unit_roundoff)) <= cp /\
    cp <= inject_Z 1 / inject_Z 3 * 100 * ((1 + unit_roundoff) * (1 + unit_roundoff)).
Proof.
  assert (H1 : (0 < 3 <= MAX_SAFE_INTEGER)%Z) by (unfold MAX_SAFE_INTEGER; lia).
  assert (H2 : (0 <= 1 <= 3)%Z) by lia.
  assert (H3 : (0 < 75 < 100)%Z) by lia.
  repeat (split; [assumption|]).
  exact (C8_current_percentage 3 1 75 H1 H2 H3).
Defined.

(** Each band statement follows from the two comparisons once they are
    decided. *)
Ltac bands :=
  repeat split; intros;
  repeat match goal with H : _ /\ _ |- _ => destruct H end;
  try reflexivity; try assumption; try congruence; try lra; try (exfalso; lra).

(** C4: on valid inputs currentPercentage is attended / total * 100 as the
    two operators round it, and the status is "safe" iff currentPercentage >=
    target, "warning" iff target - 5 <= currentPercentage < target, and
    "danger" iff currentPercentage < target - 5, the lower boundary of each
    band included; the bands are given on the value of the percentage and
    with the comparisons of the code on the returned fields. *)
Theorem C4_status_bands (t a T : Z) :
  (0 < t <= MAX_SAFE_INTEGER)%Z -> (0 <= a <= t)%Z -> (0 < T < 100)%Z ->
  exists r,
    compute (mkData t a T) = Computed r /\
    currentPercentage r = mul (div (of_Z a) (of_Z t)) (of_Z 100) /\
    currentPercentage r = Fin (percentQ t a) /\
    inject_Z a / inject_Z t * 100 * ((1 - unit_roundoff) * (1 - unit_roundoff))
    <= percentQ t a /\
    percentQ t a
    <= inject_Z a / inject_Z t * 100 * ((1 + unit_roundoff) * (1 + unit_roundoff)) /\
    (status r = safe <-> inject_Z T <= percentQ t a) /\
    (status r = warning <->
     inject_Z T - 5 <= percentQ t a /\ percentQ t a < inject_Z T) /\
    (status r = danger <-> percentQ t a < inject_Z T - 5) /\
    (status r = safe <-> ge (currentPercentage r) (of_Z T) = true) /\
    (status r = warning <->
     ge (currentPercentage r) (sub (of_Z T) (of_Z 5)) = true /\
     lt (currentPercentage r) (of_Z T) = true) /\
    (status r = danger <->
     lt (currentPercentage r) (sub (of_Z T) (of_Z 5)) = true).
Proof.
  intros Ht Ha HT. exists (resultQ t a T).
  assert (C := compute_valid t a T Ht Ha HT).
  split; [exact C|]. split; [exact (proj1 (compute_fields _ _ C))|].
  split; [reflexivity|].
  destruct (percentQ_error t a Ht Ha) as [T1 T2]. unfold unit_roundoff.
  split; [exact T1|]. split; [exact T2|].
  rewrite (of_Z_safe T), (of_Z_safe 5), (sub_Z T 5)
    by (try apply safe_small; unfold safe_integer, MAX_SAFE_INTEGER; lia).
  cbn [resultQ status currentPercentage]. unfold statusQ, ge, lt. cbn [le value].
  assert (E : inject_Z (T - 5) == inject_Z T - 5).
  { unfold Z.sub. rewrite inject_Z_plus. reflexivity. }
  destruct (Qle_bool (inject_Z T) (percentQ t a)) eqn:E1.
  - apply Qle_bool_iff in E1.
    assert (E2 : Qle_bool (inject_Z (T - 5)) (percentQ t a) = true)
      by (apply Qle_bool_iff; rewrite E; lra).
    rewrite E2. cbn [negb]. bands.
  - assert (N1 : percentQ t a < inject_Z T).
    { apply Qnot_le_lt. intros K. apply Qle_bool_iff in K. congruence. }
    cbn [negb].
    destruct (Qle_bool (inject_Z (T - 5)) (percentQ t a)) eqn:E2.
    + apply Qle_bool_iff in E2. rewrite E in E2. cbn [negb]. bands.
    + assert (N2 : percentQ t a < inject_Z T - 5).
      { rewrite <- E. apply Qnot_le_lt. intros K. apply Qle_bool_iff in K. congruence. }
      cbn [negb]. bands.
Qed.

Lemma C4_status_bands_witness :
  exists r,
    compute (mkData 20 14 75) = Computed r /\
    currentPercentage r = mul (div (of_Z 14) (of_Z 20)) (of_Z 100) /\
    currentPercentage r = Fin (percentQ 20 14) /\
    inject_Z 14 / inject_Z 20 * 100 * ((1 - unit_roundoff) * (1 - unit_roundoff))
    <= percentQ 20 14 /\
    percentQ 20 14
    <= inject_Z 14 / inject_Z 20 * 100 * ((1 + unit_roundoff) * (1 + unit_roundoff)) /\
    (status r = safe <-> inject_Z 75 <= percentQ 20 14) /\
    (status r = warning <->
     inject_Z 75 - 5 <= percentQ 20 14 /\ percentQ 20 14 < inject_Z 75) /\
    (status r = danger <-> percentQ 20 14 < inject_Z 75 - 5) /\
    (status r = safe <-> ge (currentPercentage r) (of_Z 75) = true) /\
    (status r = warning <->
     ge (currentPercentage r) (sub (of_Z 75) (of_Z 5)) = true /\
     lt (currentPercentage r) (of_Z 75) = true) /\
    (status r = danger <->
     lt (currentPercentage r) (sub (of_Z 75) (of_Z 5)) = true).
Proof.
  apply (C4_status_bands 20 14 75); unfold MAX_SAFE_INTEGER; lia.
Defined.

(** C9: a call of [calculateAttendance] whose input fails a guard stores no
    result: the result held before, if any, and the data are unchanged. *)
Theorem C9_failed_call_keeps_result (st : State) (e : InvalidInput) :
  compute (data st) = Failed e ->
  result (calculateAttendance st) = result st /\
  data (calculateAttendance st) = data st /\
  isExportDialogOpen (calculateAttendance st) = isExportDialogOpen st /\
  toasts (calculateAttendance st) = toasts st ++ [InvalidInputToast e].
Proof.
  intros H. unfold calculateAttendance. rewrite H. repeat split.
Qed.

Lemma C9_failed_call_keeps_result_witness :
  compute (data (updateData FAttendedClasses (Some 10%Z)
                   (updateData FTotalClasses (Some 5%Z)
                      (calculateAttendance
                         (updateData FAttendedClasses (Some 40%Z)
                            (updateData FTotalClasses (Some 50%Z) initialState))))))
  = Failed AttendedExceedsTotal /\
  exists r,
    result (calculateAttendance
              (updateData FAttendedClasses (Some 10%Z)
                 (updateData FTotalClasses (Some 5%Z)
                    (calculateAttendance
                       (updateData FAttendedClasses (Some 40%Z)
                          (updateData FTotalClasses (Some 50%Z) initialState))))))
    = Some r /\ status r = safe.
Proof.
  assert (H : compute (data (updateData FAttendedClasses (Some 10%Z)
                   (updateData FTotalClasses (Some 5%Z)
                      (calculateAttendance
                         (updateData FAttendedClasses (Some 40%Z)
                            (updateData FTotalClasses (Some 50%Z) initialState))))))
              = Failed AttendedExceedsTotal) by (vm_compute; reflexivity).
  split; [exact H|].
  rewrite (proj1 (C9_failed_call_keeps_result _ _ H)).
  eexists. split; [vm_compute; reflexivity | reflexivity].
Defined.




(** ** Cross-checks against the reference semantics *)

Import Reference.

(** The operators agree with the reference on the samples. *)
Example reference_agrees_on_samples : forallb agree samples = true.
Proof. vm_compute; reflexivity. Qed.

(** The quotient behind C3, in the Standard Library's IEEE 754 semantics. *)
Example reference_bunk_9_8_80 :
  to_number (fdiv (fsub (of_int 8) (fmul (fdiv (of_int 80) (of_int 100)) (of_int 9)))
                  (fdiv (of_int 80) (of_int 100)))
  = div (sub (of_Z 8) (mul (div (of_Z 80) (of_Z 100)) (of_Z 9)))
        (div (of_Z 80) (of_Z 100)) /\
  floor (div (sub (of_Z 8) (mul (div (of_Z 80) (of_Z 100)) (of_Z 9)))
             (div (of_Z 80) (of_Z 100))) = of_Z 0.
Proof. split; vm_compute; reflexivity. Qed.

Example reference_bunk_1_1_5 :
  to_number (fdiv (fsub (of_int 1) (fmul (fdiv (of_int 5) (of_int 100)) (of_int 1)))
                  (fdiv (of_int 5) (of_int 100)))
  = div (sub (of_Z 1) (mul (div (of_Z 5) (of_Z 100)) (of_Z 1)))
        (div (of_Z 5) (of_Z 100)).
Proof. vm_compute; reflexivity. Qed.

(** The product behind the counterexample of C2. *)
Example reference_product_rounds :
  to_number (fmul (of_int 99) (of_int 100000000000001))
  = mul (of_Z 99) (of_Z 100000000000001) /\
  mul (of_Z 99) (of_Z 100000000000001) = of_Z 9900000000000100.
Proof. split; vm_compute; reflexivity. Qed.

(** The percentage behind the counterexample of C10. *)
Example reference_percentage_rounds :
  to_number (fmul (fdiv (of_int 7199999999999999) (of_int 9000000000000000))
                  (of_int 100))
  = mul (div (of_Z 7199999999999999) (of_Z 9000000000000000)) (of_Z 100) /\
  mul (div (of_Z 7199999999999999) (of_Z 9000000000000000)) (of_Z 100) = of_Z 80.
Proof. split; vm_compute; reflexivity. Qed.

(** A percentage that is not exact: 57 / 100 * 100 is below 57. *)
Example reference_57_percent :
  to_number (fmul (fdiv (of_int 57) (of_int 100)) (of_int 100))
  = mul (div (of_Z 57) (of_Z 100)) (of_Z 100) /\
  lt (mul (div (of_Z 57) (of_Z 100)) (of_Z 100)) (of_Z 57) = true.
Proof. split; vm_compute; reflexivity. Qed.

(** The three worked examples of the specification. *)
Example example_50_40_75 :
  compute (mkData 50 40 75)
  = Computed {| currentPercentage := of_Z 80; status := safe;
                classesToAttend := of_Z 0; classesToBunk := of_Z 3;
                message := MsgSafe (of_Z 5) (of_Z 3) |}.
Proof. vm_compute; reflexivity. Qed.

Example example_50_30_75 :
  compute (mkData 50 30 75)
  = Computed {| currentPercentage := of_Z 60; status := danger;
                classesToAttend := of_Z 30; classesToBunk := of_Z 0;
                message := MsgDanger (of_Z 30) |}.
Proof. vm_compute; reflexivity. Qed.

Example example_20_14_75 :
  compute (mkData 20 14 75)
  = Computed {| currentPercentage := of_Z 70; status := warning;
                classesToAttend := of_Z 4; classesToBunk := of_Z 0;
                message := MsgWarning (of_Z 4) (of_Z 75) |}.
Proof. vm_compute; reflexivity. Qed.

(** * Further properties of the components *)

(** ** The form: fields, buttons and reset *)

Lemma RN_one : RN 1 == 1.
Proof. apply (RN_Z 1). cbn. lia. Qed.

Lemma RN_integer_nonzero z : z <> 0%Z -> ~ RN (inject_Z z) == 0.
Proof.
  intros NZ E. destruct (Z_lt_ge_dec z 0) as [N | P].
  - assert (L : inject_Z z <= inject_Z (-1)) by (rewrite <- Zle_Qle; lia).
    assert (M := RN_mono _ _ L). rewrite (RN_Z (-1)) in M by (cbn; lia).
    change (inject_Z (-1)) with (-1) in M. lra.
  - assert (L : inject_Z 1 <= inject_Z z) by (rewrite <- Zle_Qle; lia).
    assert (M := RN_mono _ _ L). rewrite (RN_Z 1) in M by (cbn; lia).
    change (inject_Z 1) with 1 in M. lra.
Qed.

(** The only falsy integer is 0. *)
Lemma truthy_of_Z z : truthy (of_Z z) = negb (z =? 0)%Z.
Proof.
  destruct (Z.eqb_spec z 0) as [-> | NZ]; [reflexivity|].
  assert (N := RN_integer_nonzero z NZ). assert (NN := of_Z_not_NZero z).
  unfold of_Z, rnd in *.
  destruct (Qle_bool (pow2 1024) (Qabs (Qred (RN (inject_Z z))))); [reflexivity|].
  destruct (Qeq_bool (Qred (RN (inject_Z z))) 0 && Qneg (inject_Z z));
    [contradiction NN; reflexivity|].
  cbn [truthy negb]. destruct (Qeq_bool (Qred (RN (inject_Z z))) 0) eqn:E; [|reflexivity].
  apply Qeq_bool_iff in E. rewrite Qred_correct in E. contradiction.
Qed.

(** X1: [updateData] writes the parsed integer (0 when the text does not
    parse) into the named field and nothing else: the other two fields, the
    stored result, the dialog flag and the toasts are kept, so a result on
    screen is not recomputed when a field is edited. *)
Theorem X1_updateData_writes_one_field
  (field : Field) (parsed : option Z) (st : State) :
  let st' := updateData field parsed st in
  readField field (data st') = stored parsed /\
  (forall other, other <> field ->
     readField other (data st') = readField other (data st)) /\
  result st' = result st /\
  isExportDialogOpen st' = isExportDialogOpen st /\
  toasts st' = toasts st.
Proof.
  assert (S : (match parsed with
               | Some z => if truthy (of_Z z) then of_Z z else of_Z 0
               | None => of_Z 0
               end) = stored parsed).
  { destruct parsed as [z|]; [apply or_zero_of_Z | reflexivity]. }
  unfold updateData. cbv zeta. rewrite S.
  repeat split.
  - destruct field; reflexivity.
  - intros other NE. destruct field, other; try reflexivity; contradiction NE; reflexivity.
Qed.

(** X2: writes to two different fields commute, and of two writes to the
    same field the later one wins. *)
Theorem X2_updateData_compose
  (f g : Field) (p q : option Z) (st : State) :
  (f <> g ->
   updateData f p (updateData g q st) = updateData g q (updateData f p st)) /\
  updateData f p (updateData f q st) = updateData f p st.
Proof.
  split.
  - intros NE. destruct f, g; try (contradiction NE; reflexivity); reflexivity.
  - destruct f; reflexivity.
Qed.

Lemma X2_updateData_compose_witness :
  updateData FTotalClasses (Some 50%Z)
    (updateData FAttendedClasses (Some 40%Z) initialState)
  = updateData FAttendedClasses (Some 40%Z)
      (updateData FTotalClasses (Some 50%Z) initialState).
Proof.
  apply (proj1 (X2_updateData_compose FTotalClasses FAttendedClasses
                  (Some 50%Z) (Some 40%Z) initialState)).
  intros C. discriminate C.
Defined.

(** X3: Reset, from any state, restores the initial data and clears the
    result; the Calculate button is then disabled, and a call of
    [calculateAttendance] fails on the first guard and stores nothing. *)
Theorem X3_reset_clears (st : State) :
  let st' := resetCalculator st in
  data st' = initialData /\ result st' = None /\
  isExportDialogOpen st' = isExportDialogOpen st /\
  calculateDisabled (data st') = true /\
  clickCalculate st' = st' /\
  result (calculateAttendance st') = None /\
  toasts (calculateAttendance st')
  = toasts st ++ [CalculatorReset; InvalidInputToast TotalNotPositive].
Proof.
  assert (C : compute initialData = Failed TotalNotPositive) by (vm_compute; reflexivity).
  assert (D : calculateDisabled initialData = true) by (vm_compute; reflexivity).
  cbv zeta. unfold clickCalculate, calculateAttendance, resetCalculator.
  cbn [data result isExportDialogOpen toasts]. rewrite C, D.
  cbn [data result isExportDialogOpen toasts]. rewrite <- app_assoc.
  repeat split.
Qed.

Lemma calculateDisabled_mkData (t a T : Z) :
  calculateDisabled (mkData t a T) = true <-> t = 0%Z \/ a = 0%Z.
Proof.
  unfold calculateDisabled, mkData. cbn [totalClasses attendedClasses].
  rewrite !truthy_of_Z, !negb_involutive, orb_true_iff, !Z.eqb_eq. tauto.
Qed.

(** X4: the Calculate button is disabled exactly when one of the two counts
    is 0: a click then changes nothing, and otherwise it runs
    [calculateAttendance].  With no class attended the button stays disabled
    although [compute] accepts the data and returns 0 percent. *)
Theorem X4_calculate_button (t a T : Z) :
  (calculateDisabled (mkData t a T) = true <-> t = 0%Z \/ a = 0%Z) /\
  (forall st, data st = mkData t a T ->
     clickCalculate st
     = if ((t =? 0) || (a =? 0))%Z then st else calculateAttendance st) /\
  ((0 < t <= MAX_SAFE_INTEGER)%Z -> (0 < T < 100)%Z ->
   exists r, compute (mkData t 0 T) = Computed r /\
             currentPercentage r = Fin 0 /\ status r <> safe).
Proof.
  split; [apply calculateDisabled_mkData|]. split.
  - intros st D. unfold clickCalculate. rewrite D.
    unfold calculateDisabled, mkData. cbn [totalClasses attendedClasses].
    rewrite !truthy_of_Z, !negb_involutive. reflexivity.
  - intros Ht HT. exists (resultQ t 0 T). split; [apply compute_valid; lia|].
    assert (Z0 : percentQ t 0 = 0).
    { unfold percentQ.
      assert (E : inject_Z 0 / inject_Z t == 0) by (unfold Qdiv; apply Qmult_0_l).
      rewrite (R_proper _ _ E). reflexivity. }
    unfold resultQ. cbn [currentPercentage status]. rewrite Z0. split; [reflexivity|].
    unfold statusQ. destruct (Qle_bool (inject_Z T) 0) eqn:E.
    + apply Qle_bool_iff in E. change 0 with (inject_Z 0) in E.
      rewrite <- Zle_Qle in E. lia.
    + destruct (Qle_bool (inject_Z (T - 5)) 0); intros C; discriminate C.
Qed.

Lemma X4_calculate_button_witness :
  exists r, compute (mkData 40 0 75) = Computed r /\
            currentPercentage r = Fin 0 /\ status r <> safe.
Proof.
  apply (proj2 (proj2 (X4_calculate_button 40 0 75))); unfold MAX_SAFE_INTEGER; lia.
Defined.
(** ** The chart *)

Import AttendanceChartView.

(** The status of a computed result is safe exactly when its percentage is
    at or above the target of the data. *)
Lemma compute_status (d : AttendanceData) (r : AttendanceResult) :
  compute d = Computed r ->
  (ge (currentPercentage r) (targetPercentage d) = true <-> status r = safe).
Proof.
  unfold compute. cbv zeta.
  destruct (le (totalClasses d) (of_Z 0)); [intros E; discriminate E|].
  destruct (gt (attendedClasses d) (totalClasses d)); [intros E; discriminate E|].
  destruct (ge _ (targetPercentage d)) eqn:G; [|destruct (ge _ (sub _ _))];
    intros E; apply Computed_inj in E; rewrite <- E;
    cbn [currentPercentage status]; rewrite G;
    split; intros C; (reflexivity || discriminate C).
Qed.

(** The fields of the result on valid integer inputs. *)
Lemma status_iff (t a T : Z) (r : AttendanceResult) :
  (0 < t <= MAX_SAFE_INTEGER)%Z -> (0 <= a <= t)%Z -> (0 < T < 100)%Z ->
  compute (mkData t a T) = Computed r ->
  currentPercentage r = Fin (percentQ t a) /\
  classesToAttend r = Fin (inject_Z (attendZ t a T)) /\
  classesToBunk r = Fin (inject_Z (bunkZ t a T)) /\
  (status r = safe <-> inject_Z T <= percentQ t a).
Proof.
  intros Ht Ha HT E. rewrite (compute_valid t a T Ht Ha HT) in E.
  apply Computed_inj in E. subst r. unfold resultQ, statusQ.
  cbn [currentPercentage status classesToAttend classesToBunk].
  repeat (split; [reflexivity|]).
  destruct (Qle_bool (inject_Z T) (percentQ t a)) eqn:Q.
  - apply Qle_bool_iff in Q. tauto.
  - split; [|intros C; apply Qle_bool_iff in C; congruence].
    destruct (Qle_bool (inject_Z (T - 5)) (percentQ t a)); intros C; discriminate C.
Qed.

(** X5: drawn beside a result computed from the same data, the chart agrees
    with it: its attended percentage is the result's currentPercentage, and
    it prints 'Above target' exactly when the status is safe. *)
Theorem X5_chart_agrees_with_result (d : AttendanceData) (r : AttendanceResult) :
  compute d = Computed r ->
  attendedPercent d = currentPercentage r /\
  (aboveTarget d r = true <-> status r = safe).
Proof.
  intros E. split.
  - symmetry. exact (proj1 (compute_fields d r E)).
  - exact (compute_status d r E).
Qed.

Lemma X5_chart_agrees_with_result_witness :
  attendedPercent (mkData 50 40 75) = currentPercentage (resultQ 50 40 75) /\
  (aboveTarget (mkData 50 40 75) (resultQ 50 40 75) = true
   <-> status (resultQ 50 40 75) = safe).
Proof.
  apply (X5_chart_agrees_with_result (mkData 50 40 75) (resultQ 50 40 75)).
  vm_compute. reflexivity.
Defined.

Lemma mkData_percent (t a T : Z) :
  (0 < t <= MAX_SAFE_INTEGER)%Z -> (0 <= a <= t)%Z ->
  mul (div (of_Z a) (of_Z t)) (of_Z 100) = Fin (percentQ t a).
Proof.
  intros Ht Ha.
  rewrite (of_Z_safe t), (of_Z_safe a), (of_Z_safe 100)
    by (unfold safe_integer, MAX_SAFE_INTEGER in *; lia).
  apply percentage_valid; assumption.
Qed.

(** X6: on valid counts the missed classes are total - attended exactly, and
    the two percentages of the breakdown are each in [0, 100] and add up to
    100 within two roundings. *)
Theorem X6_breakdown_percentages (t a T : Z) :
  (0 < t <= MAX_SAFE_INTEGER)%Z -> (0 <= a <= t)%Z ->
  let d := mkData t a T in
  missedClasses d = Fin (inject_Z (t - a)) /\
  exists p m,
    attendedPercent d = Fin p /\ missedPercent d = Fin m /\
    0 <= p <= 100 /\ 0 <= m <= 100 /\
    100 * ((1 - unit_roundoff) * (1 - unit_roundoff)) <= p + m /\
    p + m <= 100 * ((1 + unit_roundoff) * (1 + unit_roundoff)).
Proof.
  intros Ht Ha d.
  assert (Hm : (0 <= t - a <= t)%Z) by lia.
  assert (M : missedClasses d = Fin (inject_Z (t - a))).
  { unfold missedClasses, d, mkData. cbn [totalClasses attendedClasses].
    rewrite (of_Z_safe t), (of_Z_safe a)
      by (unfold safe_integer, MAX_SAFE_INTEGER in *; lia).
    apply sub_Z. unfold MAX_SAFE_INTEGER in *. lia. }
  split; [exact M|].
  exists (percentQ t a), (percentQ t (t - a)).
  split; [apply mkData_percent; assumption|].
  split.
  { unfold missedPercent. rewrite M. unfold d, mkData. cbn [totalClasses].
    rewrite <- (of_Z_safe (t - a))
      by (unfold safe_integer, MAX_SAFE_INTEGER in *; lia).
    apply mkData_percent; assumption. }
  split; [apply percentQ_bounds; assumption|].
  split; [apply percentQ_bounds; assumption|].
  destruct (percentQ_error t a Ht Ha) as [A1 A2].
  destruct (percentQ_error t (t - a) Ht Hm) as [B1 B2].
  unfold unit_roundoff.
  assert (P := inject_Z_pos t ltac:(lia)).
  assert (S : inject_Z a / inject_Z t * 100 + inject_Z (t - a) / inject_Z t * 100 == 100).
  { unfold Z.sub. rewrite inject_Z_plus, inject_Z_opp. field. lra. }
  set (x := inject_Z a / inject_Z t * 100) in *.
  set (y := inject_Z (t - a) / inject_Z t * 100) in *.
  split; lra.
Qed.

Lemma X6_breakdown_percentages_witness :
  missedClasses (mkData 3 1 75) = Fin (inject_Z (3 - 1)) /\
  exists p m,
    attendedPercent (mkData 3 1 75) = Fin p /\ missedPercent (mkData 3 1 75) = Fin m /\
    0 <= p <= 100 /\ 0 <= m <= 100 /\
    100 * ((1 - unit_roundoff) * (1 - unit_roundoff)) <= p + m /\
    p + m <= 100 * ((1 + unit_roundoff) * (1 + unit_roundoff)).
Proof.
  apply (X6_breakdown_percentages 3 1 75); unfold MAX_SAFE_INTEGER; lia.
Defined.
(** The rounded percentage grows with the exact ratio. *)
Lemma percentQ_mono (t a t' a' : Z) :
  (0 < t)%Z -> (0 < t')%Z -> (a * t' <= a' * t)%Z ->
  percentQ t a <= percentQ t' a'.
Proof.
  intros Ht Ht' H. unfold percentQ.
  assert (P := inject_Z_pos t Ht). assert (P' := inject_Z_pos t' Ht').
  assert (Q : inject_Z a / inject_Z t <= inject_Z a' / inject_Z t').
  { apply Qle_shift_div_l; [exact P'|].
    assert (E : inject_Z a / inject_Z t * inject_Z t'
                == inject_Z (a * t') / inject_Z t).
    { rewrite inject_Z_mult. field. lra. }
    rewrite E. apply Qle_shift_div_r; [exact P|].
    rewrite <- inject_Z_mult, <- Zle_Qle. exact H. }
  apply R_mono. apply Qmult_le_compat_r; [apply R_mono, Q|].
  change 0 with (inject_Z 0). rewrite <- Zle_Qle. lia.
Qed.

(** A rounded percentage that is at most 100 is not clamped. *)
Lemma min_percent (t a : Z) :
  percentQ t a <= 100 -> Math.min (Fin (percentQ t a)) (of_Z 100) = Fin (percentQ t a).
Proof.
  intros H. rewrite (of_Z_safe 100) by (apply safe_small; lia).
  unfold Math.min, lt. cbn [le value]. change (inject_Z 100) with 100.
  destruct (Qle_bool 100 (percentQ t a)) eqn:E1; cbn [negb]; [|reflexivity].
  apply Qle_bool_iff in E1.
  assert (E : percentQ t a == 100) by lra.
  destruct (Qle_bool (percentQ t a) 100) eqn:E2; cbn [negb].
  - f_equal. unfold percentQ, R in *. rewrite Qred_correct in E.
    rewrite (Qred_complete _ _ E). reflexivity.
  - exfalso. assert (C : Qle_bool (percentQ t a) 100 = true) by (apply Qle_bool_iff; exact H).
    congruence.
Qed.

Section Scenarios.

Variables t a T : Z.
Hypothesis Ht : (0 < t)%Z.
Hypothesis Ha : (0 <= a <= t)%Z.
Hypothesis Hs : (t + 10 <= MAX_SAFE_INTEGER)%Z.
Hypothesis HT : (0 < T < 100)%Z.

Local Abbreviation d := (mkData t a T).

Lemma scenario_on_integers (delta : Z) (l : string) :
  (Z.abs delta <= 10)%Z ->
  let p := AttendanceChart.project d
             {| AttendanceChart.label := l; AttendanceChart.classes := of_Z delta |} in
  let cp := percentQ (t + Z.abs delta) (a + Z.max 0 delta) in
  AttendanceChart.percentage p = Fin cp /\ cp <= 100 /\
  (AttendanceChart.status p = safe <-> inject_Z T <= cp).
Proof.
  intros Hd.
  destruct (project_on_integers t a T delta l Ht Ha ltac:(lia)
              ltac:(apply safe_small; lia)) as (E & _ & B & _ & _ & S).
  cbv zeta. repeat split; (exact E || exact B || apply S).
Qed.

Lemma scenarios_list :
  AttendanceChart.futureAttendanceScenarios d
  = [ AttendanceChart.project d
        {| AttendanceChart.label := "If you attend next 5 classes";
           AttendanceChart.classes := of_Z 5 |};
      AttendanceChart.project d
        {| AttendanceChart.label := "If you attend next 10 classes";
           AttendanceChart.classes := of_Z 10 |};
      AttendanceChart.project d
        {| AttendanceChart.label := "If you miss next 3 classes";
           AttendanceChart.classes := of_Z (-3) |};
      AttendanceChart.project d
        {| AttendanceChart.label := "If you miss next 5 classes";
           AttendanceChart.classes := of_Z (-5) |} ].
Proof. reflexivity. Qed.

End Scenarios.

(** X7: on valid counts no bar of the chart is clamped: the result's
    percentage and the percentage of each of the four scenarios are at most
    100, so [Math.min(..., 100)] returns them unchanged. *)
Theorem X7_bars_not_clamped (t a T : Z) (r : AttendanceResult) :
  (0 < t)%Z -> (0 <= a <= t)%Z -> (t + 10 <= MAX_SAFE_INTEGER)%Z ->
  (0 < T < 100)%Z ->
  compute (mkData t a T) = Computed r ->
  barWidth r = currentPercentage r /\
  forall p, In p (AttendanceChart.futureAttendanceScenarios (mkData t a T)) ->
            scenarioBar p = AttendanceChart.percentage p.
Proof.
  intros Ht Ha Hs HT E. split.
  - unfold barWidth. rewrite (proj1 (status_iff t a T r ltac:(lia) Ha HT E)).
    apply min_percent. apply percentQ_bounds; lia.
  - intros p Hp. rewrite scenarios_list in Hp. unfold scenarioBar.
    destruct Hp as [<- | [<- | [<- | [<- | []]]]].
    + destruct (scenario_on_integers t a T Ht Ha Hs HT 5 "If you attend next 5 classes"
                  ltac:(lia)) as (P & B & _).
      rewrite P. apply min_percent, B.
    + destruct (scenario_on_integers t a T Ht Ha Hs HT 10 "If you attend next 10 classes"
                  ltac:(lia)) as (P & B & _).
      rewrite P. apply min_percent, B.
    + destruct (scenario_on_integers t a T Ht Ha Hs HT (-3) "If you miss next 3 classes"
                  ltac:(lia)) as (P & B & _).
      rewrite P. apply min_percent, B.
    + destruct (scenario_on_integers t a T Ht Ha Hs HT (-5) "If you miss next 5 classes"
                  ltac:(lia)) as (P & B & _).
      rewrite P. apply min_percent, B.
Qed.

Lemma X7_bars_not_clamped_witness :
  barWidth (resultQ 50 40 75) = currentPercentage (resultQ 50 40 75) /\
  forall p, In p (AttendanceChart.futureAttendanceScenarios (mkData 50 40 75)) ->
            scenarioBar p = AttendanceChart.percentage p.
Proof.
  apply (X7_bars_not_clamped 50 40 75 (resultQ 50 40 75));
    try (unfold MAX_SAFE_INTEGER; lia).
  vm_compute. reflexivity.
Defined.

(** X8: on valid counts the projected percentages are ordered around the
    current one: miss 5 <= miss 3 <= current <= attend 5 <= attend 10. *)
Theorem X8_scenarios_ordered (t a T : Z) :
  (0 < t)%Z -> (0 <= a <= t)%Z -> (t + 10 <= MAX_SAFE_INTEGER)%Z ->
  (0 < T < 100)%Z ->
  exists attend5 attend10 miss3 miss5,
    map AttendanceChart.percentage
        (AttendanceChart.futureAttendanceScenarios (mkData t a T))
    = [attend5; attend10; miss3; miss5] /\
    le miss5 miss3 = true /\
    le miss3 (attendedPercent (mkData t a T)) = true /\
    le (attendedPercent (mkData t a T)) attend5 = true /\
    le attend5 attend10 = true.
Proof.
  intros Ht Ha Hs HT.
  destruct (scenario_on_integers t a T Ht Ha Hs HT 5 "If you attend next 5 classes"
              ltac:(lia)) as (P1 & _ & _).
  destruct (scenario_on_integers t a T Ht Ha Hs HT 10 "If you attend next 10 classes"
              ltac:(lia)) as (P2 & _ & _).
  destruct (scenario_on_integers t a T Ht Ha Hs HT (-3) "If you miss next 3 classes"
              ltac:(lia)) as (P3 & _ & _).
  destruct (scenario_on_integers t a T Ht Ha Hs HT (-5) "If you miss next 5 classes"
              ltac:(lia)) as (P4 & _ & _).
  eexists _, _, _, _. rewrite scenarios_list. cbn [map].
  rewrite P1, P2, P3, P4. split; [reflexivity|].
  unfold attendedPercent, mkData. cbn [totalClasses attendedClasses].
  rewrite (mkData_percent t a T) by lia.
  cbn [le value]. rewrite !Qle_bool_iff.
  repeat split; apply percentQ_mono; lia || nia.
Qed.

Lemma X8_scenarios_ordered_witness :
  exists attend5 attend10 miss3 miss5,
    map AttendanceChart.percentage
        (AttendanceChart.futureAttendanceScenarios (mkData 50 40 75))
    = [attend5; attend10; miss3; miss5] /\
    le miss5 miss3 = true /\
    le miss3 (attendedPercent (mkData 50 40 75)) = true /\
    le (attendedPercent (mkData 50 40 75)) attend5 = true /\
    le attend5 attend10 = true.
Proof.
  apply (X8_scenarios_ordered 50 40 75); unfold MAX_SAFE_INTEGER; lia.
Defined.

(** X9: the scenario cards agree with the status: when the result is safe
    the two 'attend' scenarios are safe, and when it is not safe the two
    'miss' scenarios are danger; if 'miss 5' is safe so is 'miss 3'. *)
Theorem X9_scenarios_follow_status (t a T : Z) (r : AttendanceResult) :
  (0 < t)%Z -> (0 <= a <= t)%Z -> (t + 10 <= MAX_SAFE_INTEGER)%Z ->
  (0 < T < 100)%Z ->
  compute (mkData t a T) = Computed r ->
  exists attend5 attend10 miss3 miss5,
    map AttendanceChart.status
        (AttendanceChart.futureAttendanceScenarios (mkData t a T))
    = [attend5; attend10; miss3; miss5] /\
    (status r = safe -> attend5 = safe /\ attend10 = safe) /\
    (status r <> safe -> miss3 = danger /\ miss5 = danger) /\
    (miss5 = safe -> miss3 = safe) /\
    (attend5 = safe -> attend10 = safe).
Proof.
  intros Ht Ha Hs HT E.
  destruct (scenario_on_integers t a T Ht Ha Hs HT 5 "If you attend next 5 classes"
              ltac:(lia)) as (_ & _ & S1).
  destruct (scenario_on_integers t a T Ht Ha Hs HT 10 "If you attend next 10 classes"
              ltac:(lia)) as (_ & _ & S2).
  destruct (scenario_on_integers t a T Ht Ha Hs HT (-3) "If you miss next 3 classes"
              ltac:(lia)) as (_ & _ & S3).
  destruct (scenario_on_integers t a T Ht Ha Hs HT (-5) "If you miss next 5 classes"
              ltac:(lia)) as (_ & _ & S4).
  destruct (status_iff t a T r ltac:(lia) Ha HT E) as (_ & _ & _ & S0).
  assert (M1 : percentQ t a <= percentQ (t + Z.abs 5) (a + Z.max 0 5))
    by (apply percentQ_mono; lia || nia).
  assert (M2 : percentQ (t + Z.abs 5) (a + Z.max 0 5)
               <= percentQ (t + Z.abs 10) (a + Z.max 0 10))
    by (apply percentQ_mono; lia || nia).
  assert (M3 : percentQ (t + Z.abs (-3)) (a + Z.max 0 (-3)) <= percentQ t a)
    by (apply percentQ_mono; lia || nia).
  assert (M4 : percentQ (t + Z.abs (-5)) (a + Z.max 0 (-5))
               <= percentQ (t + Z.abs (-3)) (a + Z.max 0 (-3)))
    by (apply percentQ_mono; lia || nia).
  eexists _, _, _, _. rewrite scenarios_list. cbn [map]. split; [reflexivity|].
  assert (D : forall s : Status,
             (s = safe \/ s = danger) -> s <> safe -> s = danger)
    by (intros s [-> | ->] N; [contradiction N|]; reflexivity).
  assert (SD : forall s : AttendanceChart.Scenario,
             AttendanceChart.status (AttendanceChart.project (mkData t a T) s) = safe \/
             AttendanceChart.status (AttendanceChart.project (mkData t a T) s) = danger).
  { intros s. unfold AttendanceChart.project. cbn [AttendanceChart.status].
    destruct (ge _ _); [left | right]; reflexivity. }
  repeat split.
  - apply S1. apply S0 in H. lra.
  - apply S2. apply S0 in H. lra.
  - apply D; [apply SD|]. intros C. apply S3 in C. apply H, S0. lra.
  - apply D; [apply SD|]. intros C. apply S4 in C. apply H, S0. lra.
  - intros C. apply S3. apply S4 in C. lra.
  - intros C. apply S2. apply S1 in C. lra.
Qed.

Lemma X9_scenarios_follow_status_witness :
  exists attend5 attend10 miss3 miss5,
    map AttendanceChart.status
        (AttendanceChart.futureAttendanceScenarios (mkData 50 40 75))
    = [attend5; attend10; miss3; miss5] /\
    (status (resultQ 50 40 75) = safe -> attend5 = safe /\ attend10 = safe) /\
    (status (resultQ 50 40 75) <> safe -> miss3 = danger /\ miss5 = danger) /\
    (miss5 = safe -> miss3 = safe) /\
    (attend5 = safe -> attend10 = safe).
Proof.
  apply (X9_scenarios_follow_status 50 40 75 (resultQ 50 40 75));
    try (unfold MAX_SAFE_INTEGER; lia).
  vm_compute. reflexivity.
Defined.
(** ** The insights *)

Import AttendanceInsightsView.

Lemma gt_zero_Z n : gt (Fin (inject_Z n)) (of_Z 0) = (0 <? n)%Z.
Proof. unfold gt. rewrite (of_Z_safe 0) by (apply safe_small; lia). apply lt_Z. Qed.

(** [Math.ceil(n / 5)] of a positive integer is the exact ceiling. *)
Lemma weeksNeeded_Z n :
  (0 < n < 2 ^ 53)%Z ->
  weeksNeeded (Fin (inject_Z n))
  = Fin (inject_Z (Qceiling (inject_Z n / inject_Z 5))).
Proof.
  intros Hn. unfold weeksNeeded.
  rewrite (of_Z_safe 5) by (apply safe_small; lia).
  assert (N : 1 <= inject_Z n /\ inject_Z n <= 9007199254740992).
  { change 1 with (inject_Z 1).
    change 9007199254740992 with (inject_Z 9007199254740992).
    rewrite <- !Zle_Qle. lia. }
  assert (P60 := pow2_60).
  rewrite div_Fin.
  - cbn [ceil].
    assert (Pos : 0 <= R (inject_Z n / inject_Z 5)).
    { apply R_nonneg. apply Qle_shift_div_l; [reflexivity|]. lra. }
    rewrite (Qneg_nonneg _ Pos). cbn [andb].
    rewrite Qceiling_R_div by lia. reflexivity.
  - reflexivity.
  - change (inject_Z 5) with 5. split.
    + apply Qle_shift_div_l; lra.
    + apply Qle_shift_div_r; lra.
  - left. lra.
Qed.

(** X10: the Strategic Plan insight appears exactly when classesToAttend is
    positive, and its number of weeks is the least w with 5 * w >=
    classesToAttend; the text says "weeks" exactly when more than 5 classes
    are needed. *)
Theorem X10_strategic_plan_weeks (r : AttendanceResult) (n : Z) :
  classesToAttend r = Fin (inject_Z n) -> (0 <= n < 2 ^ 53)%Z ->
  (n = 0%Z /\ strategicInsight r = []) \/
  ((0 < n)%Z /\
   exists w,
     (5 * (w - 1) < n <= 5 * w)%Z /\
     strategicInsight r
     = [ {| icon := Calendar;
            text := StrategicPlan (Fin (inject_Z w)) (5 <? n)%Z;
            type := "info" |} ]).
Proof.
  intros E Hn. unfold strategicInsight. rewrite E, gt_zero_Z.
  destruct (Z.ltb_spec 0 n) as [P | Z0].
  - right. split; [exact P|]. exists (Qceiling (inject_Z n / inject_Z 5)).
    destruct (Qceiling_div_bounds n 5 ltac:(lia)) as [L U].
    split; [lia|]. cbv zeta. rewrite weeksNeeded_Z by lia.
    unfold gt. rewrite (of_Z_safe 1) by (apply safe_small; lia). rewrite lt_Z.
    set (w := Qceiling (inject_Z n / inject_Z 5)) in *.
    assert (B : (1 <? w)%Z = (5 <? n)%Z)
      by (destruct (Z.ltb_spec 1 w), (Z.ltb_spec 5 n); (reflexivity || lia)).
    rewrite B. reflexivity.
  - left. split; [lia | reflexivity].
Qed.

Lemma X10_strategic_plan_weeks_witness :
  (30 = 0 /\ strategicInsight (resultQ 50 30 75) = [])%Z \/
  ((0 < 30)%Z /\
   exists w,
     (5 * (w - 1) < 30 <= 5 * w)%Z /\
     strategicInsight (resultQ 50 30 75)
     = [ {| icon := Calendar;
            text := StrategicPlan (Fin (inject_Z w)) (5 <? 30)%Z;
            type := "info" |} ]).
Proof.
  apply (X10_strategic_plan_weeks (resultQ 50 30 75) 30); [|lia].
  vm_compute. reflexivity.
Defined.

Lemma targetInsights_length (d : AttendanceData) :
  (List.length (targetInsights d) <= 2)%nat.
Proof.
  unfold targetInsights. rewrite length_map. apply firstn_le_length.
Qed.

Lemma strategicInsight_length (r : AttendanceResult) :
  (List.length (strategicInsight r) <= 1)%nat.
Proof. unfold strategicInsight. destruct (gt _ _); cbn; lia. Qed.

Lemma bufferInsight_length (r : AttendanceResult) :
  (List.length (bufferInsight r) <= 1)%nat.
Proof.
  unfold bufferInsight. destruct (status r); try (cbn; lia).
  destruct (gt _ _); cbn; lia.
Qed.

Lemma efficiencyInsight_length (d : AttendanceData) :
  (List.length (efficiencyInsight d) <= 1)%nat.
Proof.
  unfold efficiencyInsight. cbv zeta.
  destruct (gt _ _); [cbn; lia|]. destruct (lt _ _); cbn; lia.
Qed.

Lemma insights_types (d : AttendanceData) (r : AttendanceResult) (i : Insight) :
  In i (insights d r) -> In (type i) insight_types.
Proof.
  unfold insights. rewrite !in_app_iff. intros [H | [H | [H | [H | H]]]].
  - destruct H as [<- | []]. unfold statusInsight.
    destruct (status r); cbn; tauto.
  - unfold strategicInsight in H. destruct (gt _ _); [|contradiction H].
    destruct H as [<- | []]. cbn. tauto.
  - unfold bufferInsight in H.
    destruct (status r); try contradiction H.
    destruct (gt _ _); [|contradiction H]. destruct H as [<- | []]. cbn. tauto.
  - apply in_map_iff in H. destruct H as (x & <- & _). unfold ofTarget.
    cbn [type]. destruct (insightType x); cbn; tauto.
  - unfold efficiencyInsight in H. cbv zeta in H.
    destruct (gt _ _); [destruct H as [<- | []]; cbn; tauto|].
    destruct (lt _ _); [destruct H as [<- | []]; cbn; tauto | contradiction H].
Qed.

(** X11: the list of insights is never empty: it opens with the status
    insight, whose type is success, warning or danger as the status is safe,
    warning or danger, and holds at most six insights. *)
Theorem X11_insights_shape (d : AttendanceData) (r : AttendanceResult) :
  (exists rest, insights d r = statusInsight d r :: rest) /\
  type (statusInsight d r)
  = match status r with
    | safe => "success"
    | warning => "warning"
    | danger => "danger"
    end%string /\
  (1 <= List.length (insights d r) <= 6)%nat.
Proof.
  split; [eexists; reflexivity|]. split.
  - unfold statusInsight. destruct (status r); reflexivity.
  - unfold insights. rewrite !length_app, length_map. cbn [List.length].
    assert (A := strategicInsight_length r). assert (B := bufferInsight_length r).
    assert (C := targetInsights_length d). assert (D := efficiencyInsight_length d).
    lia.
Qed.

(** X12: every insight of the list carries one of the four types success,
    warning, danger and info, and the two style functions fall to their
    default class ('bg-muted border-border', 'text-primary') exactly for the
    info ones. *)
Theorem X12_insight_styles (d : AttendanceData) (r : AttendanceResult) (i : Insight) :
  In i (insights d r) ->
  In (type i) insight_types /\
  (getInsightStyle (type i) = "bg-muted border-border"%string <-> type i = "info"%string) /\
  (getInsightIconColor (type i) = "text-primary"%string <-> type i = "info"%string).
Proof.
  intros H. assert (K := insights_types d r i H). split; [exact K|].
  unfold insight_types in K.
  destruct K as [<- | [<- | [<- | [<- | []]]]]; cbn;
    split; split; intros C; (reflexivity || discriminate C).
Qed.

Lemma X12_insight_styles_witness :
  In (type (statusInsight (mkData 50 40 75) (resultQ 50 40 75))) insight_types /\
  (getInsightStyle (type (statusInsight (mkData 50 40 75) (resultQ 50 40 75)))
   = "bg-muted border-border"%string
   <-> type (statusInsight (mkData 50 40 75) (resultQ 50 40 75)) = "info"%string) /\
  (getInsightIconColor (type (statusInsight (mkData 50 40 75) (resultQ 50 40 75)))
   = "text-primary"%string
   <-> type (statusInsight (mkData 50 40 75) (resultQ 50 40 75)) = "info"%string).
Proof.
  apply (X12_insight_styles (mkData 50 40 75) (resultQ 50 40 75)).
  left. reflexivity.
Defined.
(** On valid inputs with exact products a safe result needs no class and a
    result that is not safe allows none to be missed. *)
Lemma counters_of_status (t a T : Z) (r : AttendanceResult) :
  (0 < t <= MAX_EXACT_TOTAL)%Z -> (0 <= a <= t)%Z -> (0 < T < 100)%Z ->
  compute (mkData t a T) = Computed r ->
  (exists n m, classesToAttend r = Fin (inject_Z n) /\
               classesToBunk r = Fin (inject_Z m) /\ (0 <= n)%Z /\ (0 <= m)%Z) /\
  (status r = safe -> classesToAttend r = Fin (inject_Z 0)) /\
  (status r <> safe -> classesToBunk r = Fin (inject_Z 0)).
Proof.
  intros Ht Ha HT E.
  rewrite (compute_valid t a T (exact_total_safe t Ht) Ha HT) in E.
  apply Computed_inj in E. subst r. unfold resultQ, statusQ.
  cbn [classesToAttend classesToBunk status]. split.
  { exists (attendZ t a T), (bunkZ t a T). unfold attendZ, bunkZ.
    repeat split; lia. }
  destruct (Qle_bool (inject_Z T) (percentQ t a)) eqn:Q.
  - apply Qle_bool_iff in Q. split.
    + intros _. rewrite (safe_attendZ t a T Ht Ha HT Q). reflexivity.
    + intros C. contradiction C. reflexivity.
  - assert (L : percentQ t a < inject_Z T).
    { apply Qnot_le_lt. intros C. apply Qle_bool_iff in C. congruence. }
    split.
    + destruct (Qle_bool (inject_Z (T - 5)) (percentQ t a)); intros C; discriminate C.
    + intros _. rewrite (unsafe_bunkZ t a T Ht Ha HT L). reflexivity.
Qed.

(** X13: on valid inputs with a total up to 2^46 the status tests of the two
    rows under the message are redundant: 'Classes to attend' is shown
    exactly when classesToAttend is positive, 'Safe to bunk' exactly when
    classesToBunk is positive, and never both. *)
Theorem X13_result_rows (t a T : Z) (r : AttendanceResult) :
  (0 < t <= MAX_EXACT_TOTAL)%Z -> (0 <= a <= t)%Z -> (0 < T < 100)%Z ->
  compute (mkData t a T) = Computed r ->
  showClassesToAttend r = gt (classesToAttend r) (of_Z 0) /\
  showSafeToBunk r = gt (classesToBunk r) (of_Z 0) /\
  (showClassesToAttend r = false \/ showSafeToBunk r = false).
Proof.
  intros Ht Ha HT E.
  destruct (counters_of_status t a T r Ht Ha HT E) as (_ & S & U).
  unfold showClassesToAttend, showSafeToBunk.
  destruct (status r) eqn:St.
  - rewrite (S eq_refl), gt_zero_Z. repeat split. left. reflexivity.
  - rewrite U by (intros C; discriminate C). rewrite gt_zero_Z.
    repeat split. right. reflexivity.
  - rewrite U by (intros C; discriminate C). rewrite gt_zero_Z.
    repeat split. right. reflexivity.
Qed.

Lemma X13_result_rows_witness :
  showClassesToAttend (resultQ 50 40 75) = gt (classesToAttend (resultQ 50 40 75)) (of_Z 0) /\
  showSafeToBunk (resultQ 50 40 75) = gt (classesToBunk (resultQ 50 40 75)) (of_Z 0) /\
  (showClassesToAttend (resultQ 50 40 75) = false \/
   showSafeToBunk (resultQ 50 40 75) = false).
Proof.
  apply (X13_result_rows 50 40 75 (resultQ 50 40 75));
    try (unfold MAX_EXACT_TOTAL; lia).
  vm_compute. reflexivity.
Defined.

(** X14: on valid inputs with a total up to 2^46 the Strategic Plan and the
    Flexibility Buffer never appear together, the buffer appears exactly
    when classesToBunk is positive, and the list holds at most five
    insights. *)
Theorem X14_plan_or_buffer (t a T : Z) (r : AttendanceResult) :
  (0 < t <= MAX_EXACT_TOTAL)%Z -> (0 <= a <= t)%Z -> (0 < T < 100)%Z ->
  compute (mkData t a T) = Computed r ->
  (strategicInsight r = [] \/ bufferInsight r = []) /\
  (bufferInsight r <> [] <-> gt (classesToBunk r) (of_Z 0) = true) /\
  (List.length (insights (mkData t a T) r) <= 5)%nat.
Proof.
  intros Ht Ha HT E.
  destruct (counters_of_status t a T r Ht Ha HT E) as (_ & S & U).
  assert (X : strategicInsight r = [] \/ bufferInsight r = []).
  { unfold strategicInsight, bufferInsight. destruct (status r) eqn:St.
    - left. rewrite (S eq_refl), gt_zero_Z. reflexivity.
    - right. reflexivity.
    - right. reflexivity. }
  split; [exact X|]. split.
  - unfold bufferInsight. destruct (status r) eqn:St.
    + destruct (gt (classesToBunk r) (of_Z 0)); split; intros C.
      * reflexivity.
      * intros K. discriminate K.
      * exfalso. apply C. reflexivity.
      * discriminate C.
    + rewrite U by (intros C; discriminate C). rewrite gt_zero_Z.
      split; intros C; [exfalso; apply C; reflexivity | discriminate C].
    + rewrite U by (intros C; discriminate C). rewrite gt_zero_Z.
      split; intros C; [exfalso; apply C; reflexivity | discriminate C].
  - unfold insights. rewrite !length_app, length_map. cbn [List.length].
    assert (A := strategicInsight_length r). assert (B := bufferInsight_length r).
    assert (C := targetInsights_length (mkData t a T)).
    assert (D := efficiencyInsight_length (mkData t a T)).
    destruct X as [X | X]; rewrite X in *; cbn [List.length] in *; lia.
Qed.

Lemma X14_plan_or_buffer_witness :
  (strategicInsight (resultQ 50 40 75) = [] \/ bufferInsight (resultQ 50 40 75) = []) /\
  (bufferInsight (resultQ 50 40 75) <> []
   <-> gt (classesToBunk (resultQ 50 40 75)) (of_Z 0) = true) /\
  (List.length (insights (mkData 50 40 75) (resultQ 50 40 75)) <= 5)%nat.
Proof.
  apply (X14_plan_or_buffer 50 40 75 (resultQ 50 40 75));
    try (unfold MAX_EXACT_TOTAL; lia).
  vm_compute. reflexivity.
Defined.
Lemma reachesTarget_iff_zero (t a c : Z) :
  (0 < t)%Z -> reachesTarget t a c 0 <-> (c * t <= 100 * a)%Z.
Proof.
  intros Ht. rewrite reachesTarget_iff by lia. lia.
Qed.

(** X15: the custom target insights are for the two nearest of 80, 85, 90
    and 95 strictly above the target, in ascending order: 80 and 85 below
    80, then 85 and 90, then 90 and 95, only 95 from 90 on, and none from
    95 on. *)
Theorem X15_custom_targets (t a T : Z) :
  safe_integer T ->
  map target (targetInsights (mkData t a T)) = map of_Z (candidates T) /\
  (forall c, In c (candidates T) -> (T < c < 100)%Z) /\
  ((95 <= T)%Z -> targetInsights (mkData t a T) = []).
Proof.
  intros HT. unfold targetInsights. rewrite map_map. cbn [target].
  rewrite map_id, (customTargets_Z t a T HT). split; [reflexivity|]. split.
  - intros c. unfold candidates.
    destruct (Z.ltb_spec T 80), (Z.ltb_spec T 85), (Z.ltb_spec T 90), (Z.ltb_spec T 95);
      cbn [In]; lia.
  - intros H. unfold candidates.
    destruct (Z.ltb_spec T 80), (Z.ltb_spec T 85), (Z.ltb_spec T 90), (Z.ltb_spec T 95);
      try lia. reflexivity.
Qed.

Lemma X15_custom_targets_witness :
  map target (targetInsights (mkData 50 40 82)) = map of_Z (candidates 82) /\
  (forall c, In c (candidates 82) -> (82 < c < 100)%Z) /\
  ((95 <= 82)%Z -> targetInsights (mkData 50 40 82) = []).
Proof.
  apply (X15_custom_targets 50 40 82). apply safe_small. lia.
Defined.

(** X16: on valid inputs with a total up to 2^46 each custom target insight
    reports the least number of further classes, all attended, that reaches
    its candidate target, and it says the target is already achieved (type
    success) exactly when 100 * attended >= candidate * total. *)
Theorem X16_target_insights_exact (t a T : Z) (ins : TargetInsight) :
  (0 < t <= MAX_EXACT_TOTAL)%Z -> (0 <= a <= t)%Z -> safe_integer T ->
  In ins (targetInsights (mkData t a T)) ->
  exists c k,
    In c (candidates T) /\ target ins = of_Z c /\
    classesNeeded ins = Fin (inject_Z k) /\ (0 <= k)%Z /\
    (forall j, (0 <= j)%Z -> reachesTarget t a c j <-> (k <= j)%Z) /\
    (insightType ins = success <-> k = 0%Z) /\
    (k = 0%Z <-> (c * t <= 100 * a)%Z).
Proof.
  intros Ht Ha HT Hin. unfold targetInsights in Hin.
  rewrite (customTargets_Z t a T HT) in Hin.
  apply in_map_iff in Hin. destruct Hin as (x & <- & Hx).
  apply in_map_iff in Hx. destruct Hx as (c & <- & Hc).
  assert (Rc : (0 < c < 100)%Z).
  { revert Hc. unfold candidates.
    destruct (T <? 80)%Z; [|destruct (T <? 85)%Z; [|destruct (T <? 90)%Z;
      [|destruct (T <? 95)%Z]]]; cbn [In]; lia. }
  exists c, (attendZ t a c). cbn [target classesNeeded insightType].
  assert (E : classesNeededFor (mkData t a T) (of_Z c) = Fin (inject_Z (attendZ t a c))).
  { rewrite (classesNeededFor_exact t a T c Ht Ha Rc).
    rewrite (attendZ_exact t a c Ht Ha Rc). reflexivity. }
  assert (L := attendZ_least t a c Ht Ha Rc).
  assert (N : (0 <= attendZ t a c)%Z) by (unfold attendZ; lia).
  split; [exact Hc|]. split; [reflexivity|]. split; [exact E|]. split; [exact N|].
  split; [exact L|]. split.
  - rewrite E, gt_zero_Z. destruct (Z.ltb_spec 0 (attendZ t a c)); split; intros C;
      (reflexivity || discriminate C || lia).
  - rewrite <- (reachesTarget_iff_zero t a c) by lia.
    rewrite (L 0%Z) by lia. lia.
Qed.

Lemma X16_target_insights_exact_witness :
  exists c k,
    In c (candidates 75) /\
    target {| target := of_Z 80;
              classesNeeded := classesNeededFor (mkData 50 40 75) (of_Z 80);
              insightType := success |} = of_Z c /\
    classesNeeded {| target := of_Z 80;
                     classesNeeded := classesNeededFor (mkData 50 40 75) (of_Z 80);
                     insightType := success |} = Fin (inject_Z k) /\ (0 <= k)%Z /\
    (forall j, (0 <= j)%Z -> reachesTarget 50 40 c j <-> (k <= j)%Z) /\
    (insightType {| target := of_Z 80;
                    classesNeeded := classesNeededFor (mkData 50 40 75) (of_Z 80);
                    insightType := success |} = success <-> k = 0%Z) /\
    (k = 0%Z <-> (c * 50 <= 100 * 40)%Z).
Proof.
  apply (X16_target_insights_exact 50 40 75); try (unfold MAX_EXACT_TOTAL; lia).
  - apply safe_small. lia.
  - left. vm_compute. reflexivity.
Defined.
(** ** Efficiency insight and quick actions *)

Lemma rate_valid (t a : Z) :
  (0 < t <= MAX_SAFE_INTEGER)%Z -> (0 <= a <= t)%Z ->
  div (of_Z a) (of_Z t) = Fin (R (inject_Z a / inject_Z t)).
Proof.
  intros Ht Ha.
  rewrite (of_Z_safe t), (of_Z_safe a)
    by (unfold safe_integer, MAX_SAFE_INTEGER in *; lia).
  destruct (tq_bounds t Ht), (aq_bounds t a Ha), (ratio_bounds t a Ht Ha).
  assert (P60 := pow2_60).
  apply div_Fin; [lra | lra | left; lra].
Qed.

Lemma literal_09 : literal (9 # 10) = Fin (R (9 # 10)).
Proof. vm_compute. reflexivity. Qed.

Lemma literal_06 : literal (6 # 10) = Fin (R (6 # 10)).
Proof. vm_compute. reflexivity. Qed.

(** The least rate above 9/10 and the largest below 6/10 that a total up to
    2^46 allows are told apart from the literals by the rounding. *)
Lemma R_above_09 : R (9 # 10) < R ((9 # 10) + (1 # 703687441776640)).
Proof. vm_compute. reflexivity. Qed.

Lemma R_below_06 : R ((6 # 10) - (1 # 703687441776640)) < R (6 # 10).
Proof. vm_compute. reflexivity. Qed.

Section Efficiency.

Variables t a : Z.
Hypothesis Ht : (0 < t <= MAX_EXACT_TOTAL)%Z.
Hypothesis Ha : (0 <= a <= t)%Z.

Local Abbreviation rate := (R (inject_Z a / inject_Z t)).

Lemma total_inv_bound : (1 # 703687441776640) <= 1 / (10 * inject_Z t).
Proof.
  assert (P := inject_Z_pos t ltac:(lia)).
  assert (U : inject_Z t <= 70368744177664).
  { change 70368744177664 with (inject_Z 70368744177664).
    rewrite <- Zle_Qle. unfold MAX_EXACT_TOTAL in Ht. lia. }
  apply Qle_shift_div_l; lra.
Qed.

Lemma ratio_split (n : Z) :
  inject_Z a / inject_Z t
  == (n # 10) + inject_Z (10 * a - n * t) * (1 / (10 * inject_Z t)).
Proof.
  assert (P := inject_Z_pos t ltac:(lia)).
  unfold Z.sub. rewrite inject_Z_plus, inject_Z_opp, !inject_Z_mult.
  change (inject_Z 10) with 10.
  assert (E : n # 10 == inject_Z n / 10).
  { rewrite (Qmake_Qdiv n 10). reflexivity. }
  rewrite E. field. lra.
Qed.

Lemma rate_above_09 : (9 * t < 10 * a)%Z <-> R (9 # 10) < rate.
Proof.
  assert (S := ratio_split 9).
  assert (B := total_inv_bound).
  assert (P : 0 < 1 / (10 * inject_Z t)).
  { assert (Q := inject_Z_pos t ltac:(lia)). apply Qlt_shift_div_l; lra. }
  split.
  - intros H. assert (K : 1 <= inject_Z (10 * a - 9 * t)).
    { change 1 with (inject_Z 1). rewrite <- Zle_Qle. lia. }
    assert (M : (9 # 10) + (1 # 703687441776640) <= inject_Z a / inject_Z t).
    { rewrite S. set (e := 1 / (10 * inject_Z t)) in *.
      set (k := inject_Z (10 * a - 9 * t)) in *. nra. }
    assert (G := R_mono _ _ M). assert (A := R_above_09). lra.
  - intros H. destruct (Z.lt_ge_cases (9 * t) (10 * a)) as [L | G]; [exact L|].
    exfalso. assert (K : inject_Z (10 * a - 9 * t) <= 0).
    { change 0 with (inject_Z 0). rewrite <- Zle_Qle. lia. }
    assert (M : inject_Z a / inject_Z t <= 9 # 10).
    { rewrite S. set (e := 1 / (10 * inject_Z t)) in *.
      set (k := inject_Z (10 * a - 9 * t)) in *. nra. }
    assert (Q := R_mono _ _ M). lra.
Qed.

Lemma rate_below_06 : (10 * a < 6 * t)%Z <-> rate < R (6 # 10).
Proof.
  assert (S := ratio_split 6).
  assert (B := total_inv_bound).
  assert (P : 0 < 1 / (10 * inject_Z t)).
  { assert (Q := inject_Z_pos t ltac:(lia)). apply Qlt_shift_div_l; lra. }
  split.
  - intros H. assert (K : inject_Z (10 * a - 6 * t) <= - 1).
    { change (- 1) with (inject_Z (-1)). rewrite <- Zle_Qle. lia. }
    assert (M : inject_Z a / inject_Z t <= (6 # 10) - (1 # 703687441776640)).
    { rewrite S. set (e := 1 / (10 * inject_Z t)) in *.
      set (k := inject_Z (10 * a - 6 * t)) in *. nra. }
    assert (G := R_mono _ _ M). assert (A := R_below_06). lra.
  - intros H. destruct (Z.lt_ge_cases (10 * a) (6 * t)) as [L | G]; [exact L|].
    exfalso. assert (K : 0 <= inject_Z (10 * a - 6 * t)).
    { change 0 with (inject_Z 0). rewrite <- Zle_Qle. lia. }
    assert (M : 6 # 10 <= inject_Z a / inject_Z t).
    { rewrite S. set (e := 1 / (10 * inject_Z t)) in *.
      set (k := inject_Z (10 * a - 6 * t)) in *. nra. }
    assert (Q := R_mono _ _ M). lra.
Qed.

End Efficiency.

(** X17: on valid counts with a total up to 2^46 the efficiency insight
    follows the exact ratio: 'Consistent Performer' exactly when attended /
    total > 9/10, 'Improvement Opportunity' exactly when attended / total <
    6/10, and none in between. *)
Theorem X17_efficiency_insight (t a T : Z) :
  (0 < t <= MAX_EXACT_TOTAL)%Z -> (0 <= a <= t)%Z ->
  efficiencyInsight (mkData t a T)
  = if (9 * t <? 10 * a)%Z then
      [ {| icon := Zap; text := ConsistentPerformer; type := "success" |} ]
    else if (10 * a <? 6 * t)%Z then
      [ {| icon := Lightbulb; text := ImprovementOpportunity; type := "info" |} ]
    else [].
Proof.
  intros Ht Ha. unfold efficiencyInsight, mkData. cbv zeta.
  cbn [totalClasses attendedClasses].
  rewrite (rate_valid t a (exact_total_safe t Ht) Ha), literal_09, literal_06.
  unfold gt, lt. cbn [le value].
  assert (A := rate_above_09 t a Ht). assert (B := rate_below_06 t a Ht).
  destruct (Z.ltb_spec (9 * t) (10 * a)) as [H9 | H9].
  - apply A in H9.
    destruct (Qle_bool (R (inject_Z a / inject_Z t)) (R (9 # 10))) eqn:E;
      [|reflexivity].
    apply Qle_bool_iff in E. lra.
  - destruct (Qle_bool (R (inject_Z a / inject_Z t)) (R (9 # 10))) eqn:E.
    + cbn [negb]. destruct (Z.ltb_spec (10 * a) (6 * t)) as [H6 | H6].
      * apply B in H6.
        destruct (Qle_bool (R (6 # 10)) (R (inject_Z a / inject_Z t))) eqn:F;
          [|reflexivity].
        apply Qle_bool_iff in F. lra.
      * destruct (Qle_bool (R (6 # 10)) (R (inject_Z a / inject_Z t))) eqn:F;
          [reflexivity|].
        exfalso.
        assert (C : R (inject_Z a / inject_Z t) < R (6 # 10)).
        { apply Qnot_le_lt. intros C. apply Qle_bool_iff in C. congruence. }
        apply B in C. lia.
    + exfalso.
      assert (C : R (9 # 10) < R (inject_Z a / inject_Z t)).
      { apply Qnot_le_lt. intros C. apply Qle_bool_iff in C. congruence. }
      apply A in C. lia.
Qed.

Lemma X17_efficiency_insight_witness :
  efficiencyInsight (mkData 50 46 75)
  = if (9 * 50 <? 10 * 46)%Z then
      [ {| icon := Zap; text := ConsistentPerformer; type := "success" |} ]
    else if (10 * 46 <? 6 * 50)%Z then
      [ {| icon := Lightbulb; text := ImprovementOpportunity; type := "info" |} ]
    else [].
Proof.
  apply (X17_efficiency_insight 50 46 75); unfold MAX_EXACT_TOTAL; lia.
Defined.
Lemma min_Z a b :
  Math.min (Fin (inject_Z a)) (Fin (inject_Z b)) = Fin (inject_Z (Z.min a b)).
Proof.
  unfold Math.min. rewrite !lt_Z. destruct (Z.ltb_spec a b).
  - rewrite Z.min_l by lia. reflexivity.
  - destruct (Z.ltb_spec b a).
    + rewrite Z.min_r by lia. reflexivity.
    + rewrite Z.min_r by lia. reflexivity.
Qed.

(** A percentage above 80 is not below 70, whatever the number. *)
Lemma above_80_not_below_70 (cp : number) :
  gt cp (of_Z 80) = true -> lt cp (of_Z 70) = false.
Proof.
  rewrite (of_Z_safe 80), (of_Z_safe 70) by (apply safe_small; lia).
  unfold gt, lt. destruct cp as [| [|] | | q]; cbn [le value negb];
    try (intros C; discriminate C); try reflexivity.
  change (inject_Z 80) with 80. change (inject_Z 70) with 70.
  intros H. apply negb_true_iff in H. apply negb_false_iff, Qle_bool_iff.
  destruct (Qlt_le_dec 80 q) as [G | L]; [lra|].
  apply Qle_bool_iff in L. congruence.
Qed.

Lemma efficiency_text (d : AttendanceData) (r : AttendanceResult) (i : Insight) :
  In i (insights d r) ->
  (text i = ConsistentPerformer ->
   gt (div (attendedClasses d) (totalClasses d)) (literal (9 # 10)) = true) /\
  (text i = ImprovementOpportunity ->
   lt (div (attendedClasses d) (totalClasses d)) (literal (6 # 10)) = true).
Proof.
  unfold insights. rewrite !in_app_iff. intros [H | [H | [H | [H | H]]]].
  - destruct H as [<- | []]. unfold statusInsight.
    destruct (status r); cbn [text]; split; intros C; discriminate C.
  - unfold strategicInsight in H. destruct (gt _ _); [|contradiction H].
    destruct H as [<- | []]. cbn [text]. split; intros C; discriminate C.
  - unfold bufferInsight in H.
    destruct (status r); try contradiction H.
    destruct (gt _ _); [|contradiction H]. destruct H as [<- | []].
    cbn [text]. split; intros C; discriminate C.
  - apply in_map_iff in H. destruct H as (x & <- & _). unfold ofTarget.
    cbn [text]. split; intros C; discriminate C.
  - unfold efficiencyInsight in H. cbv zeta in H.
    destruct (gt _ (literal (9 # 10))) eqn:G.
    + destruct H as [<- | []]. cbn [text].
      split; intros C; [reflexivity | discriminate C].
    + destruct (lt _ (literal (6 # 10))) eqn:L; [|contradiction H].
      destruct H as [<- | []]. cbn [text].
      split; intros C; [discriminate C | reflexivity].
Qed.

Lemma R_09_percent : R (R (9 # 10) * 100) == 90.
Proof. vm_compute. reflexivity. Qed.

Lemma R_06_percent : R (R (6 # 10) * 100) == 60.
Proof. vm_compute. reflexivity. Qed.

(** X18: beside a result computed from the same valid counts, the efficiency
    insight and the quick actions agree: with 'Consistent Performer' the
    badge 'Maintain consistency' is shown, and with 'Improvement
    Opportunity' the badge 'Set daily reminders'. *)
Theorem X18_efficiency_and_badges
  (t a T : Z) (r : AttendanceResult) (i : Insight) :
  (0 < t <= MAX_SAFE_INTEGER)%Z -> (0 <= a <= t)%Z ->
  compute (mkData t a T) = Computed r ->
  In i (insights (mkData t a T) r) ->
  (text i = ConsistentPerformer -> In MaintainConsistency (quickActions r)) /\
  (text i = ImprovementOpportunity -> In SetDailyReminders (quickActions r)).
Proof.
  intros Ht Ha E Hi.
  destruct (efficiency_text _ _ _ Hi) as [C I].
  assert (P : currentPercentage r = Fin (percentQ t a)).
  { rewrite (proj1 (compute_fields _ _ E)). apply mkData_percent; assumption. }
  unfold mkData in C, I. cbn [totalClasses attendedClasses] in C, I.
  rewrite (rate_valid t a Ht Ha) in C, I. rewrite literal_09 in C. rewrite literal_06 in I.
  unfold gt, lt in C, I. cbn [le value] in C, I.
  unfold quickActions. rewrite P.
  rewrite (of_Z_safe 80), (of_Z_safe 70) by (apply safe_small; lia).
  unfold gt, lt. cbn [le value]. change (inject_Z 80) with 80. change (inject_Z 70) with 70.
  split; intros Tx.
  - specialize (C Tx). apply negb_true_iff in C.
    assert (L : R (9 # 10) <= R (inject_Z a / inject_Z t)).
    { destruct (Qlt_le_dec (R (inject_Z a / inject_Z t)) (R (9 # 10))) as [G | G];
        [|exact G].
      assert (K : Qle_bool (R (inject_Z a / inject_Z t)) (R (9 # 10)) = true)
        by (apply Qle_bool_iff; lra).
      congruence. }
    assert (M : 90 <= percentQ t a).
    { rewrite <- R_09_percent. unfold percentQ. apply R_mono.
      change (inject_Z 100) with 100. lra. }
    assert (F : Qle_bool (percentQ t a) 80 = false).
    { destruct (Qle_bool (percentQ t a) 80) eqn:F; [|reflexivity].
      apply Qle_bool_iff in F. lra. }
    rewrite F. cbn [negb]. rewrite !in_app_iff. right. left. left. reflexivity.
  - specialize (I Tx). apply negb_true_iff in I.
    assert (L : R (inject_Z a / inject_Z t) <= R (6 # 10)).
    { destruct (Qlt_le_dec (R (6 # 10)) (R (inject_Z a / inject_Z t))) as [G | G];
        [|exact G].
      assert (K : Qle_bool (R (6 # 10)) (R (inject_Z a / inject_Z t)) = true)
        by (apply Qle_bool_iff; lra).
      congruence. }
    assert (M : percentQ t a <= 60).
    { rewrite <- R_06_percent. unfold percentQ. apply R_mono.
      change (inject_Z 100) with 100. lra. }
    assert (F : Qle_bool 70 (percentQ t a) = false).
    { destruct (Qle_bool 70 (percentQ t a)) eqn:F; [|reflexivity].
      apply Qle_bool_iff in F. lra. }
    rewrite F. cbn [negb]. rewrite !in_app_iff. right. right. left. left. reflexivity.
Qed.

Lemma X18_efficiency_and_badges_witness :
  (text {| icon := Zap; text := ConsistentPerformer; type := "success" |}
   = ConsistentPerformer -> In MaintainConsistency (quickActions (resultQ 50 46 75))) /\
  (text {| icon := Zap; text := ConsistentPerformer; type := "success" |}
   = ImprovementOpportunity -> In SetDailyReminders (quickActions (resultQ 50 46 75))).
Proof.
  apply (X18_efficiency_and_badges 50 46 75 (resultQ 50 46 75));
    try (unfold MAX_SAFE_INTEGER; lia).
  - vm_compute. reflexivity.
  - unfold insights. rewrite !in_app_iff. do 4 right. vm_compute. left. reflexivity.
Defined.

(** X19: the quick actions always end with 'Track weekly progress' and hold
    at most two badges before it; 'Maintain consistency' and 'Set daily
    reminders' are never shown together; and the badge 'Attend next N
    classes' never asks for more than 5: N is the smaller of classesToAttend
    and 5. *)
Theorem X19_quick_actions (r : AttendanceResult) :
  (exists front, quickActions r = front ++ [TrackWeeklyProgress] /\
                 (List.length front <= 2)%nat) /\
  ~ (In MaintainConsistency (quickActions r) /\ In SetDailyReminders (quickActions r)) /\
  (forall k n, classesToAttend r = Fin (inject_Z k) ->
               In (AttendNext n) (quickActions r) ->
               n = Fin (inject_Z (Z.min k 5))).
Proof.
  unfold quickActions.
  set (A := match status r with
            | safe => []
            | _ => [AttendNext (Math.min (classesToAttend r) (of_Z 5))]
            end).
  assert (LA : (List.length A <= 1)%nat) by (unfold A; destruct (status r); cbn; lia).
  assert (X := above_80_not_below_70 (currentPercentage r)).
  split; [|split].
  - exists (A ++ (if gt (currentPercentage r) (of_Z 80) then [MaintainConsistency] else [])
              ++ (if lt (currentPercentage r) (of_Z 70) then [SetDailyReminders] else [])).
    split; [rewrite <- !app_assoc; reflexivity|].
    rewrite !length_app.
    destruct (gt (currentPercentage r) (of_Z 80)).
    + rewrite (X eq_refl). cbn [List.length]. lia.
    + destruct (lt (currentPercentage r) (of_Z 70)); cbn [List.length]; lia.
  - rewrite !in_app_iff. intros [M S].
    assert (NA : forall q, In q A -> exists n, q = AttendNext n).
    { unfold A. intros q. destruct (status r); cbn [In]; try tauto;
        intros [<- | []]; eexists; reflexivity. }
    destruct (gt (currentPercentage r) (of_Z 80)) eqn:G.
    + rewrite (X eq_refl) in S.
      destruct S as [S | [S | [S | S]]].
      * destruct (NA _ S) as [n C]. discriminate C.
      * destruct S as [S | []]. discriminate S.
      * contradiction S.
      * destruct S as [S | []]. discriminate S.
    + destruct M as [M | [M | [M | M]]].
      * destruct (NA _ M) as [n C]. discriminate C.
      * contradiction M.
      * destruct (lt (currentPercentage r) (of_Z 70)); [|contradiction M].
        destruct M as [M | []]. discriminate M.
      * destruct M as [M | []]. discriminate M.
  - intros k n E. rewrite !in_app_iff. intros [H | [H | [H | H]]].
    + unfold A in H. rewrite E, (of_Z_safe 5), min_Z in H by (apply safe_small; lia).
      destruct (status r); cbn [In] in H; try tauto;
        destruct H as [H | []]; injection H as <-; reflexivity.
    + destruct (gt _ _); [destruct H as [H | []]; discriminate H | contradiction H].
    + destruct (lt _ _); [destruct H as [H | []]; discriminate H | contradiction H].
    + destruct H as [H | []]. discriminate H.
Qed.
(** ** Boundary inputs *)

Lemma percentQ_full (t : Z) : (0 < t)%Z -> percentQ t t = 100.
Proof.
  intros Ht. unfold percentQ. assert (P := inject_Z_pos t Ht).
  assert (E : inject_Z t / inject_Z t == 1) by (field; lra).
  rewrite (R_proper _ _ E). change (R 1) with 1.
  assert (F : 1 * inject_Z 100 == 100) by reflexivity.
  rewrite (R_proper _ _ F). reflexivity.
Qed.

(** X20: with every class attended the result is exactly 100 percent and
    safe, and no class is to be attended, for every valid target. *)
Theorem X20_full_attendance (t T : Z) :
  (0 < t <= MAX_SAFE_INTEGER)%Z -> (0 < T < 100)%Z ->
  exists r, compute (mkData t t T) = Computed r /\
            currentPercentage r = Fin 100 /\ status r = safe /\
            classesToAttend r = Fin 0.
Proof.
  intros Ht HT. exists (resultQ t t T).
  split; [apply compute_valid; lia|].
  unfold resultQ, statusQ. cbn [currentPercentage status classesToAttend].
  rewrite (percentQ_full t) by lia. split; [reflexivity|]. split.
  - destruct (Qle_bool (inject_Z T) 100) eqn:E; [reflexivity|].
    assert (C : Qle_bool (inject_Z T) 100 = true).
    { apply Qle_bool_iff. change 100 with (inject_Z 100). rewrite <- Zle_Qle. lia. }
    congruence.
  - assert (Z0 : attendZ t t T = 0%Z).
    { unfold attendZ, attendNumQ. apply Zmax0_ceil_nonpos, R_nonpos, Qdiv_nonpos.
      - apply R_nonpos.
        assert (M : R (inject_Z T * inject_Z t) <= R (inject_Z 100 * inject_Z t)).
        { apply R_mono. assert (P := inject_Z_pos t ltac:(lia)).
          apply Qmult_le_compat_r; [|lra]. rewrite <- Zle_Qle. lia. }
        lra.
      - apply inject_Z_pos. lia. }
    rewrite Z0. reflexivity.
Qed.

Lemma X20_full_attendance_witness :
  exists r, compute (mkData 40 40 75) = Computed r /\
            currentPercentage r = Fin 100 /\ status r = safe /\
            classesToAttend r = Fin 0.
Proof.
  apply (X20_full_attendance 40 75); unfold MAX_SAFE_INTEGER; lia.
Defined.

Lemma Qeq_bool_pos x : 0 < x -> Qeq_bool x 0 = false.
Proof.
  intros H. destruct (Qeq_bool x 0) eqn:E; [|reflexivity].
  apply Qeq_bool_iff in E. lra.
Qed.

Lemma Qneg_pos x : 0 < x -> Qneg x = false.
Proof. intros H. apply Qneg_nonneg. lra. Qed.

(** A positive number divided by the positive zero is +Infinity. *)
Lemma div_by_zero x : 0 < x -> div (Fin x) (Fin (inject_Z 0)) = Inf false.
Proof.
  intros H. unfold div. cbn [value signbit].
  change (Qeq_bool (inject_Z 0) 0) with true. cbv iota.
  rewrite (Qeq_bool_pos x H), (Qneg_pos x H). reflexivity.
Qed.

(** X21: with the target field empty (target 0) and valid positive counts,
    the result is safe, no class is to be attended, and classesToBunk is
    +Infinity: the row 'Safe to bunk' is shown with it. *)
Theorem X21_empty_target (t a : Z) (st : State) :
  (0 < t <= MAX_SAFE_INTEGER)%Z -> (0 < a <= t)%Z ->
  targetPercentage (data (updateData FTargetPercentage None st)) = of_Z 0 /\
  exists r, compute (mkData t a 0) = Computed r /\
            status r = safe /\ classesToAttend r = Fin 0 /\
            classesToBunk r = Inf false /\ showSafeToBunk r = true.
Proof.
  intros Ht Ha. split; [reflexivity|].
  assert (Ha' : (0 <= a <= t)%Z) by lia.
  destruct (tq_bounds t Ht) as [T1 T2]. destruct (aq_bounds t a Ha') as [A1 A2].
  assert (A0 : 1 <= inject_Z a).
  { change 1 with (inject_Z 1). rewrite <- Zle_Qle. lia. }
  assert (P60 := pow2_60). assert (M60 := opp_pow2_m60).
  (* the pieces of the two counters *)
  assert (E1 : mul (Fin (inject_Z 0)) (Fin (inject_Z t)) = Fin 0).
  { rewrite mul_Fin; [|change (inject_Z 0) with 0; lra..].
    rewrite (R_proper (inject_Z 0 * inject_Z t) 0); [reflexivity|].
    change (inject_Z 0) with 0. ring. }
  assert (B2 : 100 <= R (inject_Z 100 * inject_Z a) /\
               R (inject_Z 100 * inject_Z a) <= pow2 60).
  { split.
    - change 100 with (R 100) at 1. apply R_mono.
      change (inject_Z 100) with 100. lra.
    - apply R_le_pow2; [lia|]. change (inject_Z 100) with 100. lra. }
  assert (E2 : mul (Fin (inject_Z 100)) (Fin (inject_Z a))
               = Fin (R (inject_Z 100 * inject_Z a))).
  { apply mul_Fin; change (inject_Z 100) with 100; lra. }
  set (w := R (inject_Z 100 * inject_Z a)) in *.
  assert (B3 : - pow2 60 <= R (0 - w) <= - 100).
  { split.
    - apply R_ge_opp_pow2; [lia|]. lra.
    - apply (R_le_Z _ (-100)); [lia|]. change (inject_Z (-100)) with (-100). lra. }
  assert (E3 : sub (Fin 0) (Fin w) = Fin (R (0 - w))).
  { apply sub_Fin; [lra | right; lra]. }
  assert (E4 : sub (Fin (inject_Z 100)) (Fin (inject_Z 0)) = Fin (inject_Z 100)).
  { apply (sub_Z 100 0). lia. }
  set (x := R (0 - w)) in *.
  assert (Q5 : - pow2 60 <= x / inject_Z 100 <= - 1).
  { change (inject_Z 100) with 100. split.
    - apply Qle_shift_div_l; lra.
    - apply Qle_shift_div_r; lra. }
  assert (E5 : div (Fin x) (Fin (inject_Z 100)) = Fin (R (x / inject_Z 100))).
  { apply div_Fin; [reflexivity | lra | right; lra]. }
  assert (E6 : max (Fin (inject_Z 0)) (ceil (Fin (R (x / inject_Z 100)))) = Fin 0).
  { rewrite max_ceil, Zmax0_ceil_nonpos; [reflexivity|]. apply R_nonpos. lra. }
  assert (F1 : div (Fin (inject_Z 0)) (Fin (inject_Z 100)) = Fin (inject_Z 0))
    by reflexivity.
  assert (F3 : sub (Fin (inject_Z a)) (Fin 0) = Fin (inject_Z a)).
  { change (Fin 0) with (Fin (inject_Z 0)). rewrite sub_Z by (unfold MAX_SAFE_INTEGER in *; lia).
    rewrite Z.sub_0_r. reflexivity. }
  assert (F4 : div (Fin (inject_Z a)) (Fin (inject_Z 0)) = Inf false)
    by (apply div_by_zero; lra).
  assert (B : 0 <= percentQ t a) by (apply percentQ_bounds; assumption).
  (* the record *)
  eexists. split.
  - unfold compute, mkData. cbn [totalClasses attendedClasses targetPercentage].
    rewrite (of_Z_safe t), (of_Z_safe a)
      by (unfold safe_integer, MAX_SAFE_INTEGER in *; lia).
    rewrite (of_Z_safe 0), (of_Z_safe 100), (of_Z_safe 5) by (apply safe_small; lia).
    unfold ge, gt. rewrite le_Z, lt_Z.
    destruct (Z.leb_spec t 0); [lia|]. destruct (Z.ltb_spec t a); [lia|].
    rewrite (percentage_valid t a Ht Ha').
    rewrite E1, E2. fold w. rewrite E3. fold x. rewrite E4, E5, E6, F1, E1, F3, F4.
    cbn [floor le value].
    assert (S : Qle_bool (inject_Z 0) (percentQ t a) = true)
      by (apply Qle_bool_iff; exact B).
    rewrite S. reflexivity.
  - cbn [status classesToAttend classesToBunk]. repeat split.
Qed.

Lemma X21_empty_target_witness :
  targetPercentage (data (updateData FTargetPercentage None initialState)) = of_Z 0 /\
  exists r, compute (mkData 50 40 0) = Computed r /\
            status r = safe /\ classesToAttend r = Fin 0 /\
            classesToBunk r = Inf false /\ showSafeToBunk r = true.
Proof.
  apply (X21_empty_target 50 40 initialState); unfold MAX_SAFE_INTEGER; lia.
Defined.
Lemma R_near_one : R (1 - (1 # 70368744177664)) == 1 - (1 # 70368744177664).
Proof. vm_compute. reflexivity. Qed.

Lemma R_near_100 : R ((1 - (1 # 70368744177664)) * 100) < 100.
Proof. vm_compute. reflexivity. Qed.

(** With a total up to 2^46 and a class missed, the rounded percentage stays
    below 100. *)
Lemma percentQ_below_100 (t a : Z) :
  (0 < t <= MAX_EXACT_TOTAL)%Z -> (0 <= a < t)%Z -> percentQ t a < 100.
Proof.
  intros Ht Ha. assert (P := inject_Z_pos t ltac:(lia)).
  assert (U : inject_Z t <= 70368744177664).
  { change 70368744177664 with (inject_Z 70368744177664).
    rewrite <- Zle_Qle. unfold MAX_EXACT_TOTAL in Ht. lia. }
  assert (A : inject_Z a + 1 <= inject_Z t).
  { change 1 with (inject_Z 1). rewrite <- inject_Z_plus, <- Zle_Qle. lia. }
  assert (Q : inject_Z a / inject_Z t <= 1 - (1 # 70368744177664)).
  { apply Qle_shift_div_r; [exact P|]. nra. }
  assert (M := R_mono _ _ Q). rewrite R_near_one in M.
  assert (N : R (inject_Z a / inject_Z t) * inject_Z 100
              <= (1 - (1 # 70368744177664)) * 100).
  { change (inject_Z 100) with 100. lra. }
  assert (K := R_mono _ _ N). assert (L := R_near_100).
  unfold percentQ. lra.
Qed.

(** X22: with the target at 100, which the field allows, valid counts with a
    total up to 2^46 and a class missed give classesToAttend = +Infinity, a
    status that is not safe, and a Strategic Plan of +Infinity weeks. *)
Theorem X22_target_100 (t a : Z) :
  (0 < t <= MAX_EXACT_TOTAL)%Z -> (0 <= a < t)%Z ->
  exists r, compute (mkData t a 100) = Computed r /\
            classesToAttend r = Inf false /\ status r <> safe /\
            showClassesToAttend r = true /\
            weeksNeeded (classesToAttend r) = Inf false.
Proof.
  intros Ht Ha.
  assert (Hs := exact_total_safe t Ht). assert (Ha' : (0 <= a <= t)%Z) by lia.
  assert (X : (100 * t < 2 ^ 53)%Z) by (unfold MAX_EXACT_TOTAL in Ht; lia).
  assert (P60 := pow2_60).
  assert (Bt : 0 <= inject_Z (100 * t) <= 9007199254740992).
  { change 0 with (inject_Z 0).
    change 9007199254740992 with (inject_Z 9007199254740992).
    rewrite <- !Zle_Qle. lia. }
  assert (Ba : 0 <= inject_Z (100 * a) <= 9007199254740992).
  { change 0 with (inject_Z 0).
    change 9007199254740992 with (inject_Z 9007199254740992).
    rewrite <- !Zle_Qle. lia. }
  assert (E1 : mul (Fin (inject_Z 100)) (Fin (inject_Z t)) = Fin (inject_Z (100 * t))).
  { rewrite mul_Fin.
    - rewrite <- inject_Z_mult, R_Z by lia. reflexivity.
    - change (inject_Z 100) with 100. lra.
    - apply inject_Z_nonneg. lia.
    - rewrite <- inject_Z_mult. lra. }
  assert (E2 : mul (Fin (inject_Z 100)) (Fin (inject_Z a)) = Fin (inject_Z (100 * a))).
  { rewrite mul_Fin.
    - rewrite <- inject_Z_mult, R_Z by lia. reflexivity.
    - change (inject_Z 100) with 100. lra.
    - apply inject_Z_nonneg. lia.
    - rewrite <- inject_Z_mult. lra. }
  assert (E3 : sub (Fin (inject_Z (100 * t))) (Fin (inject_Z (100 * a)))
               = Fin (inject_Z (100 * t - 100 * a))) by (apply sub_Z; lia).
  assert (E4 : sub (Fin (inject_Z 100)) (Fin (inject_Z 100)) = Fin (inject_Z 0))
    by (apply (sub_Z 100 100); lia).
  assert (E5 : div (Fin (inject_Z (100 * t - 100 * a))) (Fin (inject_Z 0)) = Inf false).
  { apply div_by_zero, inject_Z_pos. lia. }
  assert (L := percentQ_below_100 t a Ht Ha).
  assert (S : Qle_bool (inject_Z 100) (percentQ t a) = false).
  { destruct (Qle_bool (inject_Z 100) (percentQ t a)) eqn:E; [|reflexivity].
    apply Qle_bool_iff in E. change (inject_Z 100) with 100 in E. lra. }
  assert (C : exists r, compute (mkData t a 100) = Computed r /\
                        classesToAttend r = Inf false /\ status r <> safe).
  { unfold compute, mkData. cbn [totalClasses attendedClasses targetPercentage].
    rewrite (of_Z_safe t), (of_Z_safe a)
      by (unfold safe_integer, MAX_SAFE_INTEGER in *; lia).
    rewrite (of_Z_safe 0), (of_Z_safe 100), (of_Z_safe 5) by (apply safe_small; lia).
    unfold ge, gt. rewrite le_Z, lt_Z.
    destruct (Z.leb_spec t 0); [lia|]. destruct (Z.ltb_spec t a); [lia|].
    rewrite (percentage_valid t a Hs Ha').
    rewrite E1, E2, E3, E4, E5. cbn [ceil].
    change (max (Fin (inject_Z 0)) (Inf false)) with (Inf false).
    cbn [le value]. rewrite S.
    destruct (le _ (Fin (percentQ t a))); eexists;
      (split; [reflexivity|]); cbn [classesToAttend status];
      (split; [reflexivity | intros K; discriminate K]). }
  destruct C as (r & E & A & N). exists r.
  split; [exact E|]. split; [exact A|]. split; [exact N|]. split.
  - unfold showClassesToAttend. rewrite A.
    destruct (status r); [contradiction N; reflexivity | reflexivity | reflexivity].
  - rewrite A. reflexivity.
Qed.

Lemma X22_target_100_witness :
  exists r, compute (mkData 50 40 100) = Computed r /\
            classesToAttend r = Inf false /\ status r <> safe /\
            showClassesToAttend r = true /\
            weeksNeeded (classesToAttend r) = Inf false.
Proof.
  apply (X22_target_100 50 40); unfold MAX_EXACT_TOTAL; lia.
Defined.

(** ** Reachable states *)

Lemma stored_of_Z (parsed : option Z) : exists z, stored parsed = of_Z z.
Proof. destruct parsed as [z|]; [exists z | exists 0%Z]; reflexivity. Qed.

Lemma handle_inv (st : State) (e : Event) :
  reachable_inv st -> reachable_inv (handle st e).
Proof.
  intros [(t & a & T & D) R]. destruct e as [f p | | | | b]; cbn [handle].
  - split.
    + assert (S : (match p with
                   | Some z => if truthy (of_Z z) then of_Z z else of_Z 0
                   | None => of_Z 0
                   end) = stored p).
      { destruct p as [z|]; [apply or_zero_of_Z | reflexivity]. }
      destruct (stored_of_Z p) as [z Ez].
      unfold updateData. cbv zeta. rewrite S, Ez, D. cbn [data].
      destruct f; unfold mkData; cbn [totalClasses attendedClasses targetPercentage];
        [exists z, a, T | exists t, z, T | exists t, a, z]; reflexivity.
    + exact R.
  - unfold clickCalculate. destruct (calculateDisabled (data st)) eqn:Dis.
    + split; [exists t, a, T; exact D | exact R].
    + unfold calculateAttendance. destruct (compute (data st)) as [err | r] eqn:C.
      * split; [exists t, a, T; exact D | exact R].
      * split; [exists t, a, T; exact D|]. cbn [result]. intros r' E.
        injection E as <-. exists t, a, T. rewrite <- D. split; [exact C|].
        rewrite D in Dis.
        assert (N : ~ (t = 0%Z \/ a = 0%Z)).
        { intros K. apply calculateDisabled_mkData with (T := T) in K. congruence. }
        tauto.
  - split; [exists 0%Z, 0%Z, 75%Z; reflexivity|]. cbn [resetCalculator result].
    intros r E. discriminate E.
  - unfold clickShare. destruct (result st) eqn:Rs.
    + split; [exists t, a, T; exact D|]. cbn [result]. exact R.
    + split; [exists t, a, T; exact D|]. intros r E. rewrite Rs in E. discriminate E.
  - split; [exists t, a, T; exact D | exact R].
Qed.

(** X23: whatever is typed and clicked, the data are three integers, and a
    result on screen is one that [compute] returned for integer data with
    both counts different from 0; no event stores anything else. *)
Theorem X23_reachable_states (events : list Event) :
  (exists t a T, data (run events) = mkData t a T) /\
  (forall r, result (run events) = Some r ->
     exists t a T, compute (mkData t a T) = Computed r /\ t <> 0%Z /\ a <> 0%Z).
Proof.
  change (reachable_inv (run events)). unfold run.
  induction events as [|e events IH] using rev_ind.
  - split; [exists 0%Z, 0%Z, 75%Z; reflexivity|]. intros r E. discriminate E.
  - rewrite fold_left_app. cbn [fold_left]. apply handle_inv, IH.
Qed.
(** ** Status against the exact ratio, and more classes attended *)

(** X24: on valid inputs with a total up to 2^46 the status follows the
    exact ratio away from the target: it is safe whenever attended / total *
    100 is strictly above the target and not safe whenever it is strictly
    below. *)
Theorem X24_status_exact (t a T : Z) (r : AttendanceResult) :
  (0 < t <= MAX_EXACT_TOTAL)%Z -> (0 <= a <= t)%Z -> (0 < T < 100)%Z ->
  compute (mkData t a T) = Computed r ->
  ((T * t < 100 * a)%Z -> status r = safe) /\
  ((100 * a < T * t)%Z -> status r <> safe).
Proof.
  intros Ht Ha HT E.
  destruct (status_iff t a T r (exact_total_safe t Ht) Ha HT E) as (_ & _ & _ & S).
  split.
  - intros H. apply S.
    destruct (Qlt_le_dec (percentQ t a) (inject_Z T)) as [L | G]; [|exact G].
    apply (percentQ_not_above t a T Ht Ha HT) in L. lia.
  - intros H C. apply S in C.
    assert (L := percentQ_below t a T Ht Ha HT H). lra.
Qed.

Lemma X24_status_exact_witness :
  ((75 * 50 < 100 * 40)%Z -> status (resultQ 50 40 75) = safe) /\
  ((100 * 40 < 75 * 50)%Z -> status (resultQ 50 40 75) <> safe).
Proof.
  apply (X24_status_exact 50 40 75 (resultQ 50 40 75));
    try (unfold MAX_EXACT_TOTAL; lia).
  vm_compute. reflexivity.
Defined.

Section MoreAttended.

Variables t a a' T : Z.
Hypothesis Ht : (0 < t <= MAX_SAFE_INTEGER)%Z.
Hypothesis Ha : (0 <= a)%Z.
Hypothesis Haa : (a <= a')%Z.
Hypothesis Ha' : (a' <= t)%Z.
Hypothesis HT : (0 < T < 100)%Z.

Lemma attendNumQ_anti_attended : attendNumQ t a' T <= attendNumQ t a T.
Proof.
  unfold attendNumQ. apply R_mono.
  assert (M : R (inject_Z 100 * inject_Z a) <= R (inject_Z 100 * inject_Z a')).
  { apply R_mono. apply Qmult_le_l; [reflexivity|]. rewrite <- Zle_Qle. exact Haa. }
  lra.
Qed.

Lemma attendZ_anti_attended : (attendZ t a' T <= attendZ t a T)%Z.
Proof.
  unfold attendZ. assert (M := attendNumQ_anti_attended).
  assert (D := inject_Z_pos (100 - T) ltac:(lia)).
  apply Z.max_le_compat_l, Qceiling_resp_le, R_mono.
  apply Qmult_le_compat_r; [exact M|]. apply Qinv_le_0_compat. lra.
Qed.

Lemma bunkNumQ_mono_attended : bunkNumQ t a T <= bunkNumQ t a' T.
Proof.
  unfold bunkNumQ. apply R_mono.
  assert (M : inject_Z a <= inject_Z a') by (rewrite <- Zle_Qle; exact Haa).
  lra.
Qed.

Lemma bunkZ_mono_attended : (bunkZ t a T <= bunkZ t a' T)%Z.
Proof.
  unfold bunkZ. assert (M := bunkNumQ_mono_attended).
  destruct (fracQ_bounds T HT) as [F1 _]. assert (P7 := pow2_pos (-7)).
  apply Z.max_le_compat_l, Qfloor_resp_le, R_mono.
  apply Qmult_le_compat_r; [exact M|]. apply Qinv_le_0_compat. lra.
Qed.

End MoreAttended.

(** X25: attending more never hurts.  For the same total and target, with
    more classes attended the percentage is not lower, classesToAttend is
    not higher, classesToBunk is not lower, and a safe status stays safe. *)
Theorem X25_more_attended (t a a' T : Z) (r r' : AttendanceResult) :
  (0 < t <= MAX_SAFE_INTEGER)%Z -> (0 <= a)%Z -> (a <= a')%Z -> (a' <= t)%Z ->
  (0 < T < 100)%Z ->
  compute (mkData t a T) = Computed r ->
  compute (mkData t a' T) = Computed r' ->
  le (currentPercentage r) (currentPercentage r') = true /\
  le (classesToAttend r') (classesToAttend r) = true /\
  le (classesToBunk r) (classesToBunk r') = true /\
  (status r = safe -> status r' = safe).
Proof.
  intros Ht Ha Haa Ha' HT E E'.
  destruct (status_iff t a T r Ht ltac:(lia) HT E) as (P & A & B & S).
  destruct (status_iff t a' T r' Ht ltac:(lia) HT E') as (P' & A' & B' & S').
  assert (M : percentQ t a <= percentQ t a') by (apply percentQ_mono; nia).
  rewrite P, P', A, A', B, B', !le_Z. cbn [le value].
  split; [apply Qle_bool_iff; exact M|].
  split; [apply Z.leb_le, attendZ_anti_attended; assumption|].
  split; [apply Z.leb_le, bunkZ_mono_attended; assumption|].
  intros C. apply S'. apply S in C. lra.
Qed.

Lemma X25_more_attended_witness :
  le (currentPercentage (resultQ 50 30 75)) (currentPercentage (resultQ 50 40 75)) = true /\
  le (classesToAttend (resultQ 50 40 75)) (classesToAttend (resultQ 50 30 75)) = true /\
  le (classesToBunk (resultQ 50 30 75)) (classesToBunk (resultQ 50 40 75)) = true /\
  (status (resultQ 50 30 75) = safe -> status (resultQ 50 40 75) = safe).
Proof.
  apply (X25_more_attended 50 30 40 75 (resultQ 50 30 75) (resultQ 50 40 75));
    try (unfold MAX_SAFE_INTEGER; lia); vm_compute; reflexivity.
Defined.
(** ** classesToBunk against the largest number of classes to miss *)

Lemma R_zero (x : Q) : x == 0 -> R x = 0.
Proof. intros E. rewrite (R_proper _ _ E). reflexivity. Qed.

(** The absolute error of a rounding, for either sign. *)
Lemma R_abs_error_sym x k :
  (-1021 <= k)%Z -> - pow2 k <= x <= pow2 k ->
  x - pow2 (k - 54) <= R x /\ R x <= x + pow2 (k - 54).
Proof.
  intros Hk [L U]. assert (P := pow2_pos (k - 54)).
  destruct (Qlt_le_dec 0 x) as [Px | Nx].
  - apply R_abs_error; assumption.
  - destruct (Qlt_le_dec x 0) as [Lx | Zx].
    + destruct (R_abs_error (- x) k Hk ltac:(lra) ltac:(lra)) as [E1 E2].
      rewrite R_opp in E1, E2. split; lra.
    + assert (E : x == 0) by lra. rewrite (R_zero x E). split; lra.
Qed.

Lemma pow2_40 : pow2 40 == 1099511627776.
Proof. reflexivity. Qed.

Lemma pow2_47 : pow2 47 == 140737488355328.
Proof. reflexivity. Qed.

Lemma pow2_m14 : pow2 (-14) == 1 # 16384.
Proof. reflexivity. Qed.

Section BunkBounds.

Variables t a T : Z.
Hypothesis Ht : (0 < t <= MAX_BUNK_TOTAL)%Z.
Hypothesis Ha : (0 <= a <= t)%Z.
Hypothesis HT : (0 < T < 100)%Z.

Local Abbreviation tq := (inject_Z t).
Local Abbreviation aq := (inject_Z a).
Local Abbreviation Tq := (inject_Z T).
Local Abbreviation u := (1 # 9007199254740992).
Local Abbreviation p := (fracQ T).
Local Abbreviation w := (R (fracQ T * inject_Z t)).
Local Abbreviation n := (bunkNumQ t a T).
Local Abbreviation q := (R (bunkNumQ t a T / fracQ T)).

Lemma bunk_bounds :
  1 <= tq /\ tq <= 1099511627776 /\ 0 <= aq /\ aq <= tq /\ 1 <= Tq /\ Tq <= 99.
Proof.
  change 1 with (inject_Z 1). change 0 with (inject_Z 0).
  change 99 with (inject_Z 99).
  change 1099511627776 with (inject_Z 1099511627776).
  rewrite <- !Zle_Qle. unfold MAX_BUNK_TOTAL in Ht. lia.
Qed.

Lemma frac_error : Tq / 100 * (1 - u) <= p /\ p <= Tq / 100 * (1 + u).
Proof.
  destruct bunk_bounds as (B1 & B2 & B3 & B4 & B5 & B6).
  assert (N : pow2 (-1022) <= Tq / 100).
  { apply Qle_trans with (pow2 (-7)); [apply pow2_le; lia|].
    rewrite pow2_m7. apply Qle_shift_div_l; lra. }
  destruct (R_error _ N) as [E1 E2]. rewrite pow2_m53 in E1, E2.
  unfold fracQ. qlit. split; assumption.
Qed.

Lemma frac_range : 1 # 128 <= p /\ p <= 1.
Proof.
  destruct (fracQ_bounds T HT) as [F1 F2]. rewrite pow2_m7 in F1. split; assumption.
Qed.

Lemma prod_error : p * tq - (1 # 16384) <= w /\ w <= p * tq + (1 # 16384).
Proof.
  destruct bunk_bounds as (B1 & B2 & B3 & B4 & B5 & B6).
  destruct frac_range as [F1 F2].
  destruct (R_abs_error (p * tq) 40 ltac:(lia) ltac:(nra)
              ltac:(rewrite pow2_40; nra)) as [E1 E2].
  change (40 - 54)%Z with (-14)%Z in E1, E2. rewrite pow2_m14 in E1, E2.
  split; assumption.
Qed.

Lemma prod_range : 0 <= w /\ w <= 1099511627776.
Proof.
  destruct bunk_bounds as (B1 & B2 & B3 & B4 & B5 & B6).
  destruct frac_range as [F1 F2]. assert (E := pow2_40). split.
  - apply R_nonneg. nra.
  - assert (K : w <= pow2 40) by (apply R_le_pow2; [lia|]; rewrite E; nra).
    lra.
Qed.

Lemma num_error :
  aq - w - (1 # 16384) <= n /\ n <= aq - w + (1 # 16384).
Proof.
  destruct bunk_bounds as (B1 & B2 & B3 & B4 & B5 & B6).
  destruct prod_range as [W1 W2]. unfold bunkNumQ.
  destruct (R_abs_error_sym (aq - w) 40 ltac:(lia)
              ltac:(rewrite pow2_40; lra)) as [E1 E2].
  change (40 - 54)%Z with (-14)%Z in E1, E2. rewrite pow2_m14 in E1, E2.
  split; assumption.
Qed.

Lemma num_range : - 1099511627776 <= n /\ n <= 1099511627776.
Proof.
  destruct bunk_bounds as (B1 & B2 & B3 & B4 & B5 & B6).
  destruct prod_range as [W1 W2]. unfold bunkNumQ.
  assert (E := pow2_40).
  assert (K1 : - pow2 40 <= R (aq - w)) by (apply R_ge_opp_pow2; [lia|]; lra).
  assert (K2 : R (aq - w) <= pow2 40) by (apply R_le_pow2; [lia|]; lra).
  split; lra.
Qed.

Lemma quot_error :
  n / p - (1 # 128) <= q /\ q <= n / p + (1 # 128).
Proof.
  destruct frac_range as [F1 F2]. destruct num_range as [N1 N2].
  assert (Q : - pow2 47 <= n / p <= pow2 47).
  { rewrite pow2_47. split.
    - apply Qle_shift_div_l; [lra | nra].
    - apply Qle_shift_div_r; [lra | nra]. }
  destruct (R_abs_error_sym (n / p) 47 ltac:(lia) Q) as [E1 E2].
  change (47 - 54)%Z with (-7)%Z in E1, E2. rewrite pow2_m7 in E1, E2.
  split; assumption.
Qed.

(** The rounded quotient is within 1 / target of the exact one. *)
Lemma quot_close :
  inject_Z (100 * a - T * t) - 1 < Tq * q /\
  Tq * q < inject_Z (100 * a - T * t) + 1.
Proof.
  destruct bunk_bounds as (B1 & B2 & B3 & B4 & B5 & B6).
  destruct frac_error as [P1 P2]. destruct frac_range as [F1 F2].
  destruct prod_error as [W1 W2]. destruct num_error as [N1 N2].
  destruct quot_error as [Q1 Q2].
  assert (EN : inject_Z (100 * a - T * t) == 100 * aq - Tq * tq).
  { unfold Z.sub. rewrite inject_Z_plus, inject_Z_opp, !inject_Z_mult. reflexivity. }
  rewrite EN.
  set (P := Tq / 100) in *.
  assert (EP : Tq == 100 * P) by (unfold P; field).
  assert (PP : 1 # 100 <= P /\ P <= 99 # 100).
  { unfold P. split; [apply Qle_shift_div_l | apply Qle_shift_div_r]; lra. }
  set (e1 := p - P). set (e2 := w - p * tq). set (e3 := n - (aq - w)).
  set (e4 := q - n / p).
  assert (H1 : - (u * P) <= e1 /\ e1 <= u * P) by (unfold e1; split; lra).
  assert (H2 : - (1 # 16384) <= e2 /\ e2 <= 1 # 16384) by (unfold e2; split; lra).
  assert (H3 : - (1 # 16384) <= e3 /\ e3 <= 1 # 16384) by (unfold e3; split; lra).
  assert (H4 : - (1 # 128) <= e4 /\ e4 <= 1 # 128) by (unfold e4; split; lra).
  assert (K : p * (Tq * q - (100 * aq - Tq * tq))
              == 100 * (- (aq * e1) + P * (e3 - e2) + P * p * e4)).
  { unfold e1, e2, e3, e4. rewrite EP. field. lra. }
  assert (A1 : - (1099511627776 * (u * P)) <= aq * e1 /\
               aq * e1 <= 1099511627776 * (u * P)).
  { destruct H1. split; nra. }
  assert (A2 : - ((1 # 8192) * P) <= P * (e3 - e2) /\
               P * (e3 - e2) <= (1 # 8192) * P).
  { destruct H2, H3. split; nra. }
  assert (G : 0 <= P * p /\ P * p <= P) by (split; nra).
  assert (A3 : - ((1 # 128) * P) <= P * p * e4 /\ P * p * e4 <= (1 # 128) * P).
  { destruct H4, G. split; nra. }
  set (x := Tq * q - (100 * aq - Tq * tq)) in *.
  set (s := - (aq * e1) + P * (e3 - e2) + P * p * e4) in *.
  assert (S : - ((1 # 120) * P) <= s /\ s <= (1 # 120) * P).
  { unfold s. destruct A1, A2, A3. split; lra. }
  assert (PL : P * (99 # 100) <= p) by lra.
  assert (X : - 1 < x /\ x < 1).
  { destruct S as [S1 S2]. split.
    - apply Qnot_le_lt. intros C. assert (p * x <= - p) by nra. lra.
    - apply Qnot_le_lt. intros C. assert (p <= p * x) by nra. lra. }
  destruct X. unfold x in *. split; lra.
Qed.

(** The floor of the rounded quotient is the floor of the exact one, or one
    below it. *)
Lemma floor_close :
  let m := Qfloor q in
  (T * m <= 100 * a - T * t)%Z /\ (100 * a - T * t <= T * (m + 1))%Z.
Proof.
  cbv zeta. destruct quot_close as [C1 C2].
  destruct bunk_bounds as (B1 & B2 & B3 & B4 & B5 & B6).
  assert (F1 := Qfloor_le q). assert (F2 := Qlt_floor q).
  set (m := Qfloor q) in *. set (N := (100 * a - T * t)%Z) in *.
  assert (L : Tq * inject_Z m < inject_Z N + 1) by nra.
  assert (U : inject_Z N - 1 < Tq * inject_Z (m + 1)) by nra.
  rewrite <- inject_Z_mult in L, U.
  change 1 with (inject_Z 1) in L, U.
  rewrite <- inject_Z_plus in L.
  assert (U' : inject_Z N < inject_Z (T * (m + 1)) + inject_Z 1) by lra.
  rewrite <- inject_Z_plus in U'.
  rewrite <- Zlt_Qlt in L, U'. lia.
Qed.

Lemma bunkZ_close :
  (largestMissable t a T - 1 <= bunkZ t a T <= largestMissable t a T)%Z.
Proof.
  destruct floor_close as [L U]. unfold bunkZ, largestMissable.
  set (m := Qfloor q) in *. set (N := (100 * a - T * t)%Z) in *.
  assert (D1 := Z.mul_div_le N T ltac:(lia)).
  assert (D2 := Z.mul_succ_div_gt N T ltac:(lia)).
  assert (M1 : (m <= N / T)%Z) by nia.
  assert (M2 : (N / T <= m + 1)%Z) by nia.
  lia.
Qed.

End BunkBounds.

(** X26: on valid inputs with a total up to 2^40 classesToBunk never
    overstates: it is the largest number of classes that can be missed,
    floor((100 * attended - target * total) / target) at least 0, or one
    less.  So when the exact ratio is at or above the target, missing
    classesToBunk classes keeps it there, and missing two more than
    classesToBunk never does. *)
Theorem X26_classesToBunk_bounds (t a T : Z) (r : AttendanceResult) :
  (0 < t <= MAX_BUNK_TOTAL)%Z -> (0 <= a <= t)%Z -> (0 < T < 100)%Z ->
  compute (mkData t a T) = Computed r ->
  exists m,
    classesToBunk r = Fin (inject_Z m) /\ (0 <= m)%Z /\
    (largestMissable t a T - 1 <= m <= largestMissable t a T)%Z /\
    ((T * t <= 100 * a)%Z -> holdsTarget t a T m) /\
    ~ holdsTarget t a T (m + 2).
Proof.
  intros Ht Ha HT E.
  assert (Hs : (0 < t <= MAX_SAFE_INTEGER)%Z)
    by (unfold MAX_BUNK_TOTAL, MAX_SAFE_INTEGER in *; lia).
  destruct (status_iff t a T r Hs Ha HT E) as (_ & _ & B & _).
  exists (bunkZ t a T). split; [exact B|].
  assert (N : (0 <= bunkZ t a T)%Z) by (unfold bunkZ; lia).
  split; [exact N|].
  assert (C := bunkZ_close t a T Ht Ha HT).
  split; [exact C|].
  unfold largestMissable in C.
  assert (D1 := Z.mul_div_le (100 * a - T * t) T ltac:(lia)).
  assert (D2 := Z.mul_succ_div_gt (100 * a - T * t) T ltac:(lia)).
  set (M0 := ((100 * a - T * t) / T)%Z) in *.
  split.
  - intros H. apply holdsTarget_iff; [lia|].
    assert (Z0 : (0 <= M0)%Z) by (unfold M0; apply Z.div_pos; lia).
    nia.
  - intros H. apply holdsTarget_iff in H; [|lia]. nia.
Qed.

Lemma X26_classesToBunk_bounds_witness :
  exists m,
    classesToBunk (resultQ 9 8 80) = Fin (inject_Z m) /\ (0 <= m)%Z /\
    (largestMissable 9 8 80 - 1 <= m <= largestMissable 9 8 80)%Z /\
    ((80 * 9 <= 100 * 8)%Z -> holdsTarget 9 8 80 m) /\
    ~ holdsTarget 9 8 80 (m + 2).
Proof.
  apply (X26_classesToBunk_bounds 9 8 80 (resultQ 9 8 80));
    try (unfold MAX_BUNK_TOTAL; lia).
  vm_compute. reflexivity.
Defined.
